(** * Bulk tanker delivery API: a shallow embedding and its properties

    Sources embedded here:
    - [app/models/bulk_tanker.py]: the enumerations and the table rows;
    - [app/api/v1/bulk_tanker_delivery.py]: the request models with their
      validators and the handlers [validate_cross_contamination],
      [get_cleaning_estimate], [create_bulk_tanker_delivery] and
      [update_delivery_status].

    Conventions.  Python [int] is [Z].  [decimal.Decimal] is a coefficient and
    an exponent, with the default context (28 significant digits, round half
    to even) applied after each operation.  A table is a finite map from the
    primary key to the row.  A handler is a function of the database that
    either raises (nothing is committed: the session is closed without a
    commit) or returns its response together with the committed database.
    The database is a record keeper: it stores the rows exactly as the
    handler builds them; the coercion of a value to its column type
    ([DECIMAL(10, 2)] for a weight, say) and the constraints of the tables
    are PostgreSQL's and are not part of the embedding.  The examples use
    rows and requests that satisfy those constraints. *)

From Stdlib Require Import ZArith QArith Qpower Qfield Lia List.
From stdpp Require Import base option list gmap strings pretty.

Local Open Scope Z_scope.

(* ===================================================================== *)
(** * Python's [decimal.Decimal] under the default context               *)
(* ===================================================================== *)

Module Decimal.

(** A finite decimal: the number [dcoef * 10 ^ dexp].  The sign is the
    sign of the coefficient.  The operations follow [_pydecimal.py]; the
    exponent limits [Emin] and [Emax] of the context, six digits long, are
    out of reach of the numbers of this program and are left out. *)
Record t : Type := mk { dcoef : Z; dexp : Z }.

(** [getcontext().prec] *)
Definition prec : Z := 28.

(** [len(str(n))] for [0 <= n]. *)
Fixpoint ndigits_fuel (fuel : nat) (n : Z) : Z :=
  match fuel with
  | O => 1
  | S fuel' => if n <? 10 then 1 else 1 + ndigits_fuel fuel' (n / 10)
  end.

Definition ndigits (n : Z) : Z := ndigits_fuel (Z.to_nat (Z.log2 n)) n.

(** Rounding of [n / 10 ^ k] to an integer, halves going to the even
    neighbour ([ROUND_HALF_EVEN]); [0 <= n], [0 < k]. *)
Definition round_half_even (n k : Z) : Z :=
  let q := n / 10 ^ k in
  let r := n mod 10 ^ k in
  let half := 5 * 10 ^ (k - 1) in
  if (half <? r) || ((r =? half) && Z.odd q) then q + 1 else q.

(** [Decimal._fix]: bring a result back to [prec] digits. *)
Definition fix_ (d : t) : t :=
  let n := Z.abs (dcoef d) in
  if n <? 10 ^ prec then d
  else
    let k := ndigits n - prec in
    let q := round_half_even n k in
    if q =? 10 ^ prec
    then mk (Z.sgn (dcoef d) * (q / 10)) (dexp d + k + 1)
    else mk (Z.sgn (dcoef d) * q) (dexp d + k).

(** [Decimal(str(n))] for an [int] [n], and [Decimal('0')]. *)
Definition of_int (n : Z) : t := mk n 0.
Definition zero : t := mk 0 0.

(** [a * b] *)
Definition mul (a b : t) : t :=
  fix_ (mk (dcoef a * dcoef b) (dexp a + dexp b)).

(** [_normalize]: the operand [tmp] of the larger exponent is brought to the
    exponent of [other]; an [other] too small to matter after rounding is
    first replaced by one unit at the exponent [bound]. *)
Definition normalize (tmp other : t) : t * t :=
  let bound := dexp tmp + Z.min (-1) (ndigits (Z.abs (dcoef tmp)) - prec - 2) in
  let other' :=
    if ndigits (Z.abs (dcoef other)) + dexp other - 1 <? bound
    then mk (Z.sgn (dcoef other)) bound
    else other in
  (mk (dcoef tmp * 10 ^ (dexp tmp - dexp other')) (dexp other'), other').

(** [a + b] *)
Definition add (a b : t) : t :=
  let e := Z.min (dexp a) (dexp b) in
  if (dcoef a =? 0) && (dcoef b =? 0) then fix_ (mk 0 e)
  else if dcoef a =? 0 then
    let e' := Z.max e (dexp b - prec - 1) in
    fix_ (mk (dcoef b * 10 ^ (dexp b - e')) e')
  else if dcoef b =? 0 then
    let e' := Z.max e (dexp a - prec - 1) in
    fix_ (mk (dcoef a * 10 ^ (dexp a - e')) e')
  else
    let '(op1, op2) :=
      if dexp a <? dexp b then normalize b a else normalize a b in
    fix_ (mk (dcoef op1 + dcoef op2) (dexp op1)).

(** The loop of [__truediv__] that takes an exact quotient towards the
    ideal exponent, one trailing zero at a time. *)
Fixpoint strip_zeros (fuel : nat) (coeff e ideal : Z) : Z * Z :=
  match fuel with
  | O => (coeff, e)
  | S fuel' =>
      if (e <? ideal) && (coeff mod 10 =? 0)
      then strip_zeros fuel' (coeff / 10) (e + 1) ideal
      else (coeff, e)
  end.

(** [a / b]; [None] stands for the [DivisionByZero] and
    [InvalidOperation] signals, which are exceptions under the default
    context. *)
Definition div (a b : t) : option t :=
  if dcoef b =? 0 then None
  else
    let sign := Z.sgn (dcoef a) * Z.sgn (dcoef b) in
    if dcoef a =? 0 then Some (fix_ (mk 0 (dexp a - dexp b)))
    else
      let n1 := Z.abs (dcoef a) in
      let n2 := Z.abs (dcoef b) in
      let shift := ndigits n2 - ndigits n1 + prec + 1 in
      let e := dexp a - dexp b - shift in
      let num := if 0 <=? shift then n1 * 10 ^ shift else n1 in
      let den := if 0 <=? shift then n2 else n2 * 10 ^ (- shift) in
      let coeff := num / den in
      let remainder := num mod den in
      let '(coeff', e') :=
        if remainder =? 0
        then strip_zeros (Z.to_nat (ndigits coeff)) coeff e (dexp a - dexp b)
        else ((if coeff mod 5 =? 0 then coeff + 1 else coeff), e) in
      Some (fix_ (mk (sign * coeff') e')).

(** [bool(d)]: a decimal is truthy when it is not zero. *)
Definition truthy (d : t) : bool := negb (dcoef d =? 0).

(** The rational number a decimal stands for. *)
Definition value (d : t) : Q := (inject_Z (dcoef d) * Qpower (inject_Z 10) (dexp d))%Q.

End Decimal.

(* ===================================================================== *)
(** * [app/models/bulk_tanker.py]: enumerations and table rows            *)
(* ===================================================================== *)

Module Models.

(** [datetime] values are points on an integer time line. *)
Definition datetime : Type := Z.

Inductive FuelType : Type :=
| DIESEL | PETROL | KEROSENE | JET_FUEL | HEATING_OIL | MARINE_FUEL | BIOFUEL.

Inductive CompartmentStatus : Type :=
| OPERATIONAL | MAINTENANCE_REQUIRED | FAILED | CLEANING_IN_PROGRESS
| OUT_OF_SERVICE.

Inductive TankerCertificationStatus : Type :=
| CERTIFIED | EXPIRED | SUSPENDED | PENDING_RENEWAL.

#[global] Instance FuelType_eq_dec : EqDecision FuelType.
Proof. solve_decision. Defined.
#[global] Instance CompartmentStatus_eq_dec : EqDecision CompartmentStatus.
Proof. solve_decision. Defined.
#[global] Instance TankerCertificationStatus_eq_dec :
  EqDecision TankerCertificationStatus.
Proof. solve_decision. Defined.

(** The [.value] of an enumeration member. *)
Definition TankerCertificationStatus_value
    (c : TankerCertificationStatus) : string :=
  match c with
  | CERTIFIED => "certified" | EXPIRED => "expired"
  | SUSPENDED => "suspended" | PENDING_RENEWAL => "pending_renewal"
  end.

(** Each table row is a record in a module of the class's name, so that
    [BulkTankerVehicles.dot_certified tanker] reads as
    [tanker.dot_certified].  The primary key column [id] is the key of
    the table's map and is not repeated in the row. *)

Module BulkTankerVehicles.
Record t : Type := {
  project_id : Z;
  total_capacity_liters : Z;
  compartment_count : Z;
  dot_certified : bool;
  hazmat_certification : bool;
  certification_status : TankerCertificationStatus;
  last_inspection : option datetime
}.
End BulkTankerVehicles.

(** [last_product_id] is the foreign key behind the [last_product]
    relationship. *)
Module TankerCompartments.
Record t : Type := {
  tanker_vehicle_id : Z;
  compartment_number : Z;
  capacity_liters : Z;
  operational_status : CompartmentStatus;
  current_product_id : option Z;
  last_product_id : option Z;
  requires_cleaning : bool
}.
End TankerCompartments.

Module FuelProducts.
Record t : Type := {
  product_code : string;
  fuel_type : FuelType;
  density_kg_per_liter : Decimal.t;
  hazmat_class : string;
  cross_contamination_risk : list string;
  cleaning_required_after : list string
}.
End FuelProducts.

Module BulkTankerDeliveries.
Record t : Type := {
  delivery_reference : string;
  delivery_type : string;
  project_id : Z;
  tanker_vehicle_id : Z;
  driver_id : option Z;
  planned_departure : datetime;
  planned_completion : datetime;
  total_volume_liters : Z;
  total_weight_kg : Decimal.t;
  capacity_utilization_percent : option Decimal.t;
  compartments_used : Z;
  delivery_status : string;
  actual_departure : option datetime;
  actual_completion : option datetime;
  distance_traveled_km : option Decimal.t;
  fuel_consumed_liters : option Decimal.t;
  co2_emissions_kg : option Decimal.t;
  safety_incidents : list string;
  created_at : datetime;
  updated_at : datetime
}.
End BulkTankerDeliveries.

Module CompartmentDeliveryAssignments.
Record t : Type := {
  delivery_id : Z;
  compartment_id : Z;
  fuel_product_id : Z;
  delivery_location_id : Z;
  assigned_volume_liters : Z;
  calculated_weight_kg : Decimal.t;
  loading_sequence : option Z;
  special_handling_requirements : option string;
  assignment_status : string
}.
End CompartmentDeliveryAssignments.

(** The values the [delivery_status_valid] check constraint admits. *)
Definition delivery_status_values : list string :=
  ["planned"; "dispatched"; "loading"; "in_transit"; "unloading";
   "completed"; "cancelled"]%string.

(** The values the [assignment_status_valid] check constraint admits. *)
Definition assignment_status_values : list string :=
  ["assigned"; "loading"; "loaded"; "in_transit"; "unloading";
   "delivered"; "completed"]%string.

(** The database: one finite map per table, keyed by the primary key. *)
Record Db : Type := {
  vehicles : gmap Z BulkTankerVehicles.t;
  compartments : gmap Z TankerCompartments.t;
  products : gmap Z FuelProducts.t;
  deliveries : gmap Z BulkTankerDeliveries.t;
  assignments : gmap Z CompartmentDeliveryAssignments.t
}.

(** The next value of a table's id sequence. *)
Definition next_id {A : Type} (m : gmap Z A) : Z :=
  1 + map_fold (fun k _ acc => Z.max k acc) 0 m.

(** The [last_product] relationship of a compartment. *)
Definition last_product (db : Db) (c : TankerCompartments.t)
    : option FuelProducts.t :=
  match TankerCompartments.last_product_id c with
  | Some pid => products db !! pid
  | None => None
  end.

(** The [compartment_assignments] relationship of a delivery, as pairs of
    the assignment's id and its row. *)
Definition compartment_assignments (db : Db) (delivery_id : Z)
    : list (Z * CompartmentDeliveryAssignments.t) :=
  filter (fun kv => CompartmentDeliveryAssignments.delivery_id (snd kv) = delivery_id)
         (map_to_list (assignments db)).

End Models.

(* ===================================================================== *)
(** * [app/api/v1/bulk_tanker_delivery.py]                                *)
(* ===================================================================== *)

Module Api.
Import Models.

(** ** Outcomes *)

(** One entry of a request-validation report. *)
Inductive Violation : Type :=
| not_gt (field : string) (limit : Z)        (* [Field(gt=limit)] *)
| min_items (field : string) (limit : Z)     (* [Field(min_items=limit)] *)
| str_regex (field : string)                 (* [Field(regex=...)] *)
| value_error (field : string) (msg : string).  (* [ValueError] of a validator *)

(** What a request can end in instead of a response. *)
Inductive Error : Type :=
| RequestValidationError (errors : list Violation)
    (* 422, raised by the framework before the handler runs *)
| NotFound (detail : string)
    (* 404 *)
| CapacityError (compartment_id compartment_capacity requested_volume
                 overflow_amount : Z)
    (* 422, [capacity_error] of type [capacity_overflow] *)
| ComplianceError (vehicle_id : Z) (last_inspection : option datetime)
                  (certification_status : string)
                  (required_actions : list string)
    (* 422, [compliance_error] of type [dot_certification_expired] *)
| ContaminationError (compartment_id : Z) (current_product : option string)
                     (requested_product : string) (cleaning_required : bool)
                     (estimated_cleaning_time : option Z)
    (* 422, [contamination_error] of type [cross_contamination] *)
| Unhandled (exception : string).
    (* an exception no handler catches: [NoResultFound], a decimal signal *)

Inductive Result (A : Type) : Type :=
| Ok (a : A)
| Raise (e : Error).
Arguments Ok {A} a.
Arguments Raise {A} e.

#[global] Instance Result_ret : MRet Result := fun _ a => Ok a.
#[global] Instance Result_bind : MBind Result := fun _ _ k r =>
  match r with
  | Ok a => k a
  | Raise e => Raise e
  end.

(** A [for] loop whose body may raise: the results in order, or the
    first exception. *)
Fixpoint for_each {A B : Type} (body : A -> Result B) (l : list A)
    : Result (list B) :=
  match l with
  | [] => Ok []
  | x :: l' => y ← body x; ys ← for_each body l'; Ok (y :: ys)
  end.

(** A [for] loop that updates an accumulator and may raise. *)
Fixpoint for_fold {A S : Type} (body : S -> A -> Result S) (acc : S)
    (l : list A) : Result S :=
  match l with
  | [] => Ok acc
  | x :: l' => acc' ← body acc x; for_fold body acc' l'
  end.

(** ** Queries by id *)

(** The id columns and the foreign keys of the tables are [Integer]
    columns of 32 bits. *)
Definition in_int32 (n : Z) : bool :=
  (-2147483648 <=? n) && (n <=? 2147483647).

(** A query whose parameter is outside the range of its column does not
    reach the tables: the driver refuses the parameter and the execution
    raises.  The rows of a table have ids in the range of the column, so
    this is the case of an id without a row only: the lookups below test
    the range where they find no row. *)
Definition not_found (in_range : bool) (detail : string) : Error :=
  if in_range then NotFound detail
  else Unhandled "sqlalchemy.exc.DBAPIError".

(** ** Request and response models *)

Module CompartmentAssignmentRequest.
Record t : Type := {
  compartment_id : Z;
  fuel_product_id : Z;
  assigned_volume_liters : Z;
  delivery_location_id : Z;
  loading_sequence : option Z;
  special_handling_requirements : option string
}.
End CompartmentAssignmentRequest.

Module BulkTankerDeliveryRequest.
Record t : Type := {
  tanker_vehicle_id : Z;
  driver_id : option Z;
  planned_departure : datetime;
  planned_completion : datetime;
  delivery_type : string;
  compartment_assignments : list CompartmentAssignmentRequest.t
}.
End BulkTankerDeliveryRequest.

Module CrossContaminationCheck.
Record t : Type := {
  compartment_id : Z;
  current_product : option string;
  requested_product : string;
  contamination_risk : bool;
  cleaning_required : bool;
  estimated_cleaning_time_minutes : option Z;
  cleaning_cost_estimate : option Decimal.t
}.
End CrossContaminationCheck.

Module DeliveryStatusUpdate.
Record t : Type := {
  delivery_status : string;
  actual_departure : option datetime;
  actual_completion : option datetime;
  distance_traveled_km : option Decimal.t;
  fuel_consumed_liters : option Decimal.t;
  safety_incidents : option (list string)
}.
End DeliveryStatusUpdate.

(** ** Validators of the request models *)

Definition newline : string := String (Ascii.ascii_of_nat 10) EmptyString.

(** [re.match('^(a|b|...)$', s)]: [$] matches at the end of the string
    and also just before a newline that ends the string. *)
Definition regex_match_alternatives (alternatives : list string)
    (s : string) : bool :=
  existsb (fun a => bool_decide (s = a) || bool_decide (s = a +:+ newline))
          alternatives.

(** [CompartmentAssignmentRequest.validate_volume] *)
Definition validate_volume (v : Z) : Result Z :=
  if v <=? 0 then
    Raise (RequestValidationError
             [value_error "assigned_volume_liters" "Volume must be positive"])
  else if 50000 <? v then
    Raise (RequestValidationError
             [value_error "assigned_volume_liters"
                "Volume exceeds reasonable compartment capacity"])
  else Ok v.

(** The report for the field [assigned_volume_liters]: the [gt=0] bound
    of the field first, then [validate_volume]. *)
Definition assigned_volume_liters_errors (v : Z) : list Violation :=
  if negb (0 <? v) then [not_gt "assigned_volume_liters" 0]
  else match validate_volume v with
       | Ok _ => []
       | Raise (RequestValidationError errors) => errors
       | Raise _ => []
       end.

Definition loading_sequence_errors (o : option Z) : list Violation :=
  match o with
  | Some n => if negb (0 <? n) then [not_gt "loading_sequence" 0] else []
  | None => []
  end.

(** The report for one [CompartmentAssignmentRequest]. *)
Definition assignment_errors (a : CompartmentAssignmentRequest.t)
    : list Violation :=
  assigned_volume_liters_errors (CompartmentAssignmentRequest.assigned_volume_liters a)
  ++ loading_sequence_errors (CompartmentAssignmentRequest.loading_sequence a).

(** [BulkTankerDeliveryRequest.validate_completion_time] *)
Definition validate_completion_time (v planned_departure : datetime)
    : list Violation :=
  if v <=? planned_departure
  then [value_error "planned_completion"
          "Completion time must be after departure time"]
  else [].

(** [BulkTankerDeliveryRequest.validate_assignments] *)
Definition validate_assignments (v : list CompartmentAssignmentRequest.t)
    : list Violation :=
  if Z.of_nat (length v) =? 0 then
    [value_error "compartment_assignments"
       "At least one compartment assignment is required"]
  else if 12 <? Z.of_nat (length v) then
    [value_error "compartment_assignments" "Too many compartment assignments"]
  else
    let compartment_ids := map CompartmentAssignmentRequest.compartment_id v in
    if negb (length compartment_ids =? length (remove_dups compartment_ids))%nat
    then [value_error "compartment_assignments"
            "Duplicate compartment assignments not allowed"]
    else [].

(** The report for the field [compartment_assignments]: every item is
    validated; the list-level checks run when all items pass. *)
Definition compartment_assignments_errors
    (v : list CompartmentAssignmentRequest.t) : list Violation :=
  match concat (map assignment_errors v) with
  | [] =>
      if Z.of_nat (length v) <? 1
      then [min_items "compartment_assignments" 1]
      else validate_assignments v
  | errors => errors
  end.

(** The report for a [BulkTankerDeliveryRequest]. *)
Definition delivery_request_errors (r : BulkTankerDeliveryRequest.t)
    : list Violation :=
  validate_completion_time (BulkTankerDeliveryRequest.planned_completion r)
                           (BulkTankerDeliveryRequest.planned_departure r)
  ++ (if regex_match_alternatives ["standard"; "emergency"; "scheduled"]%string
           (BulkTankerDeliveryRequest.delivery_type r)
      then [] else [str_regex "delivery_type"])
  ++ compartment_assignments_errors
       (BulkTankerDeliveryRequest.compartment_assignments r).

(** The report for a [DeliveryStatusUpdate]. *)
Definition status_update_errors (u : DeliveryStatusUpdate.t)
    : list Violation :=
  if regex_match_alternatives delivery_status_values
       (DeliveryStatusUpdate.delivery_status u)
  then [] else [str_regex "delivery_status"].

(** The framework validates the body against its model and calls the
    handler only when the report is empty. *)
Definition validated {A : Type} (errors : list Violation)
    (handler : Result A) : Result A :=
  match errors with
  | [] => handler
  | _ => Raise (RequestValidationError errors)
  end.

(** ** Contamination validation *)

(** Lines 316-334 of [validate_cross_contamination]: the four locals
    [contamination_risk], [cleaning_required], [estimated_cleaning_time]
    and [cleaning_cost], computed from the compartment's last product and
    the requested product. *)
Definition contamination_assessment (last_product : option FuelProducts.t)
    (requested_product : FuelProducts.t)
    : bool * bool * option Z * option Decimal.t :=
  match last_product with
  | Some last =>
      let last_product_code := FuelProducts.product_code last in
      if bool_decide (last_product_code ∈
                        FuelProducts.cross_contamination_risk requested_product)
      then
        if bool_decide (last_product_code ∈
                          FuelProducts.cleaning_required_after requested_product)
        then (true, true, Some 120, Some (Decimal.mk 45000 (-2)))
        else (true, false, None, None)
      else (false, false, None, None)
  | None => (false, false, None, None)
  end.

(** The body of the loop of [validate_cross_contamination]. *)
Definition check_assignment (db : Db)
    (assignment : CompartmentAssignmentRequest.t)
    : Result CrossContaminationCheck.t :=
  let compartment_id := CompartmentAssignmentRequest.compartment_id assignment in
  let fuel_product_id := CompartmentAssignmentRequest.fuel_product_id assignment in
  let assigned_volume_liters :=
    CompartmentAssignmentRequest.assigned_volume_liters assignment in
  match compartments db !! compartment_id with
  | None =>
      Raise (not_found (in_int32 compartment_id)
               ("Compartment " +:+ pretty compartment_id +:+ " not found"))
  | Some compartment =>
      match products db !! fuel_product_id with
      | None =>
          Raise (not_found (in_int32 fuel_product_id)
                   ("Fuel product " +:+ pretty fuel_product_id +:+ " not found"))
      | Some requested_product =>
          let '(contamination_risk, cleaning_required,
                estimated_cleaning_time, cleaning_cost) :=
            contamination_assessment (last_product db compartment)
                                     requested_product in
          if TankerCompartments.capacity_liters compartment
             <? assigned_volume_liters
          then
            Raise (CapacityError
                     compartment_id
                     (TankerCompartments.capacity_liters compartment)
                     assigned_volume_liters
                     (assigned_volume_liters
                      - TankerCompartments.capacity_liters compartment))
          else
            Ok {| CrossContaminationCheck.compartment_id := compartment_id;
                  CrossContaminationCheck.current_product :=
                    FuelProducts.product_code <$> last_product db compartment;
                  CrossContaminationCheck.requested_product :=
                    FuelProducts.product_code requested_product;
                  CrossContaminationCheck.contamination_risk := contamination_risk;
                  CrossContaminationCheck.cleaning_required := cleaning_required;
                  CrossContaminationCheck.estimated_cleaning_time_minutes :=
                    estimated_cleaning_time;
                  CrossContaminationCheck.cleaning_cost_estimate := cleaning_cost |}
      end
  end.

(** [validate_cross_contamination], the function the router registers and
    [create_bulk_tanker_delivery] calls. *)
Definition validate_cross_contamination (db : Db)
    (compartment_assignments : list CompartmentAssignmentRequest.t)
    : Result (list CrossContaminationCheck.t) :=
  for_each (check_assignment db) compartment_assignments.

(** [POST /validate-contamination/]: the body is validated, then the
    handler runs. *)
Definition post_validate_contamination (db : Db)
    (body : list CompartmentAssignmentRequest.t)
    : Result (list CrossContaminationCheck.t) :=
  validated (concat (map assignment_errors body))
            (validate_cross_contamination db body).

(** ** Cleaning estimate *)

Module CleaningEstimate.
Record t : Type := {
  compartment_id : Z;
  current_product : option string;
  target_product : string;
  time_required : Z;
  cost_estimate : Z;
  procedure : string;
  certification_required : bool;
  downtime_cost : Z
}.
End CleaningEstimate.

(** [GET /cleaning-estimate/{compartment_id}] *)
Definition get_cleaning_estimate (db : Db) (compartment_id : Z)
    (target_product_id : Z) : Result CleaningEstimate.t :=
  match compartments db !! compartment_id with
  | None => Raise (not_found (in_int32 compartment_id) "Compartment not found")
  | Some compartment =>
      match products db !! target_product_id with
      | None =>
          Raise (not_found (in_int32 target_product_id) "Target product not found")
      | Some target_product =>
          let estimate (time_required cost_estimate : Z) (procedure : string) :=
            {| CleaningEstimate.compartment_id := compartment_id;
               CleaningEstimate.current_product :=
                 FuelProducts.product_code <$> last_product db compartment;
               CleaningEstimate.target_product :=
                 FuelProducts.product_code target_product;
               CleaningEstimate.time_required := time_required;
               CleaningEstimate.cost_estimate := cost_estimate;
               CleaningEstimate.procedure := procedure;
               CleaningEstimate.certification_required := true;
               CleaningEstimate.downtime_cost := 200 |} in
          let cleaning_estimate :=
            estimate 120 450 "steam_cleaning_with_neutralization" in
          (* Adjust based on contamination severity *)
          match last_product db compartment with
          | Some last =>
              if bool_decide (FuelProducts.product_code last ∈
                                FuelProducts.cleaning_required_after target_product)
              then
                if negb (bool_decide (FuelProducts.fuel_type last
                                      = FuelProducts.fuel_type target_product))
                then Ok (estimate 180 675 "comprehensive_decontamination")
                else Ok cleaning_estimate
              else Ok cleaning_estimate
          | None => Ok cleaning_estimate
          end
      end
  end.

(** ** Delivery creation *)

Module CreateResponse.
(** The source converts the two decimal fields with [float]; the
    response keeps the decimals here. *)
Record t : Type := {
  delivery_id : Z;
  delivery_reference : string;
  tanker_vehicle_id : Z;
  total_volume_liters : Z;
  total_weight_kg : Decimal.t;
  capacity_utilization_percent : option Decimal.t;
  compartments_used : Z;
  delivery_status : string;
  created_at : datetime
}.
End CreateResponse.

(** [result.scalar_one()]: the row, or [NoResultFound]. *)
Definition scalar_one {A : Type} (row : option A) : Result A :=
  match row with
  | Some a => Ok a
  | None => Raise (Unhandled "sqlalchemy.exc.NoResultFound")
  end.

(** [f"{n:03d}"] *)
Definition format_03d (n : Z) : string :=
  let digits := pretty (Z.abs n) in
  let zeros (width : nat) : string :=
    String.concat "" (replicate (width - String.length digits) "0"%string) in
  if n <? 0 then "-" +:+ zeros 2%nat +:+ digits else zeros 3%nat +:+ digits.

Definition add_delivery (db : Db) (id : Z) (row : BulkTankerDeliveries.t) : Db :=
  {| vehicles := vehicles db; compartments := compartments db;
     products := products db;
     deliveries := <[id := row]> (deliveries db);
     assignments := assignments db |}.

Definition add_assignment (db : Db) (row : CompartmentDeliveryAssignments.t)
    : Db :=
  {| vehicles := vehicles db; compartments := compartments db;
     products := products db; deliveries := deliveries db;
     assignments := <[next_id (assignments db) := row]> (assignments db) |}.

(** The body of the loop "Calculate totals". *)
Definition add_to_totals (db : Db) (totals : Z * Decimal.t)
    (assignment : CompartmentAssignmentRequest.t) : Result (Z * Decimal.t) :=
  let '(total_volume, total_weight) := totals in
  let assigned_volume_liters :=
    CompartmentAssignmentRequest.assigned_volume_liters assignment in
  product ← scalar_one
    (products db !! CompartmentAssignmentRequest.fuel_product_id assignment);
  Ok (total_volume + assigned_volume_liters,
      Decimal.add total_weight
        (Decimal.mul (Decimal.of_int assigned_volume_liters)
                     (FuelProducts.density_kg_per_liter product))).

(** The body of the loop "Create compartment assignments"; products are
    read from the database the request started with. *)
Definition create_assignment (db0 : Db) (delivery_id : Z) (session : Db)
    (assignment : CompartmentAssignmentRequest.t) : Result Db :=
  let assigned_volume_liters :=
    CompartmentAssignmentRequest.assigned_volume_liters assignment in
  product ← scalar_one
    (products db0 !! CompartmentAssignmentRequest.fuel_product_id assignment);
  let calculated_weight :=
    Decimal.mul (Decimal.of_int assigned_volume_liters)
                (FuelProducts.density_kg_per_liter product) in
  Ok (add_assignment session
        {| CompartmentDeliveryAssignments.delivery_id := delivery_id;
           CompartmentDeliveryAssignments.compartment_id :=
             CompartmentAssignmentRequest.compartment_id assignment;
           CompartmentDeliveryAssignments.fuel_product_id :=
             CompartmentAssignmentRequest.fuel_product_id assignment;
           CompartmentDeliveryAssignments.delivery_location_id :=
             CompartmentAssignmentRequest.delivery_location_id assignment;
           CompartmentDeliveryAssignments.assigned_volume_liters :=
             assigned_volume_liters;
           CompartmentDeliveryAssignments.calculated_weight_kg := calculated_weight;
           CompartmentDeliveryAssignments.loading_sequence :=
             CompartmentAssignmentRequest.loading_sequence assignment;
           CompartmentDeliveryAssignments.special_handling_requirements :=
             CompartmentAssignmentRequest.special_handling_requirements assignment;
           CompartmentDeliveryAssignments.assignment_status := "assigned" |}).

(** [Decimal(str(total_volume)) / Decimal(str(total_capacity_liters)) * 100] *)
Definition utilization_percent (total_volume total_capacity_liters : Z)
    : Result Decimal.t :=
  match Decimal.div (Decimal.of_int total_volume)
                    (Decimal.of_int total_capacity_liters) with
  | Some q => Ok (Decimal.mul q (Decimal.of_int 100))
  | None => Raise (Unhandled "decimal.DivisionByZero")
  end.

(** The tanker query: the row with the given id, in the given project. *)
Definition select_tanker (db : Db) (tanker_vehicle_id project_id : Z)
    : option BulkTankerVehicles.t :=
  match vehicles db !! tanker_vehicle_id with
  | Some tanker =>
      if bool_decide (BulkTankerVehicles.project_id tanker = project_id)
      then Some tanker else None
  | None => None
  end.

Section Create.

(** [datetime.strftime('%y%m%d')], the calendar rendering of a point in
    time. *)
Variable strftime_yymmdd : datetime -> string.

(** The body of [create_bulk_tanker_delivery] for a request that has a
    body; [now] is the reading of the clock.  The function is the handler
    up to the database: [Ok] carries the response and the rows the handler
    hands to the session, and is the outcome of the request when the
    database takes them at [flush] and [commit].  Whether it does (the
    unique reference, the check constraints and the foreign keys of the
    tables, the precision of the decimal columns) is not decided here. *)
Definition create_from_request (db : Db) (project_id : Z)
    (delivery_request : BulkTankerDeliveryRequest.t) (now : datetime)
    : Result (CreateResponse.t * Db) :=
  let tanker_id := BulkTankerDeliveryRequest.tanker_vehicle_id delivery_request in
  let requested :=
    BulkTankerDeliveryRequest.compartment_assignments delivery_request in
  (* Validate tanker vehicle *)
  match select_tanker db tanker_id project_id with
  | None =>
      Raise (not_found (in_int32 tanker_id && in_int32 project_id)
               "Tanker vehicle not found")
  | Some tanker =>
      (* Validate DOT compliance *)
      if negb (BulkTankerVehicles.dot_certified tanker)
         || negb (bool_decide (BulkTankerVehicles.certification_status tanker
                               = CERTIFIED))
      then
        Raise (ComplianceError
                 tanker_id
                 (BulkTankerVehicles.last_inspection tanker)
                 (TankerCertificationStatus_value
                    (BulkTankerVehicles.certification_status tanker))
                 ["DOT inspection"; "Hazmat certification renewal"]%string)
      else
        (* Validate all compartment assignments *)
        compartment_checks ← validate_cross_contamination db requested;
        (* Check for contamination risks *)
        let contamination_issues :=
          filter (fun check =>
                    CrossContaminationCheck.contamination_risk check = true)
                 compartment_checks in
        match contamination_issues with
        | issue :: _ =>
            Raise (ContaminationError
                     (CrossContaminationCheck.compartment_id issue)
                     (CrossContaminationCheck.current_product issue)
                     (CrossContaminationCheck.requested_product issue)
                     (CrossContaminationCheck.cleaning_required issue)
                     (CrossContaminationCheck.estimated_cleaning_time_minutes
                        issue))
        | [] =>
            (* Calculate totals *)
            totals ← for_fold (add_to_totals db) (0, Decimal.zero) requested;
            let '(total_volume, total_weight) := totals in
            (* Generate delivery reference *)
            let delivery_reference :=
              "BT-DLV-" +:+ strftime_yymmdd now +:+ "-" +:+ format_03d tanker_id in
            (* Create delivery record *)
            utilization ← utilization_percent total_volume
              (BulkTankerVehicles.total_capacity_liters tanker);
            let delivery :=
              {| BulkTankerDeliveries.delivery_reference := delivery_reference;
                 BulkTankerDeliveries.delivery_type :=
                   BulkTankerDeliveryRequest.delivery_type delivery_request;
                 BulkTankerDeliveries.project_id := project_id;
                 BulkTankerDeliveries.tanker_vehicle_id := tanker_id;
                 BulkTankerDeliveries.driver_id :=
                   BulkTankerDeliveryRequest.driver_id delivery_request;
                 BulkTankerDeliveries.planned_departure :=
                   BulkTankerDeliveryRequest.planned_departure delivery_request;
                 BulkTankerDeliveries.planned_completion :=
                   BulkTankerDeliveryRequest.planned_completion delivery_request;
                 BulkTankerDeliveries.total_volume_liters := total_volume;
                 BulkTankerDeliveries.total_weight_kg := total_weight;
                 BulkTankerDeliveries.capacity_utilization_percent :=
                   Some utilization;
                 BulkTankerDeliveries.compartments_used :=
                   Z.of_nat (length requested);
                 BulkTankerDeliveries.delivery_status := "planned";
                 BulkTankerDeliveries.actual_departure := None;
                 BulkTankerDeliveries.actual_completion := None;
                 BulkTankerDeliveries.distance_traveled_km := None;
                 BulkTankerDeliveries.fuel_consumed_liters := None;
                 BulkTankerDeliveries.co2_emissions_kg := None;
                 BulkTankerDeliveries.safety_incidents := [];
                 BulkTankerDeliveries.created_at := now;
                 BulkTankerDeliveries.updated_at := now |} in
            let delivery_id := next_id (deliveries db) in
            let session := add_delivery db delivery_id delivery in
            (* Create compartment assignments *)
            session ← for_fold (create_assignment db delivery_id) session
                               requested;
            (* commit *)
            Ok ({| CreateResponse.delivery_id := delivery_id;
                   CreateResponse.delivery_reference := delivery_reference;
                   CreateResponse.tanker_vehicle_id := tanker_id;
                   CreateResponse.total_volume_liters := total_volume;
                   CreateResponse.total_weight_kg := total_weight;
                   CreateResponse.capacity_utilization_percent :=
                     BulkTankerDeliveries.capacity_utilization_percent delivery;
                   CreateResponse.compartments_used :=
                     BulkTankerDeliveries.compartments_used delivery;
                   CreateResponse.delivery_status :=
                     BulkTankerDeliveries.delivery_status delivery;
                   CreateResponse.created_at :=
                     BulkTankerDeliveries.created_at delivery |},
                session)
        end
  end.

(** [create_bulk_tanker_delivery].  The parameter [delivery_request] has the
    default [None]: without a body the first attribute access raises. *)
Definition create_bulk_tanker_delivery (db : Db) (project_id : Z)
    (delivery_request : option BulkTankerDeliveryRequest.t) (now : datetime)
    : Result (CreateResponse.t * Db) :=
  match delivery_request with
  | Some delivery_request => create_from_request db project_id delivery_request now
  | None => Raise (Unhandled "AttributeError")
  end.

(** [POST /]: a body, when there is one, is validated, then the handler
    runs. *)
Definition post_delivery (db : Db) (project_id : Z)
    (body : option BulkTankerDeliveryRequest.t) (now : datetime)
    : Result (CreateResponse.t * Db) :=
  validated (from_option delivery_request_errors [] body)
            (create_bulk_tanker_delivery db project_id body now).

End Create.

(** ** Delivery status *)

Module UpdateResponse.
(** The [environmental_impact] part of the response is a rendering of
    the stored row with [float] and is left out. *)
Record t : Type := {
  delivery_id : Z;
  delivery_status : string;
  updated_at : datetime
}.
End UpdateResponse.

(** The row [d] with the attributes [update_delivery_status] may assign
    replaced by the given values. *)
Definition assign_attributes (d : BulkTankerDeliveries.t)
    (delivery_status : string)
    (actual_departure actual_completion : option datetime)
    (distance_traveled_km fuel_consumed_liters co2_emissions_kg
       : option Decimal.t)
    (safety_incidents : list string) (updated_at : datetime)
    : BulkTankerDeliveries.t :=
  {| BulkTankerDeliveries.delivery_reference :=
       BulkTankerDeliveries.delivery_reference d;
     BulkTankerDeliveries.delivery_type := BulkTankerDeliveries.delivery_type d;
     BulkTankerDeliveries.project_id := BulkTankerDeliveries.project_id d;
     BulkTankerDeliveries.tanker_vehicle_id :=
       BulkTankerDeliveries.tanker_vehicle_id d;
     BulkTankerDeliveries.driver_id := BulkTankerDeliveries.driver_id d;
     BulkTankerDeliveries.planned_departure :=
       BulkTankerDeliveries.planned_departure d;
     BulkTankerDeliveries.planned_completion :=
       BulkTankerDeliveries.planned_completion d;
     BulkTankerDeliveries.total_volume_liters :=
       BulkTankerDeliveries.total_volume_liters d;
     BulkTankerDeliveries.total_weight_kg := BulkTankerDeliveries.total_weight_kg d;
     BulkTankerDeliveries.capacity_utilization_percent :=
       BulkTankerDeliveries.capacity_utilization_percent d;
     BulkTankerDeliveries.compartments_used :=
       BulkTankerDeliveries.compartments_used d;
     BulkTankerDeliveries.delivery_status := delivery_status;
     BulkTankerDeliveries.actual_departure := actual_departure;
     BulkTankerDeliveries.actual_completion := actual_completion;
     BulkTankerDeliveries.distance_traveled_km := distance_traveled_km;
     BulkTankerDeliveries.fuel_consumed_liters := fuel_consumed_liters;
     BulkTankerDeliveries.co2_emissions_kg := co2_emissions_kg;
     BulkTankerDeliveries.safety_incidents := safety_incidents;
     BulkTankerDeliveries.created_at := BulkTankerDeliveries.created_at d;
     BulkTankerDeliveries.updated_at := updated_at |}.

(** The attribute assignments of [update_delivery_status], in the order
    of the source. *)
Definition apply_status_update (delivery : BulkTankerDeliveries.t)
    (status_update : DeliveryStatusUpdate.t) (now : datetime)
    : BulkTankerDeliveries.t :=
  (* delivery.delivery_status = status_update.delivery_status *)
  let delivery_status := DeliveryStatusUpdate.delivery_status status_update in
  (* if status_update.actual_departure: ... *)
  let actual_departure :=
    match DeliveryStatusUpdate.actual_departure status_update with
    | Some t => Some t
    | None => BulkTankerDeliveries.actual_departure delivery
    end in
  (* if status_update.actual_completion: ... *)
  let '(actual_completion, distance, fuel, co2) :=
    match DeliveryStatusUpdate.actual_completion status_update with
    | Some t =>
        (* Calculate environmental metrics *)
        match DeliveryStatusUpdate.distance_traveled_km status_update,
              DeliveryStatusUpdate.fuel_consumed_liters status_update with
        | Some distance, Some fuel =>
            if Decimal.truthy distance && Decimal.truthy fuel
            then (Some t, Some distance, Some fuel,
                  Some (Decimal.mul fuel (Decimal.mk 264 (-2))))
            else (Some t,
                  BulkTankerDeliveries.distance_traveled_km delivery,
                  BulkTankerDeliveries.fuel_consumed_liters delivery,
                  BulkTankerDeliveries.co2_emissions_kg delivery)
        | _, _ =>
            (Some t,
             BulkTankerDeliveries.distance_traveled_km delivery,
             BulkTankerDeliveries.fuel_consumed_liters delivery,
             BulkTankerDeliveries.co2_emissions_kg delivery)
        end
    | None =>
        (BulkTankerDeliveries.actual_completion delivery,
         BulkTankerDeliveries.distance_traveled_km delivery,
         BulkTankerDeliveries.fuel_consumed_liters delivery,
         BulkTankerDeliveries.co2_emissions_kg delivery)
    end in
  (* if status_update.safety_incidents: ... *)
  let safety_incidents :=
    match DeliveryStatusUpdate.safety_incidents status_update with
    | Some (incident :: incidents) => incident :: incidents
    | _ => BulkTankerDeliveries.safety_incidents delivery
    end in
  (* delivery.updated_at = datetime.utcnow() *)
  assign_attributes delivery delivery_status actual_departure
    actual_completion distance fuel co2 safety_incidents now.

(** [update_delivery_status]; [now] is the reading of the clock.  The
    handler reads and writes the [bulk_tanker_deliveries] table only.  As
    for the creation, [Ok] carries the row the handler hands to the session
    and is the outcome when the database takes it at [commit]. *)
Definition update_delivery_status (db : Db) (delivery_id : Z)
    (status_update : DeliveryStatusUpdate.t) (now : datetime)
    : Result (UpdateResponse.t * Db) :=
  match deliveries db !! delivery_id with
  | None => Raise (not_found (in_int32 delivery_id) "Delivery not found")
  | Some delivery =>
      let delivery := apply_status_update delivery status_update now in
      (* commit *)
      Ok ({| UpdateResponse.delivery_id := delivery_id;
             UpdateResponse.delivery_status :=
               BulkTankerDeliveries.delivery_status delivery;
             UpdateResponse.updated_at :=
               BulkTankerDeliveries.updated_at delivery |},
          add_delivery db delivery_id delivery)
  end.

(** [PUT /{delivery_id}/status]: the body is validated, then the handler
    runs. *)
Definition put_delivery_status (db : Db) (delivery_id : Z)
    (body : DeliveryStatusUpdate.t) (now : datetime)
    : Result (UpdateResponse.t * Db) :=
  validated (status_update_errors body)
            (update_delivery_status db delivery_id body now).

End Api.

(* ===================================================================== *)
(** * Vocabulary of the properties                                        *)
(* ===================================================================== *)

Module Spec.
Import Models Api.

(** The three components of [contamination_assessment] the properties
    speak about. *)
Definition risk_of (r : bool * bool * option Z * option Decimal.t) : bool :=
  r.1.1.1.
Definition cleaning_of (r : bool * bool * option Z * option Decimal.t) : bool :=
  r.1.1.2.
Definition time_of (r : bool * bool * option Z * option Decimal.t) : option Z :=
  r.1.2.

(** The assignment targets a compartment whose recorded last product's
    code is in the requested product's [cross_contamination_risk]. *)
Definition carries_risk (db : Db) (a : CompartmentAssignmentRequest.t) : Prop :=
  ∃ compartment last requested,
    compartments db !! CompartmentAssignmentRequest.compartment_id a
      = Some compartment
    ∧ last_product db compartment = Some last
    ∧ products db !! CompartmentAssignmentRequest.fuel_product_id a
      = Some requested
    ∧ FuelProducts.product_code last
      ∈ FuelProducts.cross_contamination_risk requested.

(** The assignment's volume exceeds the capacity of its compartment. *)
Definition overflows (db : Db) (a : CompartmentAssignmentRequest.t) : Prop :=
  ∃ compartment,
    compartments db !! CompartmentAssignmentRequest.compartment_id a
      = Some compartment
    ∧ TankerCompartments.capacity_liters compartment
      < CompartmentAssignmentRequest.assigned_volume_liters a.

(** The assignment's compartment and product exist and the volume is
    within the compartment's capacity. *)
Definition fits (db : Db) (a : CompartmentAssignmentRequest.t) : Prop :=
  ∃ compartment requested,
    compartments db !! CompartmentAssignmentRequest.compartment_id a
      = Some compartment
    ∧ products db !! CompartmentAssignmentRequest.fuel_product_id a
      = Some requested
    ∧ CompartmentAssignmentRequest.assigned_volume_liters a
      ≤ TankerCompartments.capacity_liters compartment.

(** The vehicle passes the gate "Validate DOT compliance". *)
Definition dot_compliant (tanker : BulkTankerVehicles.t) : Prop :=
  BulkTankerVehicles.dot_certified tanker = true
  ∧ BulkTankerVehicles.certification_status tanker = CERTIFIED.

(** The sum of the assigned volumes of a request. *)
Definition sum_volumes (l : list CompartmentAssignmentRequest.t) : Z :=
  foldr (fun a acc => CompartmentAssignmentRequest.assigned_volume_liters a + acc)
        0 l.

(** The density of a product of the database, as a rational. *)
Definition density_of (db : Db) (fuel_product_id : Z) : Q :=
  match products db !! fuel_product_id with
  | Some product => Decimal.value (FuelProducts.density_kg_per_liter product)
  | None => 0%Q
  end.

(** The sum, over the assignments, of volume times density, in exact
    rational arithmetic. *)
Definition sum_weights (db : Db) (l : list CompartmentAssignmentRequest.t) : Q :=
  foldr (fun a acc =>
           (inject_Z (CompartmentAssignmentRequest.assigned_volume_liters a)
            * density_of db (CompartmentAssignmentRequest.fuel_product_id a)
            + acc)%Q)
        0%Q l.

(** The sum, over the assignments, of volume times the coefficient of the
    density: the weight in units of 0.0001 kg when the densities have four
    decimal places. *)
Definition weight_coefficient (db : Db) (l : list CompartmentAssignmentRequest.t)
    : Z :=
  foldr (fun a acc =>
           CompartmentAssignmentRequest.assigned_volume_liters a
           * match products db !! CompartmentAssignmentRequest.fuel_product_id a with
             | Some product =>
                 Decimal.dcoef (FuelProducts.density_kg_per_liter product)
             | None => 0
             end
           + acc)
        0 l.

(** A value of a [DECIMAL(6, 4)] column: four decimal places and at most
    six digits. *)
Definition numeric_6_4 (d : Decimal.t) : Prop :=
  Decimal.dexp d = -4 ∧ Z.abs (Decimal.dcoef d) < 10 ^ 6.

(** Every density of the product table is a [DECIMAL(6, 4)] value, as the
    column [density_kg_per_liter] is declared. *)
Definition densities_as_declared (db : Db) : Prop :=
  ∀ id product, products db !! id = Some product →
    numeric_6_4 (FuelProducts.density_kg_per_liter product).

(** The error is the [cross_contamination] rejection. *)
Definition is_contamination_error (e : Error) : bool :=
  match e with ContaminationError _ _ _ _ _ => true | _ => false end.

(** The error is the [dot_certification_expired] rejection. *)
Definition is_compliance_error (e : Error) : bool :=
  match e with ComplianceError _ _ _ _ => true | _ => false end.

(** A status update that carries a status and nothing else. *)
Definition only_status (status_update : DeliveryStatusUpdate.t) : Prop :=
  DeliveryStatusUpdate.actual_departure status_update = None
  ∧ DeliveryStatusUpdate.actual_completion status_update = None
  ∧ DeliveryStatusUpdate.distance_traveled_km status_update = None
  ∧ DeliveryStatusUpdate.fuel_consumed_liters status_update = None
  ∧ DeliveryStatusUpdate.safety_incidents status_update = None.

(** The delivery row with another status. *)
Definition with_status (d : BulkTankerDeliveries.t) (status : string)
    : BulkTankerDeliveries.t :=
  assign_attributes d status
    (BulkTankerDeliveries.actual_departure d)
    (BulkTankerDeliveries.actual_completion d)
    (BulkTankerDeliveries.distance_traveled_km d)
    (BulkTankerDeliveries.fuel_consumed_liters d)
    (BulkTankerDeliveries.co2_emissions_kg d)
    (BulkTankerDeliveries.safety_incidents d)
    (BulkTankerDeliveries.updated_at d).

(** Two vehicle rows that differ at most in [hazmat_certification]. *)
Definition same_but_hazmat_certification (t1 t2 : BulkTankerVehicles.t) : Prop :=
  BulkTankerVehicles.project_id t1 = BulkTankerVehicles.project_id t2
  ∧ BulkTankerVehicles.total_capacity_liters t1
    = BulkTankerVehicles.total_capacity_liters t2
  ∧ BulkTankerVehicles.compartment_count t1 = BulkTankerVehicles.compartment_count t2
  ∧ BulkTankerVehicles.dot_certified t1 = BulkTankerVehicles.dot_certified t2
  ∧ BulkTankerVehicles.certification_status t1
    = BulkTankerVehicles.certification_status t2
  ∧ BulkTankerVehicles.last_inspection t1 = BulkTankerVehicles.last_inspection t2.

(** Two product rows that differ at most in [hazmat_class]. *)
Definition same_but_hazmat_class (p1 p2 : FuelProducts.t) : Prop :=
  FuelProducts.product_code p1 = FuelProducts.product_code p2
  ∧ FuelProducts.fuel_type p1 = FuelProducts.fuel_type p2
  ∧ FuelProducts.density_kg_per_liter p1 = FuelProducts.density_kg_per_liter p2
  ∧ FuelProducts.cross_contamination_risk p1
    = FuelProducts.cross_contamination_risk p2
  ∧ FuelProducts.cleaning_required_after p1
    = FuelProducts.cleaning_required_after p2.

(** The database with other vehicle and product tables. *)
Definition with_vehicles_and_products (db : Db)
    (vehicle_table : gmap Z BulkTankerVehicles.t)
    (product_table : gmap Z FuelProducts.t) : Db :=
  {| vehicles := vehicle_table; compartments := compartments db;
     products := product_table; deliveries := deliveries db;
     assignments := assignments db |}.

End Spec.

(* ===================================================================== *)
(** * Concrete data for the examples                                      *)
(* ===================================================================== *)

Module Scenario.
Import Models Api.

Definition product (code : string) (type : FuelType) (density : Decimal.t)
    (risk cleaning : list string) : FuelProducts.t :=
  {| FuelProducts.product_code := code;
     FuelProducts.fuel_type := type;
     FuelProducts.density_kg_per_liter := density;
     FuelProducts.hazmat_class := "3";
     FuelProducts.cross_contamination_risk := risk;
     FuelProducts.cleaning_required_after := cleaning |}.

Definition vehicle (dot hazmat : bool) (status : TankerCertificationStatus)
    : BulkTankerVehicles.t :=
  {| BulkTankerVehicles.project_id := 1;
     BulkTankerVehicles.total_capacity_liters := 30000;
     BulkTankerVehicles.compartment_count := 3;
     BulkTankerVehicles.dot_certified := dot;
     BulkTankerVehicles.hazmat_certification := hazmat;
     BulkTankerVehicles.certification_status := status;
     BulkTankerVehicles.last_inspection := Some 1000 |}.

Definition compartment (owner number capacity : Z)
    (status : CompartmentStatus) (last : option Z) : TankerCompartments.t :=
  {| TankerCompartments.tanker_vehicle_id := owner;
     TankerCompartments.compartment_number := number;
     TankerCompartments.capacity_liters := capacity;
     TankerCompartments.operational_status := status;
     TankerCompartments.current_product_id := None;
     TankerCompartments.last_product_id := last;
     TankerCompartments.requires_cleaning := false |}.

(** Vehicle 1 is certified; vehicle 2 has an expired certification;
    vehicle 3 is DOT-certified without hazmat certification. *)
Definition the_vehicles : gmap Z BulkTankerVehicles.t :=
  {[ 1 := vehicle true true CERTIFIED;
     2 := vehicle true true EXPIRED;
     3 := vehicle true false CERTIFIED ]}.

(** Product 1 is "ULSD" (diesel, density 0.8400), without contamination
    risks.  Compartments 1 to 3 belong to vehicle 1 and hold 10000 L each;
    compartment 4 belongs to vehicle 2 and requires maintenance;
    compartment 5 holds 60000 L; compartment 6 belongs to vehicle 3. *)
Definition db_clean : Db :=
  {| vehicles := the_vehicles;
     compartments :=
       {[ 1 := compartment 1 1 10000 OPERATIONAL None;
          2 := compartment 1 2 10000 OPERATIONAL None;
          3 := compartment 1 3 10000 OPERATIONAL None;
          4 := compartment 2 1 10000 MAINTENANCE_REQUIRED None;
          5 := compartment 1 4 60000 OPERATIONAL None;
          6 := compartment 3 1 10000 OPERATIONAL None ]};
     products := {[ 1 := product "ULSD" DIESEL (Decimal.mk 8400 (-4)) [] [] ]};
     deliveries := ∅;
     assignments := ∅ |}.

(** "ULSD" is at risk after "JET-A1" and after "ULSD-50" and requires
    cleaning after both; product 4, "B7", is at risk after "JET-A1"
    without a cleaning requirement.  Compartment 2 last held "JET-A1"
    (jet fuel), compartment 3 last held "ULSD-50" (diesel). *)
Definition db_used : Db :=
  {| vehicles := the_vehicles;
     compartments :=
       {[ 1 := compartment 1 1 10000 OPERATIONAL None;
          2 := compartment 1 2 10000 OPERATIONAL (Some 2);
          3 := compartment 1 3 10000 OPERATIONAL (Some 3) ]};
     products :=
       {[ 1 := product "ULSD" DIESEL (Decimal.mk 8400 (-4))
                 ["JET-A1"; "ULSD-50"]%string ["JET-A1"; "ULSD-50"]%string;
          2 := product "JET-A1" JET_FUEL (Decimal.mk 8040 (-4)) [] [];
          3 := product "ULSD-50" DIESEL (Decimal.mk 8450 (-4)) [] [];
          4 := product "B7" BIOFUEL (Decimal.mk 8800 (-4))
                 ["JET-A1"]%string [] ]};
     deliveries := ∅;
     assignments := ∅ |}.

Definition assign (compartment fuel_product volume : Z)
    : CompartmentAssignmentRequest.t :=
  {| CompartmentAssignmentRequest.compartment_id := compartment;
     CompartmentAssignmentRequest.fuel_product_id := fuel_product;
     CompartmentAssignmentRequest.assigned_volume_liters := volume;
     CompartmentAssignmentRequest.delivery_location_id := 7;
     CompartmentAssignmentRequest.loading_sequence := None;
     CompartmentAssignmentRequest.special_handling_requirements := None |}.

Definition request (tanker : Z) (l : list CompartmentAssignmentRequest.t)
    : BulkTankerDeliveryRequest.t :=
  {| BulkTankerDeliveryRequest.tanker_vehicle_id := tanker;
     BulkTankerDeliveryRequest.driver_id := None;
     BulkTankerDeliveryRequest.planned_departure := 2000;
     BulkTankerDeliveryRequest.planned_completion := 3000;
     BulkTankerDeliveryRequest.delivery_type := "standard";
     BulkTankerDeliveryRequest.compartment_assignments := l |}.

Definition status_only (status : string) : DeliveryStatusUpdate.t :=
  {| DeliveryStatusUpdate.delivery_status := status;
     DeliveryStatusUpdate.actual_departure := None;
     DeliveryStatusUpdate.actual_completion := None;
     DeliveryStatusUpdate.distance_traveled_km := None;
     DeliveryStatusUpdate.fuel_consumed_liters := None;
     DeliveryStatusUpdate.safety_incidents := None |}.

(** A calendar in which every reading of the clock falls on 21 June 2025. *)
Definition calendar (now : datetime) : string := "250621".

(** The database after vehicle 1 was given 9000 L of "ULSD" in compartment
    1 and 5000 L in compartment 2: delivery 1, in status [planned], with
    assignments 1 and 2, in status [assigned]. *)
Definition db_planned : Db :=
  match post_delivery calendar db_clean 1
          (Some (request 1 [assign 1 1 9000; assign 2 1 5000])) 2500 with
  | Ok (_, db) => db
  | Raise _ => db_clean
  end.

End Scenario.

(* ===================================================================== *)
(** * [optimize_tanker_allocation]                                        *)
(* ===================================================================== *)

Module Allocation.
Import Models Api.

Module CapacityOptimizationResponse.
(** The dictionaries [route_optimization] and [optimization_savings] are
    flattened into the record; [total_distance_km] is the literal 45.2 of
    the source. *)
Record t : Type := {
  total_volume_utilized : Z;
  capacity_utilization_percent : Decimal.t;
  compartments_used : Z;
  estimated_delivery_time_minutes : Z;
  fuel_compatibility_score : Decimal.t;
  total_distance_km : Decimal.t;
  estimated_travel_time_minutes : Z;
  optimal_sequence : list Z;
  fuel_cost_savings : Decimal.t;
  time_savings_minutes : Decimal.t;
  efficiency_improvement : Decimal.t
}.
End CapacityOptimizationResponse.

(** How the request ends: a response, an [HTTPException] with its status
    code and detail, or an exception no handler catches. *)
Inductive Outcome : Type :=
| Returned (response : CapacityOptimizationResponse.t)
| Http (status_code : Z) (detail : string)
| Uncaught (exception : string).

(** How the parsing of the two query strings ends: with the message of a
    [json.JSONDecodeError] or [ValueError], which the handler catches; with
    another exception ([json.loads] can raise [RecursionError]), which it
    does not catch; or with the list [location_ids]. *)
Inductive Parsing : Type :=
| Refused (message : string)
| Failed (exception : string)
| Parsed (location_ids : list Z).

(** [sum(comp.capacity_liters for comp in compartments)] *)
Definition sum_capacity (l : list TankerCompartments.t) : Z :=
  foldl (fun acc comp => acc + TankerCompartments.capacity_liters comp) 0 l.

(** [optimize_tanker_allocation].  The two query strings are parsed before
    the database is read; the parsed [fuel_req] is not used by the source.
    [tanker_compartments] is the relationship [tanker.compartments], in the
    order the database returns its rows. *)
Definition optimize_tanker_allocation (db : Db)
    (project_id tanker_vehicle_id : Z) (parsed : Parsing)
    (tanker_compartments : list TankerCompartments.t) : Outcome :=
  match parsed with
  | Refused e => Http 422 ("Invalid fuel requirements format: " +:+ e)
  | Failed exception => Uncaught exception
  | Parsed location_ids =>
      (* Get tanker vehicle with compartments *)
      match select_tanker db tanker_vehicle_id project_id with
      | None =>
          if in_int32 tanker_vehicle_id && in_int32 project_id
          then Http 404 "Tanker vehicle not found"
          else Uncaught "sqlalchemy.exc.DBAPIError"
      | Some tanker =>
          (* Calculate optimal allocation (simplified algorithm) *)
          let operational_compartments :=
            filter (fun comp =>
                      TankerCompartments.operational_status comp = OPERATIONAL)
                   tanker_compartments in
          let total_volume_utilized :=
            sum_capacity (take 3 operational_compartments) in
          match utilization_percent total_volume_utilized
                  (BulkTankerVehicles.total_capacity_liters tanker) with
          | Raise _ =>
              (* the divisor is zero: 0 / 0 signals [InvalidOperation], any
                 other quotient [DivisionByZero] *)
              Uncaught (if total_volume_utilized =? 0
                        then "decimal.InvalidOperation"
                        else "decimal.DivisionByZero")
          | Ok capacity_utilization =>
              Returned
                {| CapacityOptimizationResponse.total_volume_utilized :=
                     total_volume_utilized;
                   CapacityOptimizationResponse.capacity_utilization_percent :=
                     capacity_utilization;
                   CapacityOptimizationResponse.compartments_used :=
                     Z.of_nat (length (take 3 operational_compartments));
                   CapacityOptimizationResponse.estimated_delivery_time_minutes := 95;
                   CapacityOptimizationResponse.fuel_compatibility_score :=
                     Decimal.mk 95 (-2);
                   CapacityOptimizationResponse.total_distance_km :=
                     Decimal.mk 452 (-1);
                   CapacityOptimizationResponse.estimated_travel_time_minutes := 75;
                   CapacityOptimizationResponse.optimal_sequence := location_ids;
                   CapacityOptimizationResponse.fuel_cost_savings :=
                     Decimal.mk 12550 (-2);
                   CapacityOptimizationResponse.time_savings_minutes :=
                     Decimal.mk 25 0;
                   CapacityOptimizationResponse.efficiency_improvement :=
                     Decimal.mk 185 (-1) |}
          end
      end
  end.

End Allocation.

(* ===================================================================== *)
(** * Constraints of the tables, from [__table_args__]                    *)
(* ===================================================================== *)

Module Constraints.
Import Models.

(** Table [bulk_tanker_deliveries] *)

(** [delivery_volume_positive]: [total_volume_liters >= 0] *)
Definition delivery_volume_positive (d : BulkTankerDeliveries.t) : Prop :=
  0 ≤ BulkTankerDeliveries.total_volume_liters d.

(** [delivery_weight_positive]: [total_weight_kg >= 0] *)
Definition delivery_weight_positive (d : BulkTankerDeliveries.t) : Prop :=
  0 ≤ Decimal.dcoef (BulkTankerDeliveries.total_weight_kg d).

(** [utilization_valid]: [capacity_utilization_percent IS NULL OR
    capacity_utilization_percent BETWEEN 0 AND 100] *)
Definition utilization_valid (d : BulkTankerDeliveries.t) : Prop :=
  match BulkTankerDeliveries.capacity_utilization_percent d with
  | None => True
  | Some u => (0 <= Decimal.value u)%Q ∧ (Decimal.value u <= 100 # 1)%Q
  end.

(** [compartments_used_positive]: [compartments_used >= 0] *)
Definition compartments_used_positive (d : BulkTankerDeliveries.t) : Prop :=
  0 ≤ BulkTankerDeliveries.compartments_used d.

(** [delivery_timing_valid]: [planned_departure < planned_completion] *)
Definition delivery_timing_valid (d : BulkTankerDeliveries.t) : Prop :=
  BulkTankerDeliveries.planned_departure d
  < BulkTankerDeliveries.planned_completion d.

(** [delivery_status_valid] *)
Definition delivery_status_valid (d : BulkTankerDeliveries.t) : Prop :=
  BulkTankerDeliveries.delivery_status d ∈ delivery_status_values.

(** [actual_timing_valid]: [actual_departure IS NULL OR actual_completion
    IS NULL OR actual_departure <= actual_completion] *)
Definition actual_timing_valid (d : BulkTankerDeliveries.t) : Prop :=
  match BulkTankerDeliveries.actual_departure d,
        BulkTankerDeliveries.actual_completion d with
  | Some departure, Some completion => departure ≤ completion
  | _, _ => True
  end.

(** Table [compartment_delivery_assignments] *)

(** [assignment_volume_positive]: [assigned_volume_liters > 0] *)
Definition assignment_volume_positive (a : CompartmentDeliveryAssignments.t)
    : Prop :=
  0 < CompartmentDeliveryAssignments.assigned_volume_liters a.

(** [assignment_weight_positive]: [calculated_weight_kg >= 0] *)
Definition assignment_weight_positive (a : CompartmentDeliveryAssignments.t)
    : Prop :=
  0 ≤ Decimal.dcoef (CompartmentDeliveryAssignments.calculated_weight_kg a).

(** [loading_sequence_positive]: [loading_sequence IS NULL OR
    loading_sequence > 0] *)
Definition loading_sequence_positive (a : CompartmentDeliveryAssignments.t)
    : Prop :=
  match CompartmentDeliveryAssignments.loading_sequence a with
  | None => True
  | Some n => 0 < n
  end.

(** [assignment_status_valid] *)
Definition assignment_status_valid (a : CompartmentDeliveryAssignments.t)
    : Prop :=
  CompartmentDeliveryAssignments.assignment_status a ∈ assignment_status_values.

(** [delivery_compartment_unique]: no two rows share the pair
    [(delivery_id, compartment_id)]. *)
Definition delivery_compartment_unique
    (rows : list CompartmentDeliveryAssignments.t) : Prop :=
  NoDup (map (fun a => (CompartmentDeliveryAssignments.delivery_id a,
                        CompartmentDeliveryAssignments.compartment_id a))
             rows).

(** Table [fuel_products], [density_positive]: [density_kg_per_liter > 0],
    for every row. *)
Definition density_positive (db : Db) : Prop :=
  ∀ id product, products db !! id = Some product →
    0 < Decimal.dcoef (FuelProducts.density_kg_per_liter product).

(** Every assignment row refers to a delivery row: the foreign key
    [delivery_id]. *)
Definition assignments_refer_to_deliveries (db : Db) : Prop :=
  ∀ id row, assignments db !! id = Some row →
    is_Some (deliveries db !! CompartmentDeliveryAssignments.delivery_id row).

(** The relationship [tanker.compartments]: the rows of the compartment
    table whose [tanker_vehicle_id] is the vehicle's id. *)
Definition compartments_of (db : Db) (tanker_vehicle_id : Z)
    : list TankerCompartments.t :=
  map snd
      (filter (fun kv => TankerCompartments.tanker_vehicle_id (snd kv)
                         = tanker_vehicle_id)
              (map_to_list (compartments db))).

End Constraints.

(* ===================================================================== *)
(** * Vocabulary of the further properties                                *)
(* ===================================================================== *)

Module Rows.
Import Models Api.

(** The largest key of a table, 0 for an empty one. *)
Definition max_key {A : Type} (m : gmap Z A) : Z :=
  map_fold (fun k _ acc => Z.max k acc) 0 m.

(** The assignment row the creation writes for a requested assignment of a
    product. *)
Definition assignment_row (delivery_id : Z)
    (a : CompartmentAssignmentRequest.t) (product : FuelProducts.t)
    : CompartmentDeliveryAssignments.t :=
  {| CompartmentDeliveryAssignments.delivery_id := delivery_id;
     CompartmentDeliveryAssignments.compartment_id :=
       CompartmentAssignmentRequest.compartment_id a;
     CompartmentDeliveryAssignments.fuel_product_id :=
       CompartmentAssignmentRequest.fuel_product_id a;
     CompartmentDeliveryAssignments.delivery_location_id :=
       CompartmentAssignmentRequest.delivery_location_id a;
     CompartmentDeliveryAssignments.assigned_volume_liters :=
       CompartmentAssignmentRequest.assigned_volume_liters a;
     CompartmentDeliveryAssignments.calculated_weight_kg :=
       Decimal.mul
         (Decimal.of_int (CompartmentAssignmentRequest.assigned_volume_liters a))
         (FuelProducts.density_kg_per_liter product);
     CompartmentDeliveryAssignments.loading_sequence :=
       CompartmentAssignmentRequest.loading_sequence a;
     CompartmentDeliveryAssignments.special_handling_requirements :=
       CompartmentAssignmentRequest.special_handling_requirements a;
     CompartmentDeliveryAssignments.assignment_status := "assigned" |}.

(** The row [row] is the one written for the requested assignment [a]. *)
Definition written_for (db : Db) (delivery_id : Z)
    (a : CompartmentAssignmentRequest.t)
    (row : CompartmentDeliveryAssignments.t) : Prop :=
  ∃ product,
    products db !! CompartmentAssignmentRequest.fuel_product_id a = Some product
    ∧ row = assignment_row delivery_id a product.

(** The sum of the assigned volumes of rows. *)
Definition sum_row_volumes (rows : list CompartmentDeliveryAssignments.t) : Z :=
  foldr (fun row acc =>
           CompartmentDeliveryAssignments.assigned_volume_liters row + acc)
        0 rows.

(** The sum of the calculated weights of rows, as a rational. *)
Definition sum_row_weights (rows : list CompartmentDeliveryAssignments.t) : Q :=
  foldr (fun row acc =>
           (Decimal.value (CompartmentDeliveryAssignments.calculated_weight_kg row)
            + acc)%Q)
        0%Q rows.

(** What request validation asks of one assignment. *)
Definition assignment_in_range (a : CompartmentAssignmentRequest.t) : Prop :=
  0 < CompartmentAssignmentRequest.assigned_volume_liters a ≤ 50000
  ∧ match CompartmentAssignmentRequest.loading_sequence a with
    | Some n => 0 < n
    | None => True
    end.

(** The string is one of the alternatives, or one of them followed by a
    single newline. *)
Definition matches_alternatives (alternatives : list string) (s : string)
    : Prop :=
  ∃ a, a ∈ alternatives ∧ (s = a ∨ s = a +:+ newline).

(** Two compartment rows with the same capacity and the same last product;
    the owning vehicle, the number, the operational status, the current
    product and the cleaning flag may differ. *)
Definition same_load (c1 c2 : TankerCompartments.t) : Prop :=
  TankerCompartments.capacity_liters c1 = TankerCompartments.capacity_liters c2
  ∧ TankerCompartments.last_product_id c1 = TankerCompartments.last_product_id c2.

(** The database with another compartment table. *)
Definition with_compartments (db : Db) (table : gmap Z TankerCompartments.t)
    : Db :=
  {| vehicles := vehicles db; compartments := table; products := products db;
     deliveries := deliveries db; assignments := assignments db |}.

(** The update carries a completion time and a distance and a fuel
    consumption that are both not zero: the condition under which
    [update_delivery_status] writes the environmental metrics. *)
Definition reports_telemetry (status_update : DeliveryStatusUpdate.t)
    (distance fuel : Decimal.t) : Prop :=
  is_Some (DeliveryStatusUpdate.actual_completion status_update)
  ∧ DeliveryStatusUpdate.distance_traveled_km status_update = Some distance
  ∧ DeliveryStatusUpdate.fuel_consumed_liters status_update = Some fuel
  ∧ Decimal.dcoef distance ≠ 0
  ∧ Decimal.dcoef fuel ≠ 0.

End Rows.

(* ===================================================================== *)
(** * Further data for the examples                                       *)
(* ===================================================================== *)

Module Examples.
Import Models Api.

(** The rows of [tanker.compartments] for vehicle 1 of [Scenario.db_clean]:
    compartments 1, 2, 3 and 5. *)
Definition compartments_of_vehicle_1 : list TankerCompartments.t :=
  [Scenario.compartment 1 1 10000 OPERATIONAL None;
   Scenario.compartment 1 2 10000 OPERATIONAL None;
   Scenario.compartment 1 3 10000 OPERATIONAL None;
   Scenario.compartment 1 4 60000 OPERATIONAL None].

(** A status update that completes a delivery after 120.5 km on 40.25
    litres of fuel. *)
Definition completed_with_telemetry : DeliveryStatusUpdate.t :=
  {| DeliveryStatusUpdate.delivery_status := "completed";
     DeliveryStatusUpdate.actual_departure := Some 2100;
     DeliveryStatusUpdate.actual_completion := Some 2900;
     DeliveryStatusUpdate.distance_traveled_km := Some (Decimal.mk 1205 (-1));
     DeliveryStatusUpdate.fuel_consumed_liters := Some (Decimal.mk 4025 (-2));
     DeliveryStatusUpdate.safety_incidents := Some ["none reported"%string] |}.

(** The same telemetry without a completion time. *)
Definition telemetry_without_completion : DeliveryStatusUpdate.t :=
  {| DeliveryStatusUpdate.delivery_status := "unloading";
     DeliveryStatusUpdate.actual_departure := None;
     DeliveryStatusUpdate.actual_completion := None;
     DeliveryStatusUpdate.distance_traveled_km := Some (Decimal.mk 1205 (-1));
     DeliveryStatusUpdate.fuel_consumed_liters := Some (Decimal.mk 4025 (-2));
     DeliveryStatusUpdate.safety_incidents := Some [] |}.

(** The products of [Scenario.db_used] and three compartments of vehicle 1:
    compartment 1 never held a product, compartment 2 last held "JET-A1",
    compartment 5 holds 60000 L. *)
Definition db_used_large : Db :=
  {| vehicles := Scenario.the_vehicles;
     compartments :=
       {[ 1 := Scenario.compartment 1 1 10000 OPERATIONAL None;
          2 := Scenario.compartment 1 2 10000 OPERATIONAL (Some 2);
          5 := Scenario.compartment 1 3 60000 OPERATIONAL None ]};
     products := products Scenario.db_used;
     deliveries := ∅;
     assignments := ∅ |}.

(** A compartment row moved to vehicle 2, out of service, holding product
    1 and flagged for cleaning, with its capacity and last product kept. *)
Definition relabelled (c : TankerCompartments.t) : TankerCompartments.t :=
  {| TankerCompartments.tanker_vehicle_id := 2;
     TankerCompartments.compartment_number :=
       TankerCompartments.compartment_number c;
     TankerCompartments.capacity_liters := TankerCompartments.capacity_liters c;
     TankerCompartments.operational_status := OUT_OF_SERVICE;
     TankerCompartments.current_product_id := Some 1;
     TankerCompartments.last_product_id := TankerCompartments.last_product_id c;
     TankerCompartments.requires_cleaning := true |}.

End Examples.

(* ===================================================================== *)
(** * Tactics for the examples                                           *)
(* ===================================================================== *)

(** Membership in a list that is written out. *)
Ltac in_list :=
  solve [repeat first [apply list_elem_of_here | apply list_elem_of_further]].

(** The outcome of a lookup that finds no row, by the two cases of the
    range of the id. *)
Ltac by_range :=
  unfold Api.not_found in *;
  repeat match goal with
         | |- context [Api.in_int32 ?x] => destruct (Api.in_int32 x)
         | H : context [Api.in_int32 ?x] |- _ => destruct (Api.in_int32 x)
         end;
  simpl in *; first [discriminate | congruence | reflexivity].

(** The components of [carries_risk], [overflows] and [fits] over concrete
    tables, by evaluation. *)
Ltac by_lookup :=
  repeat first [eexists | split]; first [reflexivity | in_list | simpl; lia].

(* ===================================================================== *)
(** * Properties                                                          *)
(* ===================================================================== *)

Import Models Api Spec.

(** ** Loops that may raise *)

Section Loops.
Context {A B : Type} (body : A -> Result B).

(** The loop returns when every iteration returns. *)
Lemma for_each_Ok (l : list A) (ys : list B) :
  for_each body l = Ok ys ↔ Forall2 (fun x y => body x = Ok y) l ys.
Proof.
  revert ys. induction l as [|x l IH]; intros ys; simpl.
  - split.
    + intros [= <-]. constructor.
    + intros H. inversion H. reflexivity.
  - split.
    + destruct (body x) as [y|e] eqn:Hx; simpl; [|discriminate].
      destruct (for_each body l) as [ys'|e] eqn:Hl; simpl; [|discriminate].
      intros [= <-]. constructor; [assumption|]. apply IH. reflexivity.
    + intros H. inversion H as [|? y ? ys' Hx Hl]; subst.
      rewrite Hx. simpl. apply IH in Hl. rewrite Hl. reflexivity.
Qed.

(** The loop raises what its first raising iteration raises. *)
Lemma for_each_Raise (l : list A) (e : Error) :
  for_each body l = Raise e ↔
  ∃ pre x post, l = pre ++ x :: post
                ∧ Forall (fun p => ∃ y, body p = Ok y) pre
                ∧ body x = Raise e.
Proof.
  induction l as [|x l IH]; simpl.
  - split; [discriminate|]. intros (pre & y & post & H & _).
    destruct pre; discriminate.
  - split.
    + destruct (body x) as [y|e'] eqn:Hx; simpl.
      * destruct (for_each body l) as [ys|e'] eqn:Hl; simpl; [discriminate|].
        intros [= ->]. destruct IH as [IH _].
        destruct (IH eq_refl) as (pre & z & post & -> & Hpre & Hz).
        exists (x :: pre), z, post. repeat split; eauto.
      * intros [= ->]. exists [], x, l. repeat split; auto.
    + intros (pre & z & post & Heq & Hpre & Hz).
      destruct pre as [|p pre]; simpl in Heq; injection Heq as -> ->.
      * rewrite Hz. reflexivity.
      * inversion Hpre as [|? ? [y Hy] Hpre']; subst. rewrite Hy. simpl.
        destruct IH as [_ IH]. rewrite IH; [reflexivity|].
        exists pre, z, post. auto.
Qed.

End Loops.

(** ** The contamination assessment *)

Lemma assessment_risk (last : option FuelProducts.t) (requested : FuelProducts.t) :
  risk_of (contamination_assessment last requested) = true ↔
  ∃ l, last = Some l
       ∧ FuelProducts.product_code l ∈ FuelProducts.cross_contamination_risk requested.
Proof.
  unfold contamination_assessment, risk_of.
  destruct last as [l|]; [|split; [discriminate | intros (? & [=] & _)]].
  repeat case_bool_decide; simpl; split; eauto; try discriminate.
  all: intros (? & [= <-] & ?); done.
Qed.

Lemma assessment_cleaning (last : option FuelProducts.t)
    (requested : FuelProducts.t) :
  cleaning_of (contamination_assessment last requested) = true ↔
  ∃ l, last = Some l
       ∧ FuelProducts.product_code l ∈ FuelProducts.cross_contamination_risk requested
       ∧ FuelProducts.product_code l ∈ FuelProducts.cleaning_required_after requested.
Proof.
  unfold contamination_assessment, cleaning_of.
  destruct last as [l|]; [|split; [discriminate | intros (? & [=] & _)]].
  repeat case_bool_decide; simpl; split; eauto; try discriminate.
  all: intros (? & [= <-] & ? & ?); done.
Qed.

(** ** One iteration of the validation loop *)

Lemma check_assignment_Ok (db : Db) (a : CompartmentAssignmentRequest.t)
    (check : CrossContaminationCheck.t) :
  check_assignment db a = Ok check ↔
  ∃ compartment requested,
    compartments db !! CompartmentAssignmentRequest.compartment_id a = Some compartment
    ∧ products db !! CompartmentAssignmentRequest.fuel_product_id a = Some requested
    ∧ CompartmentAssignmentRequest.assigned_volume_liters a
      ≤ TankerCompartments.capacity_liters compartment
    ∧ check =
      let r := contamination_assessment (last_product db compartment) requested in
      {| CrossContaminationCheck.compartment_id :=
           CompartmentAssignmentRequest.compartment_id a;
         CrossContaminationCheck.current_product :=
           FuelProducts.product_code <$> last_product db compartment;
         CrossContaminationCheck.requested_product :=
           FuelProducts.product_code requested;
         CrossContaminationCheck.contamination_risk := risk_of r;
         CrossContaminationCheck.cleaning_required := cleaning_of r;
         CrossContaminationCheck.estimated_cleaning_time_minutes := time_of r;
         CrossContaminationCheck.cleaning_cost_estimate := r.2 |}.
Proof.
  unfold check_assignment.
  destruct (compartments db !! _) as [compartment|] eqn:Hc;
    [|split; [discriminate | intros (? & ? & [=] & _)]].
  destruct (products db !! _) as [requested|] eqn:Hp;
    [|split; [discriminate | intros (? & ? & _ & [=] & _)]].
  destruct (contamination_assessment _ _) as [[[risk cleaning] time] cost] eqn:Hr.
  destruct (Z.ltb_spec (TankerCompartments.capacity_liters compartment)
              (CompartmentAssignmentRequest.assigned_volume_liters a)).
  - split; [discriminate|]. intros (? & ? & [= <-] & _ & ? & _). lia.
  - split.
    + intros [= <-]. exists compartment, requested. rewrite Hr. repeat split; auto.
    + intros (? & ? & [= <-] & [= <-] & _ & ->). rewrite Hr. reflexivity.
Qed.

(** C5.  For every compartment and requested product, the assessment
    returns [risk = true] if and only if the compartment has a last product
    whose code is in the requested product's [cross_contamination_risk],
    and [cleaning_required = true] if and only if that code is in addition
    in the requested product's [cleaning_required_after]; without a last
    product both are false.  The two flags of a check the validation returns
    are those of the assessment. *)
Theorem C5_contamination_assessment (db : Db)
    (compartment : TankerCompartments.t) (requested : FuelProducts.t) :
  (risk_of (contamination_assessment (last_product db compartment) requested) = true
   ↔ ∃ last, last_product db compartment = Some last
             ∧ FuelProducts.product_code last
               ∈ FuelProducts.cross_contamination_risk requested)
  ∧ (cleaning_of (contamination_assessment (last_product db compartment) requested)
     = true
     ↔ ∃ last, last_product db compartment = Some last
               ∧ FuelProducts.product_code last
                 ∈ FuelProducts.cross_contamination_risk requested
               ∧ FuelProducts.product_code last
                 ∈ FuelProducts.cleaning_required_after requested)
  ∧ (risk_of (contamination_assessment None requested) = false
     ∧ cleaning_of (contamination_assessment None requested) = false)
  ∧ (∀ a check,
       compartments db !! CompartmentAssignmentRequest.compartment_id a
       = Some compartment →
       products db !! CompartmentAssignmentRequest.fuel_product_id a
       = Some requested →
       check_assignment db a = Ok check →
       CrossContaminationCheck.contamination_risk check
       = risk_of (contamination_assessment (last_product db compartment) requested)
       ∧ CrossContaminationCheck.cleaning_required check
         = cleaning_of
             (contamination_assessment (last_product db compartment) requested)).
Proof.
  split; [apply assessment_risk|]. split; [apply assessment_cleaning|].
  split; [split; reflexivity|].
  intros a check Hc Hp H. apply check_assignment_Ok in H.
  destruct H as (c' & r' & Hc' & Hp' & _ & ->).
  rewrite Hc in Hc'. rewrite Hp in Hp'. injection Hc' as <-. injection Hp' as <-.
  split; reflexivity.
Qed.

Lemma C5_contamination_assessment_witness :
  ∃ check,
    check_assignment Scenario.db_used (Scenario.assign 2 1 5000) = Ok check
    ∧ CrossContaminationCheck.contamination_risk check = true
    ∧ CrossContaminationCheck.cleaning_required check = true.
Proof.
  destruct (check_assignment Scenario.db_used (Scenario.assign 2 1 5000))
    as [check|e] eqn:H.
  - exists check. split; [reflexivity|].
    destruct (proj2 (proj2 (proj2
                (C5_contamination_assessment Scenario.db_used
                   (Scenario.compartment 1 2 10000 OPERATIONAL (Some 2))
                   (Scenario.product "ULSD" DIESEL (Decimal.mk 8400 (-4))
                      ["JET-A1"; "ULSD-50"]%string ["JET-A1"; "ULSD-50"]%string))))
                (Scenario.assign 2 1 5000) check) as [Hr Hcl].
    + reflexivity.
    + reflexivity.
    + exact H.
    + rewrite Hr, Hcl. split; reflexivity.
  - vm_compute in H. discriminate H.
Defined.

Lemma check_assignment_fits (db : Db) (a : CompartmentAssignmentRequest.t) :
  fits db a ↔ ∃ check, check_assignment db a = Ok check.
Proof.
  split.
  - intros (compartment & requested & Hc & Hp & Hv).
    eexists. apply check_assignment_Ok. exists compartment, requested. eauto.
  - intros (check & H). apply check_assignment_Ok in H.
    destruct H as (compartment & requested & ? & ? & ? & _).
    exists compartment, requested. auto.
Qed.

Lemma check_assignment_overflow (db : Db) (a : CompartmentAssignmentRequest.t)
    (compartment : TankerCompartments.t) :
  compartments db !! CompartmentAssignmentRequest.compartment_id a = Some compartment →
  is_Some (products db !! CompartmentAssignmentRequest.fuel_product_id a) →
  TankerCompartments.capacity_liters compartment
  < CompartmentAssignmentRequest.assigned_volume_liters a →
  check_assignment db a
  = Raise (CapacityError
             (CompartmentAssignmentRequest.compartment_id a)
             (TankerCompartments.capacity_liters compartment)
             (CompartmentAssignmentRequest.assigned_volume_liters a)
             (CompartmentAssignmentRequest.assigned_volume_liters a
              - TankerCompartments.capacity_liters compartment)).
Proof.
  intros Hc [requested Hp] Hv. unfold check_assignment. rewrite Hc, Hp.
  destruct (contamination_assessment _ _) as [[[risk cleaning] time] cost].
  destruct (Z.ltb_spec (TankerCompartments.capacity_liters compartment)
              (CompartmentAssignmentRequest.assigned_volume_liters a)); [reflexivity|lia].
Qed.

(** An assignment cannot both fit and overflow. *)
Lemma fits_not_overflows (db : Db) (a : CompartmentAssignmentRequest.t) :
  fits db a → ¬ overflows db a.
Proof.
  intros (c & ? & Hc & _ & ?) (c' & Hc' & ?). rewrite Hc in Hc'.
  injection Hc' as <-. lia.
Qed.

(** A check reports a risk exactly for an assignment that carries one. *)
Lemma check_assignment_risk (db : Db) (a : CompartmentAssignmentRequest.t)
    (check : CrossContaminationCheck.t) :
  check_assignment db a = Ok check →
  CrossContaminationCheck.contamination_risk check = true ↔ carries_risk db a.
Proof.
  intros H. apply check_assignment_Ok in H.
  destruct H as (compartment & requested & Hc & Hp & _ & ->). simpl.
  rewrite assessment_risk. split.
  - intros (l & ? & ?). exists compartment, l, requested. auto.
  - intros (c' & l & r' & Hc' & ? & Hp' & ?).
    rewrite Hc in Hc'. rewrite Hp in Hp'. injection Hc' as <-. injection Hp' as <-.
    eauto.
Qed.

(** ** The validation loop *)

Lemma validate_Ok_fits (db : Db) (l : list CompartmentAssignmentRequest.t) :
  (∃ checks, validate_cross_contamination db l = Ok checks) ↔ Forall (fits db) l.
Proof.
  unfold validate_cross_contamination. split.
  - intros (checks & H). apply for_each_Ok in H.
    induction H as [|a c l cs Ha _ IH]; constructor; [|exact IH].
    apply check_assignment_fits. eauto.
  - induction 1 as [|a l Ha _ (cs & IH)]; [exists []; reflexivity|].
    apply check_assignment_fits in Ha. destruct Ha as (c & Ha).
    exists (c :: cs). simpl. rewrite Ha. simpl. rewrite IH. reflexivity.
Qed.

(** What the validation raises at the first assignment that overflows,
    when the assignments before it fit. *)
Lemma validate_overflow (db : Db) (pre post : list CompartmentAssignmentRequest.t)
    (a : CompartmentAssignmentRequest.t) (compartment : TankerCompartments.t) :
  Forall (fits db) pre →
  compartments db !! CompartmentAssignmentRequest.compartment_id a = Some compartment →
  is_Some (products db !! CompartmentAssignmentRequest.fuel_product_id a) →
  TankerCompartments.capacity_liters compartment
  < CompartmentAssignmentRequest.assigned_volume_liters a →
  validate_cross_contamination db (pre ++ a :: post)
  = Raise (CapacityError
             (CompartmentAssignmentRequest.compartment_id a)
             (TankerCompartments.capacity_liters compartment)
             (CompartmentAssignmentRequest.assigned_volume_liters a)
             (CompartmentAssignmentRequest.assigned_volume_liters a
              - TankerCompartments.capacity_liters compartment)).
Proof.
  intros Hpre Hc Hp Hv. apply for_each_Raise. exists pre, a, post.
  split; [reflexivity|]. split.
  - eapply Forall_impl; [exact Hpre|]. intros x. apply check_assignment_fits.
  - apply check_assignment_overflow; assumption.
Qed.

(** The checks that report a risk, against the assignments that carry one:
    either no assignment carries a risk and no check reports one, or the
    first reporting check is the check of the first assignment that carries
    a risk. *)
Lemma validate_first_issue (db : Db) (l : list CompartmentAssignmentRequest.t)
    (checks : list CrossContaminationCheck.t) :
  validate_cross_contamination db l = Ok checks →
  (Forall (fun a => ¬ carries_risk db a) l
   ∧ filter (fun c => CrossContaminationCheck.contamination_risk c = true) checks = [])
  ∨ (∃ pre a post issue issues,
       l = pre ++ a :: post
       ∧ Forall (fun a => ¬ carries_risk db a) pre
       ∧ carries_risk db a
       ∧ check_assignment db a = Ok issue
       ∧ filter (fun c => CrossContaminationCheck.contamination_risk c = true) checks
         = issue :: issues).
Proof.
  unfold validate_cross_contamination. intros H. apply for_each_Ok in H.
  induction H as [|a c l cs Ha _ IH].
  - left. split; [constructor | reflexivity].
  - pose proof (check_assignment_risk db a c Ha) as Hrisk.
    destruct (CrossContaminationCheck.contamination_risk c) eqn:Hc.
    + right. exists [], a, l, c. eexists. split; [reflexivity|].
      split; [constructor|]. split; [apply Hrisk; reflexivity|].
      split; [exact Ha|]. rewrite filter_cons_True by exact Hc. reflexivity.
    + assert (¬ carries_risk db a) as Hno.
      { intros Hr. apply Hrisk in Hr. discriminate. }
      rewrite filter_cons_False by (rewrite Hc; discriminate).
      destruct IH as [[Hall Hnil] | (pre & a' & post & issue & issues & -> & Hpre & Hr & Ha' & Hf)].
      * left. split; [constructor; assumption | exact Hnil].
      * right. exists (a :: pre), a', post, issue, issues.
        split; [reflexivity|]. split; [constructor; assumption|]. auto.
Qed.

(** ** The two loops of the creation *)

Lemma totals_Ok (db : Db) (l : list CompartmentAssignmentRequest.t)
    (tv0 tv : Z) (tw0 tw : Decimal.t) :
  for_fold (add_to_totals db) (tv0, tw0) l = Ok (tv, tw) →
  tv = tv0 + sum_volumes l.
Proof.
  revert tv0 tw0. induction l as [|a l IH]; intros tv0 tw0; simpl.
  - intros [= <- _]. lia.
  - destruct (products db !! _) as [p|]; simpl; [|discriminate].
    intros H. apply IH in H. lia.
Qed.

Lemma totals_total (db : Db) (l : list CompartmentAssignmentRequest.t)
    (totals : Z * Decimal.t) :
  Forall (fits db) l → ∃ totals', for_fold (add_to_totals db) totals l = Ok totals'.
Proof.
  intros H. revert totals.
  induction H as [|a l (c & p & _ & Hp & _) _ IH]; intros [tv tw]; simpl; [eauto|].
  rewrite Hp. simpl. apply IH.
Qed.

Lemma assignments_loop_total (db0 : Db) (delivery_id : Z)
    (l : list CompartmentAssignmentRequest.t) (session : Db) :
  Forall (fits db0) l →
  ∃ session', for_fold (create_assignment db0 delivery_id) session l = Ok session'.
Proof.
  intros H. revert session.
  induction H as [|a l (c & p & _ & Hp & _) _ IH]; intros session; simpl; [eauto|].
  assert (∃ s1, create_assignment db0 delivery_id session a = Ok s1) as [s1 ->]
    by (unfold create_assignment; rewrite Hp; simpl; eauto).
  simpl. apply IH.
Qed.

(** The second loop adds rows to the assignment table only. *)
Lemma assignments_loop_tables (db0 : Db) (delivery_id : Z)
    (l : list CompartmentAssignmentRequest.t) (session session' : Db) :
  for_fold (create_assignment db0 delivery_id) session l = Ok session' →
  vehicles session' = vehicles session
  ∧ compartments session' = compartments session
  ∧ products session' = products session
  ∧ deliveries session' = deliveries session.
Proof.
  revert session. induction l as [|a l IH]; intros session; simpl.
  - intros [= <-]. auto.
  - destruct (create_assignment db0 delivery_id session a) as [s1|] eqn:Hs1;
      simpl; [|discriminate].
    intros H. apply IH in H. unfold create_assignment in Hs1.
    destruct (products db0 !! _) as [p|]; simpl in Hs1; [|discriminate].
    injection Hs1 as <-. exact H.
Qed.

Lemma utilization_percent_Ok (total_volume total_capacity_liters : Z) :
  total_capacity_liters ≠ 0 ↔
  ∃ u, utilization_percent total_volume total_capacity_liters = Ok u.
Proof.
  unfold utilization_percent, Decimal.div. simpl.
  destruct (Z.eqb_spec total_capacity_liters 0) as [->|Hne].
  - split; [congruence | intros (u & [=])].
  - split; [|auto]. intros _. destruct (total_volume =? 0); eauto.
    destruct (Decimal.strip_zeros _ _ _ _); destruct (_ =? 0); eauto.
Qed.

(** ** The creation handler, gate by gate *)

Lemma compliance_gate (tanker : BulkTankerVehicles.t) :
  negb (BulkTankerVehicles.dot_certified tanker)
  || negb (bool_decide (BulkTankerVehicles.certification_status tanker = CERTIFIED))
  = false
  ↔ dot_compliant tanker.
Proof.
  unfold dot_compliant. destruct (BulkTankerVehicles.dot_certified tanker);
    case_bool_decide; simpl; split; try tauto; try discriminate;
    intros [? ?]; congruence.
Qed.

Section CreateGates.
Variable strftime_yymmdd : datetime -> string.
Variables (db : Db) (project_id : Z) (req : BulkTankerDeliveryRequest.t)
          (now : datetime).

Let tanker_id := BulkTankerDeliveryRequest.tanker_vehicle_id req.
Let requested := BulkTankerDeliveryRequest.compartment_assignments req.
Let create := create_from_request strftime_yymmdd db project_id req now.

Lemma create_not_compliant (tanker : BulkTankerVehicles.t) :
  select_tanker db tanker_id project_id = Some tanker →
  ¬ dot_compliant tanker →
  create = Raise (ComplianceError
                    tanker_id
                    (BulkTankerVehicles.last_inspection tanker)
                    (TankerCertificationStatus_value
                       (BulkTankerVehicles.certification_status tanker))
                    ["DOT inspection"; "Hazmat certification renewal"]%string).
Proof.
  intros H Hn. subst create tanker_id. unfold create_from_request.
  rewrite H. destruct (_ || _) eqn:Hg; [reflexivity|].
  apply compliance_gate in Hg. contradiction.
Qed.

Lemma create_validation_raises (tanker : BulkTankerVehicles.t) (e : Error) :
  select_tanker db tanker_id project_id = Some tanker →
  dot_compliant tanker →
  validate_cross_contamination db requested = Raise e →
  create = Raise e.
Proof.
  intros H Hc Hv. subst create tanker_id requested.
  unfold create_from_request.
  rewrite H. apply compliance_gate in Hc. rewrite Hc. rewrite Hv. reflexivity.
Qed.

Lemma create_contamination (tanker : BulkTankerVehicles.t)
    (checks issues : list CrossContaminationCheck.t)
    (issue : CrossContaminationCheck.t) :
  select_tanker db tanker_id project_id = Some tanker →
  dot_compliant tanker →
  validate_cross_contamination db requested = Ok checks →
  filter (fun c => CrossContaminationCheck.contamination_risk c = true) checks
  = issue :: issues →
  create = Raise (ContaminationError
                    (CrossContaminationCheck.compartment_id issue)
                    (CrossContaminationCheck.current_product issue)
                    (CrossContaminationCheck.requested_product issue)
                    (CrossContaminationCheck.cleaning_required issue)
                    (CrossContaminationCheck.estimated_cleaning_time_minutes issue)).
Proof.
  intros H Hc Hv Hf. subst create tanker_id requested.
  unfold create_from_request.
  rewrite H. apply compliance_gate in Hc. rewrite Hc. rewrite Hv. simpl.
  rewrite Hf. reflexivity.
Qed.

(** What a successful creation went through and what it stored. *)
Lemma create_Ok_inv (resp : CreateResponse.t) (db' : Db) :
  create = Ok (resp, db') →
  ∃ tanker tw u delivery,
    select_tanker db tanker_id project_id = Some tanker
    ∧ dot_compliant tanker
    ∧ Forall (fits db) requested
    ∧ Forall (fun a => ¬ carries_risk db a) requested
    ∧ for_fold (add_to_totals db) (0, Decimal.zero) requested
      = Ok (sum_volumes requested, tw)
    ∧ utilization_percent (sum_volumes requested)
        (BulkTankerVehicles.total_capacity_liters tanker) = Ok u
    ∧ deliveries db' !! CreateResponse.delivery_id resp = Some delivery
    ∧ BulkTankerDeliveries.tanker_vehicle_id delivery = tanker_id
    ∧ BulkTankerDeliveries.total_volume_liters delivery = sum_volumes requested
    ∧ BulkTankerDeliveries.total_weight_kg delivery = tw
    ∧ BulkTankerDeliveries.capacity_utilization_percent delivery = Some u
    ∧ BulkTankerDeliveries.delivery_status delivery = "planned"%string.
Proof.
  subst create tanker_id requested. unfold create_from_request.
  destruct (select_tanker _ _ _) as [tanker|] eqn:Ht; [|discriminate].
  destruct (_ || _) eqn:Hg; [discriminate|]. apply compliance_gate in Hg.
  destruct (validate_cross_contamination _ _) as [checks|] eqn:Hv;
    simpl; [|discriminate].
  destruct (validate_first_issue _ _ _ Hv)
    as [[Hno Hnil] | (? & ? & ? & ? & ? & _ & _ & _ & _ & Hf)];
    [rewrite Hnil | rewrite Hf; discriminate].
  destruct (for_fold (add_to_totals db) _ _) as [[tv tw]|] eqn:Htot;
    simpl; [|discriminate].
  pose proof (totals_Ok _ _ _ _ _ _ Htot) as Htv. simpl in Htv. subst tv.
  destruct (utilization_percent _ _) as [u|] eqn:Hu; simpl; [|discriminate].
  destruct (for_fold (create_assignment db _) _ _) as [session|] eqn:Hs;
    simpl; [|discriminate].
  intros [= <- <-]. simpl.
  apply assignments_loop_tables in Hs. destruct Hs as (_ & _ & _ & Hd).
  exists tanker, tw, u. eexists. split; [reflexivity|]. split; [exact Hg|].
  split; [apply validate_Ok_fits; eauto|]. split; [exact Hno|].
  split; [reflexivity|]. split; [exact Hu|].
  split; [rewrite Hd; simpl; apply lookup_insert_eq|].
  simpl. auto.
Qed.

(** With these gates passed the handler reaches its end and hands the rows
    to the session. *)
Lemma create_Ok_intro (tanker : BulkTankerVehicles.t) :
  select_tanker db tanker_id project_id = Some tanker →
  dot_compliant tanker →
  Forall (fits db) requested →
  Forall (fun a => ¬ carries_risk db a) requested →
  BulkTankerVehicles.total_capacity_liters tanker ≠ 0 →
  ∃ resp db', create = Ok (resp, db').
Proof.
  intros Ht Hg Hfits Hno Hcap. subst create tanker_id requested.
  unfold create_from_request.
  rewrite Ht. apply compliance_gate in Hg. rewrite Hg.
  destruct (proj2 (validate_Ok_fits _ _) Hfits) as (checks & Hv).
  rewrite Hv. simpl.
  destruct (validate_first_issue _ _ _ Hv)
    as [[_ Hnil] | (pre & a & post & ? & ? & Heq & _ & Hr & _)].
  2:{ rewrite Heq in Hno. apply Forall_app in Hno. destruct Hno as [_ Hno].
      inversion Hno; subst. contradiction. }
  rewrite Hnil.
  destruct (totals_total db _ (0, Decimal.zero) Hfits) as ([tv tw] & ->). simpl.
  destruct (proj1 (utilization_percent_Ok tv _) Hcap) as (u & ->). simpl.
  match goal with
  | |- context [for_fold (create_assignment db ?i) ?s ?l] =>
      destruct (assignments_loop_total db i l s Hfits) as (session & ->)
  end.
  simpl. eauto.
Qed.

End CreateGates.

(** ** Request validation *)

Lemma validated_pass {A : Type} (handler : Result A) : validated [] handler = handler.
Proof. reflexivity. Qed.

Lemma validated_reject {A : Type} (errors : list Violation) (handler : Result A) :
  errors ≠ [] → validated errors handler = Raise (RequestValidationError errors).
Proof. destruct errors; [congruence | reflexivity]. Qed.

Lemma validated_Ok {A : Type} (errors : list Violation) (handler : Result A) (a : A) :
  validated errors handler = Ok a ↔ errors = [] ∧ handler = Ok a.
Proof.
  destruct errors; simpl; split; try tauto; try discriminate.
  intros [[=] _].
Qed.

Lemma post_delivery_Some (strftime_yymmdd : datetime -> string) (db : Db)
    (project_id : Z) (req : BulkTankerDeliveryRequest.t) (now : datetime) :
  post_delivery strftime_yymmdd db project_id (Some req) now
  = validated (delivery_request_errors req)
              (create_from_request strftime_yymmdd db project_id req now).
Proof. reflexivity. Qed.

Lemma assigned_volume_accepted (v : Z) :
  assigned_volume_liters_errors v = [] ↔ 0 < v ≤ 50000.
Proof.
  unfold assigned_volume_liters_errors, validate_volume.
  destruct (Z.ltb_spec 0 v); simpl; [|split; [discriminate | lia]].
  destruct (Z.leb_spec v 0); [lia|].
  destruct (Z.ltb_spec 50000 v); split; try discriminate; try lia; reflexivity.
Qed.

Lemma assignment_accepted (a : CompartmentAssignmentRequest.t) :
  assignment_errors a = [] →
  0 < CompartmentAssignmentRequest.assigned_volume_liters a ≤ 50000.
Proof.
  unfold assignment_errors. intros H. apply app_eq_nil in H.
  apply assigned_volume_accepted, H.
Qed.

Lemma assignments_accepted (l : list CompartmentAssignmentRequest.t) :
  concat (map assignment_errors l) = [] →
  Forall (fun a => 0 < CompartmentAssignmentRequest.assigned_volume_liters a ≤ 50000) l.
Proof.
  induction l as [|a l IH]; simpl; [constructor|].
  intros H. apply app_eq_nil in H. destruct H as [Ha Hl].
  constructor; [apply assignment_accepted, Ha | apply IH, Hl].
Qed.

(** What an accepted creation request is known to satisfy. *)
Lemma delivery_request_accepted (req : BulkTankerDeliveryRequest.t) :
  delivery_request_errors req = [] →
  Forall (fun a => 0 < CompartmentAssignmentRequest.assigned_volume_liters a ≤ 50000)
         (BulkTankerDeliveryRequest.compartment_assignments req)
  ∧ (1 ≤ length (BulkTankerDeliveryRequest.compartment_assignments req) ≤ 12)%nat.
Proof.
  unfold delivery_request_errors. intros H.
  apply app_eq_nil in H. destruct H as [_ H].
  apply app_eq_nil in H. destruct H as [_ H].
  unfold compartment_assignments_errors in H.
  destruct (concat _) eqn:Hitems; [|discriminate].
  split; [apply assignments_accepted, Hitems|].
  destruct (Z.ltb_spec (Z.of_nat (length (BulkTankerDeliveryRequest.compartment_assignments req))) 1);
    [discriminate|].
  unfold validate_assignments in H.
  destruct (Z.eqb_spec (Z.of_nat (length (BulkTankerDeliveryRequest.compartment_assignments req))) 0);
    [discriminate|].
  destruct (Z.ltb_spec 12 (Z.of_nat (length (BulkTankerDeliveryRequest.compartment_assignments req))));
    [discriminate|].
  lia.
Qed.

(** A report with a faulty item is not empty. *)
Lemma assignments_rejected (l : list CompartmentAssignmentRequest.t)
    (a : CompartmentAssignmentRequest.t) :
  a ∈ l → 50000 < CompartmentAssignmentRequest.assigned_volume_liters a →
  concat (map assignment_errors l) ≠ [].
Proof.
  intros Hin Hv Hnil. apply assignments_accepted in Hnil.
  rewrite Forall_forall in Hnil. specialize (Hnil a Hin). lia.
Qed.

Lemma delivery_request_rejected (req : BulkTankerDeliveryRequest.t)
    (a : CompartmentAssignmentRequest.t) :
  a ∈ BulkTankerDeliveryRequest.compartment_assignments req →
  50000 < CompartmentAssignmentRequest.assigned_volume_liters a →
  delivery_request_errors req ≠ [].
Proof.
  intros Hin Hv Hnil. apply delivery_request_accepted in Hnil.
  destruct Hnil as [Hnil _]. rewrite Forall_forall in Hnil.
  specialize (Hnil a Hin). lia.
Qed.

(** C10.  An assigned volume greater than 50000 liters is rejected at
    request validation, by [validate_volume], for the contamination
    validation and for the delivery creation alike: the outcome is the
    validation report of the body, whatever the database holds, the capacity
    of the target compartment included. *)
Theorem C10_volume_limit_at_request_validation
    (a : CompartmentAssignmentRequest.t) :
  50000 < CompartmentAssignmentRequest.assigned_volume_liters a →
  validate_volume (CompartmentAssignmentRequest.assigned_volume_liters a)
  = Raise (RequestValidationError
             [value_error "assigned_volume_liters"
                "Volume exceeds reasonable compartment capacity"])
  ∧ (∀ (db : Db) (body : list CompartmentAssignmentRequest.t),
       a ∈ body →
       concat (map assignment_errors body) ≠ []
       ∧ post_validate_contamination db body
         = Raise (RequestValidationError (concat (map assignment_errors body))))
  ∧ (∀ (strftime_yymmdd : datetime -> string) (db : Db) (project_id : Z)
       (body : BulkTankerDeliveryRequest.t) (now : datetime),
       a ∈ BulkTankerDeliveryRequest.compartment_assignments body →
       delivery_request_errors body ≠ []
       ∧ post_delivery strftime_yymmdd db project_id (Some body) now
         = Raise (RequestValidationError (delivery_request_errors body))).
Proof.
  intros Hv. split; [|split].
  - unfold validate_volume.
    destruct (Z.leb_spec (CompartmentAssignmentRequest.assigned_volume_liters a) 0);
      [lia|].
    destruct (Z.ltb_spec 50000 (CompartmentAssignmentRequest.assigned_volume_liters a));
      [reflexivity | lia].
  - intros db body Hin.
    pose proof (assignments_rejected body a Hin Hv) as Hne.
    split; [exact Hne|]. unfold post_validate_contamination.
    apply validated_reject, Hne.
  - intros strftime_yymmdd db project_id body now Hin.
    pose proof (delivery_request_rejected body a Hin Hv) as Hne.
    split; [exact Hne|]. rewrite post_delivery_Some. apply validated_reject, Hne.
Qed.

Lemma C10_volume_limit_at_request_validation_witness :
  TankerCompartments.capacity_liters <$> compartments Scenario.db_clean !! 5
  = Some 60000
  ∧ post_validate_contamination Scenario.db_clean [Scenario.assign 5 1 55000]
    = Raise (RequestValidationError
               (concat (map assignment_errors [Scenario.assign 5 1 55000]))).
Proof.
  split; [reflexivity|].
  refine (proj2 (proj1 (proj2
            (C10_volume_limit_at_request_validation (Scenario.assign 5 1 55000) _))
            Scenario.db_clean [Scenario.assign 5 1 55000] _)).
  - simpl. lia.
  - in_list.
Defined.

(** ** Contamination rejection *)

(** The assessment over a last product that is a risk. *)
Lemma assessment_at_risk (last requested : FuelProducts.t) :
  FuelProducts.product_code last ∈ FuelProducts.cross_contamination_risk requested →
  contamination_assessment (Some last) requested
  = if bool_decide (FuelProducts.product_code last
                    ∈ FuelProducts.cleaning_required_after requested)
    then (true, true, Some 120, Some (Decimal.mk 45000 (-2)))
    else (true, false, None, None).
Proof.
  intros H. unfold contamination_assessment.
  rewrite (bool_decide_eq_true_2 _ H). reflexivity.
Qed.

(** A creation whose batch carries a risk does not return. *)
Lemma create_with_risk_raises (strftime_yymmdd : datetime -> string) (db : Db)
    (project_id : Z) (req : BulkTankerDeliveryRequest.t) (now : datetime) :
  Exists (carries_risk db) (BulkTankerDeliveryRequest.compartment_assignments req) →
  ∃ e, post_delivery strftime_yymmdd db project_id (Some req) now = Raise e.
Proof.
  intros Hex.
  destruct (post_delivery strftime_yymmdd db project_id (Some req) now)
    as [[resp db']|e] eqn:H; [|eauto].
  rewrite post_delivery_Some in H. apply validated_Ok in H. destruct H as [_ H].
  apply create_Ok_inv in H.
  destruct H as (? & ? & ? & ? & _ & _ & _ & Hno & _).
  apply Exists_exists in Hex. destruct Hex as (a & Hin & Hr).
  rewrite Forall_forall in Hno. destruct (Hno a Hin Hr).
Qed.

(** C1, as amended.  When some assignment of the batch targets a compartment
    whose last product's code is in the requested product's
    [cross_contamination_risk], the creation raises, so that no delivery and
    no assignment is stored, whatever the other assignments are.  When the
    request is well-formed, the vehicle is found and compliant and every
    assignment names an existing compartment and product with a volume
    within the capacity, what is raised is the contamination error of the
    first such assignment: its compartment id, the last and the requested
    product codes, the cleaning-required flag, and the estimated cleaning
    time (120 when cleaning is required, none otherwise). *)
Theorem C1_contamination_rejects_batch (strftime_yymmdd : datetime -> string)
    (db : Db) (project_id : Z) (req : BulkTankerDeliveryRequest.t)
    (now : datetime) :
  Exists (carries_risk db) (BulkTankerDeliveryRequest.compartment_assignments req) →
  (∃ e, post_delivery strftime_yymmdd db project_id (Some req) now = Raise e)
  ∧ (∀ tanker,
       delivery_request_errors req = [] →
       select_tanker db (BulkTankerDeliveryRequest.tanker_vehicle_id req) project_id
       = Some tanker →
       dot_compliant tanker →
       Forall (fits db) (BulkTankerDeliveryRequest.compartment_assignments req) →
       ∃ pre a post compartment last requested,
         BulkTankerDeliveryRequest.compartment_assignments req = pre ++ a :: post
         ∧ Forall (fun a => ¬ carries_risk db a) pre
         ∧ compartments db !! CompartmentAssignmentRequest.compartment_id a
           = Some compartment
         ∧ last_product db compartment = Some last
         ∧ products db !! CompartmentAssignmentRequest.fuel_product_id a
           = Some requested
         ∧ FuelProducts.product_code last
           ∈ FuelProducts.cross_contamination_risk requested
         ∧ post_delivery strftime_yymmdd db project_id (Some req) now
           = Raise (ContaminationError
                      (CompartmentAssignmentRequest.compartment_id a)
                      (Some (FuelProducts.product_code last))
                      (FuelProducts.product_code requested)
                      (bool_decide (FuelProducts.product_code last
                                    ∈ FuelProducts.cleaning_required_after requested))
                      (if bool_decide (FuelProducts.product_code last
                                       ∈ FuelProducts.cleaning_required_after requested)
                       then Some 120 else None))).
Proof.
  intros Hex. split; [apply create_with_risk_raises, Hex|].
  intros tanker Hvalid Ht Hg Hfits.
  destruct (proj2 (validate_Ok_fits _ _) Hfits) as (checks & Hv).
  destruct (validate_first_issue _ _ _ Hv)
    as [[Hno _] | (pre & a & post & issue & issues & Heq & Hpre & Hr & Ha & Hf)].
  { apply Exists_exists in Hex. destruct Hex as (a & Hin & Hr).
    rewrite Forall_forall in Hno. destruct (Hno a Hin Hr). }
  destruct Hr as (compartment & last & requested & Hc & Hl & Hp & Hrisk).
  exists pre, a, post, compartment, last, requested.
  do 6 (split; [assumption|]).
  rewrite post_delivery_Some. rewrite Hvalid, validated_pass.
  rewrite (create_contamination _ _ _ _ _ tanker checks issues issue Ht Hg Hv Hf).
  apply check_assignment_Ok in Ha.
  destruct Ha as (c' & r' & Hc' & Hp' & _ & ->).
  rewrite Hc in Hc'. rewrite Hp in Hp'. injection Hc' as <-. injection Hp' as <-.
  simpl. rewrite Hl. rewrite (assessment_at_risk _ _ Hrisk).
  case_bool_decide; reflexivity.
Qed.

(** The claim as stated fails: compartment 2 last held "JET-A1", a risk for
    "ULSD", and the second assignment of the batch puts 55000 L into
    compartment 5, which belongs to the vehicle, is operational and holds
    60000 L.  The request is refused at request validation, for the volume
    above 50000, and not with a contamination error. *)
Lemma C1_counterexample :
  carries_risk Examples.db_used_large (Scenario.assign 2 1 5000)
  ∧ Forall (fits Examples.db_used_large)
           [Scenario.assign 2 1 5000; Scenario.assign 5 1 55000]
  ∧ post_delivery Scenario.calendar Examples.db_used_large 1
      (Some (Scenario.request 1 [Scenario.assign 2 1 5000; Scenario.assign 5 1 55000]))
      2500
    = Raise (RequestValidationError
               [value_error "assigned_volume_liters"
                  "Volume exceeds reasonable compartment capacity"])
  ∧ ¬ (∃ c cur rp cl t,
         post_delivery Scenario.calendar Examples.db_used_large 1
           (Some (Scenario.request 1
                    [Scenario.assign 2 1 5000; Scenario.assign 5 1 55000]))
           2500
         = Raise (ContaminationError c cur rp cl t)).
Proof.
  split; [by_lookup|]. split; [repeat constructor; by_lookup|].
  split; [reflexivity|].
  intros (c & cur & rp & cl & t & H). vm_compute in H. discriminate.
Qed.

Lemma C1_contamination_rejects_batch_witness :
  Exists (carries_risk Scenario.db_used)
         [Scenario.assign 1 1 9000; Scenario.assign 2 1 5000]
  ∧ ∃ e, post_delivery Scenario.calendar Scenario.db_used 1
           (Some (Scenario.request 1 [Scenario.assign 1 1 9000; Scenario.assign 2 1 5000]))
           2500
         = Raise e.
Proof.
  assert (Exists (carries_risk Scenario.db_used)
            [Scenario.assign 1 1 9000; Scenario.assign 2 1 5000]) as H.
  { apply Exists_cons_tl, Exists_cons_hd. by_lookup. }
  split; [exact H|].
  exact (proj1 (C1_contamination_rejects_batch Scenario.calendar Scenario.db_used 1
                  (Scenario.request 1 [Scenario.assign 1 1 9000;
                                       Scenario.assign 2 1 5000]) 2500 H)).
Defined.

(** ** Capacity overflow *)

(** C4, as amended.  When an assignment's volume exceeds the capacity of its
    compartment, the contamination validation and the delivery creation
    raise.  What is raised is the capacity-overflow error of that
    assignment, carrying the compartment id, the capacity, the requested
    volume and [overflow_amount = volume - capacity], when the request
    passes request validation (so the volume is at most 50000), the
    assignments before it name existing compartments and products with
    volumes within capacity, its own product exists, and, for the creation,
    the vehicle is found and compliant. *)
Theorem C4_capacity_overflow (db : Db)
    (pre post : list CompartmentAssignmentRequest.t)
    (a : CompartmentAssignmentRequest.t) (compartment : TankerCompartments.t) :
  compartments db !! CompartmentAssignmentRequest.compartment_id a = Some compartment →
  TankerCompartments.capacity_liters compartment
  < CompartmentAssignmentRequest.assigned_volume_liters a →
  (∃ e, post_validate_contamination db (pre ++ a :: post) = Raise e)
  ∧ (∀ strftime_yymmdd project_id req now,
       BulkTankerDeliveryRequest.compartment_assignments req = pre ++ a :: post →
       ∃ e, post_delivery strftime_yymmdd db project_id (Some req) now = Raise e)
  ∧ (Forall (fits db) pre →
     is_Some (products db !! CompartmentAssignmentRequest.fuel_product_id a) →
     (concat (map assignment_errors (pre ++ a :: post)) = [] →
      post_validate_contamination db (pre ++ a :: post)
      = Raise (CapacityError
                 (CompartmentAssignmentRequest.compartment_id a)
                 (TankerCompartments.capacity_liters compartment)
                 (CompartmentAssignmentRequest.assigned_volume_liters a)
                 (CompartmentAssignmentRequest.assigned_volume_liters a
                  - TankerCompartments.capacity_liters compartment)))
     ∧ (∀ strftime_yymmdd project_id req now tanker,
          BulkTankerDeliveryRequest.compartment_assignments req = pre ++ a :: post →
          delivery_request_errors req = [] →
          select_tanker db (BulkTankerDeliveryRequest.tanker_vehicle_id req)
            project_id = Some tanker →
          dot_compliant tanker →
          post_delivery strftime_yymmdd db project_id (Some req) now
          = Raise (CapacityError
                     (CompartmentAssignmentRequest.compartment_id a)
                     (TankerCompartments.capacity_liters compartment)
                     (CompartmentAssignmentRequest.assigned_volume_liters a)
                     (CompartmentAssignmentRequest.assigned_volume_liters a
                      - TankerCompartments.capacity_liters compartment)))).
Proof.
  intros Hc Hv.
  assert (¬ Forall (fits db) (pre ++ a :: post)) as Hnofit.
  { intros H. apply Forall_app in H. destruct H as [_ H]. inversion H; subst.
    eapply fits_not_overflows; [eassumption|]. exists compartment. auto. }
  split; [|split].
  - destruct (post_validate_contamination db (pre ++ a :: post)) as [checks|e] eqn:H;
      [|eauto].
    unfold post_validate_contamination in H. apply validated_Ok in H.
    destruct H as [_ H]. destruct Hnofit. apply validate_Ok_fits. eauto.
  - intros strftime_yymmdd project_id req now Hreq.
    destruct (post_delivery strftime_yymmdd db project_id (Some req) now)
      as [[resp db']|e] eqn:H; [|eauto].
    rewrite post_delivery_Some in H. apply validated_Ok in H. destruct H as [_ H].
    apply create_Ok_inv in H. destruct H as (? & ? & ? & ? & _ & _ & Hfits & _).
    rewrite Hreq in Hfits. contradiction.
  - intros Hpre Hp.
    pose proof (validate_overflow db pre post a compartment Hpre Hc Hp Hv) as Hraise.
    split.
    + intros Hvalid. unfold post_validate_contamination.
      rewrite Hvalid, validated_pass. exact Hraise.
    + intros strftime_yymmdd project_id req now tanker Hreq Hvalid Ht Hg.
      rewrite post_delivery_Some. rewrite Hvalid, validated_pass.
      apply (create_validation_raises _ _ _ _ _ tanker); [assumption..|].
      rewrite Hreq. exact Hraise.
Qed.

(** The claim as stated fails: 55000 liters exceed the 10000 liters of
    compartment 1, and both endpoints answer with the request-validation
    report, not with the capacity-overflow error. *)
Lemma C4_counterexample :
  overflows Scenario.db_clean (Scenario.assign 1 1 55000)
  ∧ post_validate_contamination Scenario.db_clean [Scenario.assign 1 1 55000]
    = Raise (RequestValidationError
               [value_error "assigned_volume_liters"
                  "Volume exceeds reasonable compartment capacity"])
  ∧ post_delivery Scenario.calendar Scenario.db_clean 1
      (Some (Scenario.request 1 [Scenario.assign 1 1 55000])) 2500
    = Raise (RequestValidationError
               [value_error "assigned_volume_liters"
                  "Volume exceeds reasonable compartment capacity"]).
Proof. split; [by_lookup|]. split; reflexivity. Qed.

Lemma C4_capacity_overflow_witness :
  post_validate_contamination Scenario.db_clean
    ([Scenario.assign 2 1 5000] ++ Scenario.assign 1 1 10001 :: [])
  = Raise (CapacityError 1 10000 10001 (10001 - 10000)).
Proof.
  refine (proj1 (proj2 (proj2
            (C4_capacity_overflow Scenario.db_clean [Scenario.assign 2 1 5000] []
               (Scenario.assign 1 1 10001)
               (Scenario.compartment 1 1 10000 OPERATIONAL None) _ _)) _ _) _).
  - reflexivity.
  - simpl. lia.
  - constructor; [by_lookup | constructor].
  - eexists. reflexivity.
  - reflexivity.
Defined.


(** ** The gates of the creation *)

(** A creation that returns passed every gate. *)
Lemma post_delivery_Ok_inv (strftime_yymmdd : datetime -> string) (db : Db)
    (project_id : Z) (req : BulkTankerDeliveryRequest.t) (now : datetime)
    (resp : CreateResponse.t) (db' : Db) :
  post_delivery strftime_yymmdd db project_id (Some req) now = Ok (resp, db') →
  delivery_request_errors req = []
  ∧ ∃ tanker,
      select_tanker db (BulkTankerDeliveryRequest.tanker_vehicle_id req) project_id
      = Some tanker
      ∧ dot_compliant tanker
      ∧ Forall (fits db) (BulkTankerDeliveryRequest.compartment_assignments req)
      ∧ Forall (fun a => ¬ carries_risk db a)
               (BulkTankerDeliveryRequest.compartment_assignments req).
Proof.
  rewrite post_delivery_Some. intros H. apply validated_Ok in H. destruct H as [Hv H].
  split; [exact Hv|]. apply create_Ok_inv in H.
  destruct H as (tanker & ? & ? & ? & ? & ? & ? & ? & _). eauto.
Qed.

(** A request that passes every gate reaches the end of the handler. *)
Lemma post_delivery_Ok_intro (strftime_yymmdd : datetime -> string) (db : Db)
    (project_id : Z) (req : BulkTankerDeliveryRequest.t) (now : datetime)
    (tanker : BulkTankerVehicles.t) :
  delivery_request_errors req = [] →
  select_tanker db (BulkTankerDeliveryRequest.tanker_vehicle_id req) project_id
  = Some tanker →
  dot_compliant tanker →
  Forall (fits db) (BulkTankerDeliveryRequest.compartment_assignments req) →
  Forall (fun a => ¬ carries_risk db a)
         (BulkTankerDeliveryRequest.compartment_assignments req) →
  BulkTankerVehicles.total_capacity_liters tanker ≠ 0 →
  ∃ resp db', post_delivery strftime_yymmdd db project_id (Some req) now = Ok (resp, db').
Proof.
  intros Hv Ht Hg Hfits Hno Hcap. rewrite post_delivery_Some.
  rewrite Hv, validated_pass. eapply create_Ok_intro; eassumption.
Qed.

Import Rows.

(** ** What the creation reads of a vehicle and of a product *)

Section SameHazmat.
Variables (db : Db) (vehicle_table : gmap Z BulkTankerVehicles.t)
          (product_table : gmap Z FuelProducts.t).
Hypothesis Hvehicles :
  ∀ id, option_Forall2 same_but_hazmat_certification
          (vehicles db !! id) (vehicle_table !! id).
Hypothesis Hproducts :
  ∀ id, option_Forall2 same_but_hazmat_class
          (products db !! id) (product_table !! id).

Let other := with_vehicles_and_products db vehicle_table product_table.

Lemma assessment_same_hazmat (last1 last2 : option FuelProducts.t)
    (p1 p2 : FuelProducts.t) :
  option_Forall2 same_but_hazmat_class last1 last2 →
  same_but_hazmat_class p1 p2 →
  contamination_assessment last2 p2 = contamination_assessment last1 p1
  ∧ (FuelProducts.product_code <$> last2) = (FuelProducts.product_code <$> last1).
Proof.
  intros Hlast (_ & _ & _ & Hrisk & Hclean). unfold contamination_assessment.
  destruct Hlast as [l1 l2 (Hcode & _)|]; [|split; reflexivity].
  simpl. rewrite Hcode, Hrisk, Hclean. split; reflexivity.
Qed.

Lemma last_product_same_hazmat (c : TankerCompartments.t) :
  option_Forall2 same_but_hazmat_class (last_product db c) (last_product other c).
Proof.
  unfold last_product. simpl.
  destruct (TankerCompartments.last_product_id c) as [pid|]; [apply Hproducts|].
  constructor.
Qed.

Lemma check_assignment_same_hazmat (a : CompartmentAssignmentRequest.t) :
  check_assignment other a = check_assignment db a.
Proof.
  unfold check_assignment. simpl.
  destruct (compartments db !! _) as [c|]; [|reflexivity].
  destruct (Hproducts (CompartmentAssignmentRequest.fuel_product_id a))
    as [p1 p2 Hp|]; [|reflexivity].
  destruct (assessment_same_hazmat _ _ _ _ (last_product_same_hazmat c) Hp)
    as [-> ->].
  destruct Hp as (-> & _). reflexivity.
Qed.

Lemma validate_same_hazmat (body : list CompartmentAssignmentRequest.t) :
  validate_cross_contamination other body = validate_cross_contamination db body.
Proof.
  unfold validate_cross_contamination.
  induction body as [|a body IH]; simpl; [reflexivity|].
  rewrite check_assignment_same_hazmat, IH. reflexivity.
Qed.

Lemma totals_same_hazmat (l : list CompartmentAssignmentRequest.t)
    (totals : Z * Decimal.t) :
  for_fold (add_to_totals other) totals l = for_fold (add_to_totals db) totals l.
Proof.
  revert totals. induction l as [|a l IH]; intros [tv tw]; simpl; [reflexivity|].
  destruct (Hproducts (CompartmentAssignmentRequest.fuel_product_id a))
    as [p1 p2 (_ & _ & Hdensity & _)|]; simpl; [|reflexivity].
  rewrite Hdensity. apply IH.
Qed.

Lemma assignments_loop_same_hazmat (delivery_id : Z)
    (l : list CompartmentAssignmentRequest.t) (session : Db) :
  for_fold (create_assignment other delivery_id)
           (with_vehicles_and_products session vehicle_table product_table) l
  = match for_fold (create_assignment db delivery_id) session l with
    | Ok session' =>
        Ok (with_vehicles_and_products session' vehicle_table product_table)
    | Raise e => Raise e
    end.
Proof.
  revert session. induction l as [|a l IH]; intros session; simpl; [reflexivity|].
  unfold create_assignment at 2 4. simpl.
  destruct (Hproducts (CompartmentAssignmentRequest.fuel_product_id a))
    as [p1 p2 (_ & _ & Hdensity & _)|]; simpl; [|reflexivity].
  rewrite Hdensity. apply (IH (add_assignment session _)).
Qed.

Lemma create_same_hazmat (strftime_yymmdd : datetime -> string) (project_id : Z)
    (req : BulkTankerDeliveryRequest.t) (now : datetime) :
  create_from_request strftime_yymmdd other project_id req now
  = match create_from_request strftime_yymmdd db project_id req now with
    | Ok (resp, db') =>
        Ok (resp, with_vehicles_and_products db' vehicle_table product_table)
    | Raise e => Raise e
    end.
Proof.
  unfold create_from_request. rewrite validate_same_hazmat.
  unfold select_tanker at 1 2. simpl.
  destruct (Hvehicles (BulkTankerDeliveryRequest.tanker_vehicle_id req))
    as [t1 t2 (Hproject & Hcap & _ & Hdot & Hstatus & Hinsp)|]; [|reflexivity].
  rewrite Hproject. case_bool_decide; [|reflexivity].
  rewrite Hdot, Hstatus, Hinsp, Hcap.
  destruct (_ || _); [reflexivity|].
  destruct (validate_cross_contamination db _) as [checks|]; simpl; [|reflexivity].
  destruct (filter _ checks) as [|issue issues]; [|reflexivity].
  rewrite totals_same_hazmat.
  destruct (for_fold (add_to_totals db) _ _) as [[tv tw]|]; simpl; [|reflexivity].
  destruct (utilization_percent _ _) as [u|]; simpl; [|reflexivity].
  match goal with
  | |- context [for_fold (create_assignment other ?i) (add_delivery other ?j ?d) ?l] =>
      change (add_delivery other j d)
        with (with_vehicles_and_products (add_delivery db j d)
                vehicle_table product_table);
      rewrite (assignments_loop_same_hazmat i l (add_delivery db j d))
  end.
  simpl.
  destruct (for_fold (create_assignment db _) _ _) as [session|]; reflexivity.
Qed.

End SameHazmat.

(** ** What the handlers read of a compartment *)

Section SameLoad.
Variables (db : Db) (table : gmap Z TankerCompartments.t).
Hypothesis Hsame :
  ∀ id, option_Forall2 same_load (compartments db !! id) (table !! id).

Lemma check_assignment_same_load (a : CompartmentAssignmentRequest.t) :
  check_assignment (with_compartments db table) a = check_assignment db a.
Proof.
  unfold check_assignment. simpl.
  destruct (Hsame (CompartmentAssignmentRequest.compartment_id a))
    as [c1 c2 [Hcap Hlast]|]; [|reflexivity].
  unfold last_product. simpl. rewrite Hcap, Hlast. reflexivity.
Qed.

Lemma validate_same_load (body : list CompartmentAssignmentRequest.t) :
  validate_cross_contamination (with_compartments db table) body
  = validate_cross_contamination db body.
Proof.
  unfold validate_cross_contamination.
  induction body as [|a body IH]; simpl; [reflexivity|].
  rewrite check_assignment_same_load, IH. reflexivity.
Qed.

Lemma assignments_loop_same_load (delivery_id : Z)
    (l : list CompartmentAssignmentRequest.t) (session : Db) :
  for_fold (create_assignment (with_compartments db table) delivery_id)
           (with_compartments session table) l
  = match for_fold (create_assignment db delivery_id) session l with
    | Ok session' => Ok (with_compartments session' table)
    | Raise e => Raise e
    end.
Proof.
  revert session. induction l as [|a l IH]; intros session; simpl; [reflexivity|].
  unfold create_assignment at 2 4. simpl.
  destruct (products db !! _) as [p|]; simpl; [|reflexivity].
  apply (IH (add_assignment session _)).
Qed.

Lemma create_same_load (strftime_yymmdd : datetime -> string) (project_id : Z)
    (req : BulkTankerDeliveryRequest.t) (now : datetime) :
  create_from_request strftime_yymmdd (with_compartments db table) project_id
    req now
  = match create_from_request strftime_yymmdd db project_id req now with
    | Ok (resp, db') => Ok (resp, with_compartments db' table)
    | Raise e => Raise e
    end.
Proof.
  unfold create_from_request. rewrite validate_same_load.
  change (select_tanker (with_compartments db table)) with (select_tanker db).
  destruct (select_tanker db _ _) as [tanker|]; [|reflexivity].
  destruct (_ || _); [reflexivity|].
  destruct (validate_cross_contamination db _) as [checks|]; simpl; [|reflexivity].
  destruct (filter _ checks) as [|issue issues]; [|reflexivity].
  change (add_to_totals (with_compartments db table)) with (add_to_totals db).
  destruct (for_fold (add_to_totals db) _ _) as [[tv tw]|]; simpl; [|reflexivity].
  destruct (utilization_percent _ _) as [u|]; simpl; [|reflexivity].
  match goal with
  | |- context [for_fold (create_assignment (with_compartments db table) ?i)
                         (add_delivery (with_compartments db table) ?j ?d) ?l] =>
      change (add_delivery (with_compartments db table) j d)
        with (with_compartments (add_delivery db j d) table);
      rewrite (assignments_loop_same_load i l (add_delivery db j d))
  end.
  simpl.
  destruct (for_fold (create_assignment db _) _ _) as [session|]; reflexivity.
Qed.

End SameLoad.

(** C2, as amended.  A delivery creation returns only if the vehicle is
    found with [dot_certified = true] and [certification_status =
    certified]; for a well-formed request naming a vehicle of the project
    that fails this, the creation raises the compliance error carrying the
    vehicle id, the last inspection, the certification status and the
    required actions, and nothing is stored.  The vehicle's
    [hazmat_certification] and the products' [hazmat_class] are not
    consulted: the outcome of a creation is the same whatever they are, and
    a well-formed request for a vehicle that is found, DOT-certified and of
    status certified is never answered with the compliance error. *)
Theorem C2_compliance_gate (strftime_yymmdd : datetime -> string) (db : Db)
    (project_id : Z) (req : BulkTankerDeliveryRequest.t) (now : datetime) :
  (∀ resp db',
     post_delivery strftime_yymmdd db project_id (Some req) now = Ok (resp, db') →
     ∃ tanker,
       select_tanker db (BulkTankerDeliveryRequest.tanker_vehicle_id req) project_id
       = Some tanker
       ∧ BulkTankerVehicles.dot_certified tanker = true
       ∧ BulkTankerVehicles.certification_status tanker = CERTIFIED)
  ∧ (∀ tanker,
       delivery_request_errors req = [] →
       select_tanker db (BulkTankerDeliveryRequest.tanker_vehicle_id req) project_id
       = Some tanker →
       ¬ (BulkTankerVehicles.dot_certified tanker = true
          ∧ BulkTankerVehicles.certification_status tanker = CERTIFIED) →
       post_delivery strftime_yymmdd db project_id (Some req) now
       = Raise (ComplianceError
                  (BulkTankerDeliveryRequest.tanker_vehicle_id req)
                  (BulkTankerVehicles.last_inspection tanker)
                  (TankerCertificationStatus_value
                     (BulkTankerVehicles.certification_status tanker))
                  ["DOT inspection"; "Hazmat certification renewal"]%string))
  ∧ (∀ vehicle_table product_table,
       (∀ id, option_Forall2 same_but_hazmat_certification
                (vehicles db !! id) (vehicle_table !! id)) →
       (∀ id, option_Forall2 same_but_hazmat_class
                (products db !! id) (product_table !! id)) →
       post_delivery strftime_yymmdd
         (with_vehicles_and_products db vehicle_table product_table)
         project_id (Some req) now
       = match post_delivery strftime_yymmdd db project_id (Some req) now with
         | Ok (resp, db') =>
             Ok (resp, with_vehicles_and_products db' vehicle_table product_table)
         | Raise e => Raise e
         end)
  ∧ (∀ tanker e,
       select_tanker db (BulkTankerDeliveryRequest.tanker_vehicle_id req) project_id
       = Some tanker →
       BulkTankerVehicles.dot_certified tanker = true
       ∧ BulkTankerVehicles.certification_status tanker = CERTIFIED →
       post_delivery strftime_yymmdd db project_id (Some req) now = Raise e →
       is_compliance_error e = false).
Proof.
  split; [|split; [|split]].
  - intros resp db' H. apply post_delivery_Ok_inv in H.
    destruct H as (_ & tanker & Ht & [Hd Hs] & _). eauto.
  - intros tanker Hv Ht Hn. rewrite post_delivery_Some. rewrite Hv, validated_pass.
    apply create_not_compliant; assumption.
  - intros vehicle_table product_table Hvehicles Hproducts.
    rewrite !post_delivery_Some.
    destruct (delivery_request_errors req); [|reflexivity].
    rewrite !validated_pass. apply create_same_hazmat; assumption.
  - intros tanker e Ht Hg. rewrite post_delivery_Some.
    destruct (delivery_request_errors req); [|intros [= <-]; reflexivity].
    rewrite validated_pass. unfold create_from_request. rewrite Ht.
    apply compliance_gate in Hg. rewrite Hg.
    destruct (validate_cross_contamination _ _) as [checks|e'] eqn:Hv; simpl.
    2:{ intros [= <-]. unfold validate_cross_contamination in Hv.
        apply for_each_Raise in Hv. destruct Hv as (_ & a & _ & _ & _ & Ha).
        unfold check_assignment in Ha.
        destruct (compartments db !! _); [|injection Ha as <-; by_range].
        destruct (products db !! _); [|injection Ha as <-; by_range].
        destruct (contamination_assessment _ _) as [[[? ?] ?] ?].
        destruct (_ <? _); [injection Ha as <-; reflexivity | discriminate]. }
    destruct (filter _ checks); [|intros [= <-]; reflexivity].
    assert (Forall (fits db) (BulkTankerDeliveryRequest.compartment_assignments req))
      as Hfits by (apply validate_Ok_fits; eauto).
    destruct (totals_total db _ (0, Decimal.zero) Hfits) as ([tv tw] & ->). simpl.
    destruct (utilization_percent _ _) as [u|e'] eqn:Hu; simpl.
    2:{ intros [= <-]. unfold utilization_percent in Hu.
        destruct (Decimal.div _ _); [discriminate|]. injection Hu as <-.
        reflexivity. }
    match goal with
    | |- context [for_fold (create_assignment db ?i) ?s ?l] =>
        destruct (assignments_loop_total db i l s Hfits) as (session & ->)
    end.
    discriminate.
Qed.

(** The claim as stated fails: vehicle 3 has no hazmat certification, the
    assigned product is of hazmat class 3, and the delivery is created. *)
Lemma C2_counterexample :
  BulkTankerVehicles.hazmat_certification <$> vehicles Scenario.db_clean !! 3
  = Some false
  ∧ FuelProducts.hazmat_class <$> products Scenario.db_clean !! 1
    = Some "3"%string
  ∧ ∃ resp db',
      post_delivery Scenario.calendar Scenario.db_clean 1
        (Some (Scenario.request 3 [Scenario.assign 6 1 9000])) 2500
      = Ok (resp, db')
      ∧ BulkTankerDeliveries.delivery_status
          <$> deliveries db' !! CreateResponse.delivery_id resp
        = Some "planned"%string.
Proof.
  split; [reflexivity|]. split; [reflexivity|].
  eexists _, _. split; [vm_compute; reflexivity|]. reflexivity.
Qed.

Lemma C2_compliance_gate_witness :
  post_delivery Scenario.calendar Scenario.db_clean 1
    (Some (Scenario.request 2 [Scenario.assign 4 1 9000])) 2500
  = Raise (ComplianceError 2 (Some 1000) "expired"
             ["DOT inspection"; "Hazmat certification renewal"]%string).
Proof.
  refine (proj1 (proj2
            (C2_compliance_gate Scenario.calendar Scenario.db_clean 1
               (Scenario.request 2 [Scenario.assign 4 1 9000]) 2500))
            (Scenario.vehicle true true EXPIRED) _ _ _).
  - reflexivity.
  - reflexivity.
  - simpl. intros [_ H]. discriminate H.
Defined.

(** ** Compartment ownership and status *)

(** C8, as amended.  Each referenced compartment must exist: an assignment
    naming a compartment id without a row makes the creation raise.  The
    owning vehicle and the operational status of a compartment are not
    read: the outcome of a creation is the same whichever vehicles own the
    compartments and whatever their operational status is, as long as the
    capacities and the last products are the same. *)
Theorem C8_compartment_lookup (strftime_yymmdd : datetime -> string) (db : Db)
    (project_id : Z) (req : BulkTankerDeliveryRequest.t) (now : datetime) :
  (∀ a, a ∈ BulkTankerDeliveryRequest.compartment_assignments req →
        compartments db !! CompartmentAssignmentRequest.compartment_id a = None →
        ∃ e, post_delivery strftime_yymmdd db project_id (Some req) now = Raise e)
  ∧ (∀ table,
       (∀ id, option_Forall2 same_load (compartments db !! id) (table !! id)) →
       post_delivery strftime_yymmdd (with_compartments db table) project_id
         (Some req) now
       = match post_delivery strftime_yymmdd db project_id (Some req) now with
         | Ok (resp, db') => Ok (resp, with_compartments db' table)
         | Raise e => Raise e
         end).
Proof.
  split.
  - intros a Hin Hnone.
    destruct (post_delivery strftime_yymmdd db project_id (Some req) now)
      as [[resp db']|e] eqn:H; [|eauto].
    apply post_delivery_Ok_inv in H. destruct H as (_ & ? & _ & _ & Hfits & _).
    rewrite Forall_forall in Hfits.
    destruct (Hfits a Hin) as (c & ? & Hc & _). congruence.
  - intros table Hsame. rewrite !post_delivery_Some.
    destruct (delivery_request_errors req); [|reflexivity].
    rewrite !validated_pass. apply create_same_load, Hsame.
Qed.

(** The claim as stated fails: compartment 4 belongs to vehicle 2 and
    requires maintenance, and a delivery for vehicle 1 that loads it is
    created. *)
Lemma C8_counterexample :
  TankerCompartments.tanker_vehicle_id <$> compartments Scenario.db_clean !! 4
  = Some 2
  ∧ TankerCompartments.operational_status <$> compartments Scenario.db_clean !! 4
    = Some MAINTENANCE_REQUIRED
  ∧ ∃ resp db',
      post_delivery Scenario.calendar Scenario.db_clean 1
        (Some (Scenario.request 1 [Scenario.assign 4 1 9000])) 2500
      = Ok (resp, db')
      ∧ CompartmentDeliveryAssignments.compartment_id
          <$> assignments db' !! 1
        = Some 4.
Proof.
  split; [reflexivity|]. split; [reflexivity|].
  eexists _, _. split; [vm_compute; reflexivity|]. reflexivity.
Qed.

Lemma C8_compartment_lookup_witness :
  ∃ e, post_delivery Scenario.calendar Scenario.db_clean 1
         (Some (Scenario.request 1 [Scenario.assign 99 1 9000])) 2500
       = Raise e.
Proof.
  refine (proj1 (C8_compartment_lookup Scenario.calendar Scenario.db_clean 1
                   (Scenario.request 1 [Scenario.assign 99 1 9000]) 2500)
            (Scenario.assign 99 1 9000) _ _).
  - simpl. in_list.
  - reflexivity.
Defined.

(** ** Cleaning estimates *)

Lemma for_fold_Raise {A S : Type} (body : S -> A -> Result S) (l : list A)
    (acc : S) (e : Error) :
  for_fold body acc l = Raise e → ∃ acc' x, body acc' x = Raise e.
Proof.
  revert acc. induction l as [|x l IH]; intros acc; simpl; [discriminate|].
  destruct (body acc x) as [acc'|e'] eqn:Hx; simpl.
  - apply IH.
  - intros [= ->]. eauto.
Qed.

(** The validation raises [NotFound] or the capacity error, never the
    contamination error. *)
Lemma validate_Raise_kind (db : Db) (l : list CompartmentAssignmentRequest.t)
    (e : Error) :
  validate_cross_contamination db l = Raise e → is_contamination_error e = false.
Proof.
  unfold validate_cross_contamination. intros H. apply for_each_Raise in H.
  destruct H as (_ & a & _ & _ & _ & H). unfold check_assignment in H.
  destruct (compartments db !! _);
    [|injection H as <-; unfold not_found; destruct (in_int32 _); reflexivity].
  destruct (products db !! _);
    [|injection H as <-; unfold not_found; destruct (in_int32 _); reflexivity].
  destruct (contamination_assessment _ _) as [[[? ?] ?] ?].
  destruct (_ <? _); [injection H as <-; reflexivity | discriminate].
Qed.

(** Every check of the validation carries the standard cleaning time and
    cost exactly when it requires cleaning. *)
Lemma validate_checks_estimate (db : Db) (l : list CompartmentAssignmentRequest.t)
    (checks : list CrossContaminationCheck.t) :
  validate_cross_contamination db l = Ok checks →
  Forall (fun check =>
            CrossContaminationCheck.estimated_cleaning_time_minutes check
            = (if CrossContaminationCheck.cleaning_required check
               then Some 120 else None)
            ∧ CrossContaminationCheck.cleaning_cost_estimate check
              = (if CrossContaminationCheck.cleaning_required check
                 then Some (Decimal.mk 45000 (-2)) else None))
         checks.
Proof.
  unfold validate_cross_contamination. intros H. apply for_each_Ok in H.
  induction H as [|a c l cs Ha _ IH]; constructor; [|exact IH].
  apply check_assignment_Ok in Ha. destruct Ha as (compartment & requested & _ & _ & _ & ->).
  simpl. unfold contamination_assessment, time_of, cleaning_of.
  destruct (last_product db compartment); [|split; reflexivity].
  repeat case_bool_decide; split; reflexivity.
Qed.

(** The contamination error of a creation carries 120 exactly when it
    carries [cleaning_required = true]. *)
Lemma create_contamination_time (strftime_yymmdd : datetime -> string) (db : Db)
    (project_id : Z) (req : BulkTankerDeliveryRequest.t) (now : datetime)
    (c : Z) (cur : option string) (rp : string) (cl : bool) (t : option Z) :
  create_from_request strftime_yymmdd db project_id req now
  = Raise (ContaminationError c cur rp cl t) →
  t = if cl then Some 120 else None.
Proof.
  unfold create_from_request.
  destruct (select_tanker _ _ _) as [tanker|]; [|by_range].
  destruct (_ || _); [discriminate|].
  destruct (validate_cross_contamination _ _) as [checks|e] eqn:Hv; simpl.
  2:{ intros [= ->]. apply validate_Raise_kind in Hv. discriminate. }
  destruct (filter _ checks) as [|issue issues] eqn:Hf.
  - destruct (for_fold (add_to_totals db) _ _) as [[tv tw]|e] eqn:Htot; simpl.
    2:{ intros [= ->]. apply for_fold_Raise in Htot.
        destruct Htot as ([? ?] & a & H). unfold add_to_totals in H.
        destruct (products db !! _); discriminate. }
    destruct (utilization_percent _ _) as [u|e] eqn:Hu; simpl.
    2:{ intros [= ->]. unfold utilization_percent in Hu.
        destruct (Decimal.div _ _); discriminate. }
    destruct (for_fold (create_assignment db _) _ _) as [session|e] eqn:Hs; simpl;
      [discriminate|].
    intros [= ->]. apply for_fold_Raise in Hs.
    destruct Hs as (? & a & H). unfold create_assignment in H.
    destruct (products db !! _); discriminate.
  - intros [= <- <- <- <- <-].
    apply validate_checks_estimate in Hv. rewrite Forall_forall in Hv.
    apply Hv. eapply list_elem_of_filter. rewrite Hf. apply list_elem_of_here.
Qed.

(** C9, as amended.  The cleaning-estimate endpoint, when the compartment's
    last product is in the target product's [cleaning_required_after],
    reports time 120 and cost 450 for products of the same fuel type and
    time 180 and cost 675 for products of different fuel types.  The
    contamination validation and the contamination rejection of a creation
    do not look at the fuel types: they report the standard cleaning time
    120 (and cost 450.00) whenever cleaning is required, and none
    otherwise. *)
Theorem C9_cleaning_estimate (db : Db) :
  (∀ compartment_id target_product_id compartment target last,
     compartments db !! compartment_id = Some compartment →
     products db !! target_product_id = Some target →
     last_product db compartment = Some last →
     FuelProducts.product_code last ∈ FuelProducts.cleaning_required_after target →
     ∃ estimate,
       get_cleaning_estimate db compartment_id target_product_id = Ok estimate
       ∧ (FuelProducts.fuel_type last = FuelProducts.fuel_type target →
          CleaningEstimate.time_required estimate = 120
          ∧ CleaningEstimate.cost_estimate estimate = 450)
       ∧ (FuelProducts.fuel_type last ≠ FuelProducts.fuel_type target →
          CleaningEstimate.time_required estimate = 180
          ∧ CleaningEstimate.cost_estimate estimate = 675))
  ∧ (∀ body checks,
       post_validate_contamination db body = Ok checks →
       Forall (fun check =>
                 CrossContaminationCheck.estimated_cleaning_time_minutes check
                 = (if CrossContaminationCheck.cleaning_required check
                    then Some 120 else None)
                 ∧ CrossContaminationCheck.cleaning_cost_estimate check
                   = (if CrossContaminationCheck.cleaning_required check
                      then Some (Decimal.mk 45000 (-2)) else None))
              checks)
  ∧ (∀ strftime_yymmdd project_id req now c cur rp cl t,
       post_delivery strftime_yymmdd db project_id (Some req) now
       = Raise (ContaminationError c cur rp cl t) →
       t = if cl then Some 120 else None).
Proof.
  split; [|split].
  - intros compartment_id target_product_id compartment target last Hc Hp Hl Hin.
    unfold get_cleaning_estimate. rewrite Hc, Hp, Hl.
    rewrite (bool_decide_eq_true_2 _ Hin).
    case_bool_decide as Hft; simpl; eexists; (split; [reflexivity|]);
      split; intros ?; simpl; auto; contradiction.
  - intros body checks H. unfold post_validate_contamination in H.
    apply validated_Ok in H. destruct H as [_ H].
    apply validate_checks_estimate in H. exact H.
  - intros strftime_yymmdd project_id req now c cur rp cl t H.
    rewrite post_delivery_Some in H. unfold validated in H.
    destruct (delivery_request_errors req); [|discriminate].
    apply create_contamination_time in H. exact H.
Qed.

(** The claim as stated fails: compartment 2 last held "JET-A1", a jet
    fuel, the requested "ULSD" is a diesel that requires cleaning after it,
    and the rejection reports 120, where the cleaning-estimate endpoint
    reports 180. *)
Lemma C9_counterexample :
  FuelProducts.fuel_type <$> products Scenario.db_used !! 2 = Some JET_FUEL
  ∧ FuelProducts.fuel_type <$> products Scenario.db_used !! 1 = Some DIESEL
  ∧ post_delivery Scenario.calendar Scenario.db_used 1
      (Some (Scenario.request 1 [Scenario.assign 2 1 5000])) 2500
    = Raise (ContaminationError 2 (Some "JET-A1"%string) "ULSD" true (Some 120))
  ∧ CleaningEstimate.time_required <$> 
      (match get_cleaning_estimate Scenario.db_used 2 1 with
       | Ok estimate => Some estimate
       | Raise _ => None
       end)
    = Some 180.
Proof. repeat split; reflexivity. Qed.

Lemma C9_cleaning_estimate_witness :
  ∃ estimate,
    get_cleaning_estimate Scenario.db_used 3 1 = Ok estimate
    ∧ CleaningEstimate.time_required estimate = 120
    ∧ CleaningEstimate.cost_estimate estimate = 450.
Proof.
  destruct (proj1 (C9_cleaning_estimate Scenario.db_used) 3 1
              (Scenario.compartment 1 3 10000 OPERATIONAL (Some 3))
              (Scenario.product "ULSD" DIESEL (Decimal.mk 8400 (-4))
                 ["JET-A1"; "ULSD-50"]%string ["JET-A1"; "ULSD-50"]%string)
              (Scenario.product "ULSD-50" DIESEL (Decimal.mk 8450 (-4)) [] []))
    as (estimate & H & Hsame & _).
  - reflexivity.
  - reflexivity.
  - reflexivity.
  - simpl. in_list.
  - exists estimate. split; [exact H|]. apply Hsame. reflexivity.
Defined.

(** ** Status updates *)

Lemma regex_match_member (alternatives : list string) (s : string) :
  s ∈ alternatives → regex_match_alternatives alternatives s = true.
Proof.
  intros H. unfold regex_match_alternatives. apply existsb_exists.
  exists s. split; [apply list_elem_of_In, H|].
  rewrite bool_decide_eq_true_2 by reflexivity. reflexivity.
Qed.

(** The status update stores what is requested. *)
Lemma apply_status_update_status (delivery : BulkTankerDeliveries.t)
    (status_update : DeliveryStatusUpdate.t) (now : datetime) :
  BulkTankerDeliveries.delivery_status
    (apply_status_update delivery status_update now)
  = DeliveryStatusUpdate.delivery_status status_update.
Proof.
  unfold apply_status_update.
  destruct (DeliveryStatusUpdate.actual_completion status_update);
    [destruct (DeliveryStatusUpdate.distance_traveled_km status_update);
     [destruct (DeliveryStatusUpdate.fuel_consumed_liters status_update);
      [destruct (_ && _)|]|]|]; reflexivity.
Qed.

(** C3, as amended.  A status update does not compare the requested status
    with the current one.  For every stored delivery, whatever its status,
    an update that carries only a status, any of the seven values planned,
    dispatched, loading, in_transit, unloading, completed, cancelled, is
    accepted and stores that value, planned directly to in_transit and
    moves backwards included.  For every update body, the outcome is the
    same whatever status the delivery had.  A status string the pattern
    does not match is rejected at request validation, whatever the database
    holds; a rejected update stores nothing. *)
Theorem C3_status_update (db : Db) (delivery_id : Z)
    (status_update : DeliveryStatusUpdate.t) (now : datetime) :
  (∀ delivery,
     deliveries db !! delivery_id = Some delivery →
     only_status status_update →
     DeliveryStatusUpdate.delivery_status status_update ∈ delivery_status_values →
     ∃ resp db',
       put_delivery_status db delivery_id status_update now = Ok (resp, db')
       ∧ UpdateResponse.delivery_status resp
         = DeliveryStatusUpdate.delivery_status status_update
       ∧ BulkTankerDeliveries.delivery_status <$> deliveries db' !! delivery_id
         = Some (DeliveryStatusUpdate.delivery_status status_update))
  ∧ (∀ delivery status,
       put_delivery_status
         (add_delivery db delivery_id (with_status delivery status))
         delivery_id status_update now
       = put_delivery_status (add_delivery db delivery_id delivery)
           delivery_id status_update now)
  ∧ (regex_match_alternatives delivery_status_values
       (DeliveryStatusUpdate.delivery_status status_update) = false →
     put_delivery_status db delivery_id status_update now
     = Raise (RequestValidationError [str_regex "delivery_status"])).
Proof.
  split; [|split].
  - intros delivery Hd _ Hin. unfold put_delivery_status, status_update_errors.
    rewrite (regex_match_member _ _ Hin), validated_pass.
    unfold update_delivery_status. rewrite Hd.
    eexists _, _. split; [reflexivity|]. simpl.
    rewrite apply_status_update_status. split; [reflexivity|].
    rewrite lookup_insert_eq. simpl. rewrite apply_status_update_status. reflexivity.
  - intros delivery status. unfold put_delivery_status.
    destruct (status_update_errors status_update); [|reflexivity].
    rewrite !validated_pass. unfold update_delivery_status. simpl.
    rewrite !lookup_insert_eq.
    assert (apply_status_update (with_status delivery status) status_update now
            = apply_status_update delivery status_update now) as ->.
    { unfold apply_status_update, with_status.
      destruct (DeliveryStatusUpdate.actual_completion status_update);
        [destruct (DeliveryStatusUpdate.distance_traveled_km status_update);
         [destruct (DeliveryStatusUpdate.fuel_consumed_liters status_update);
          [destruct (_ && _)|]|]|]; reflexivity. }
    unfold add_delivery. simpl. rewrite !insert_insert_eq. reflexivity.
  - intros Hno. unfold put_delivery_status, status_update_errors.
    rewrite Hno. reflexivity.
Qed.

(** The claim as stated fails: delivery 1 is planned, and the update that
    takes it directly to in_transit is accepted and stored. *)
Lemma C3_counterexample :
  BulkTankerDeliveries.delivery_status <$> deliveries Scenario.db_planned !! 1
  = Some "planned"%string
  ∧ ∃ resp db',
      put_delivery_status Scenario.db_planned 1
        (Scenario.status_only "in_transit") 2600
      = Ok (resp, db')
      ∧ BulkTankerDeliveries.delivery_status <$> deliveries db' !! 1
        = Some "in_transit"%string.
Proof.
  split; [reflexivity|].
  eexists _, _. split; [vm_compute; reflexivity|]. reflexivity.
Qed.

Lemma C3_status_update_witness :
  ∃ resp db',
    put_delivery_status Scenario.db_planned 1 (Scenario.status_only "completed") 2600
    = Ok (resp, db')
    ∧ UpdateResponse.delivery_status resp = "completed"%string.
Proof.
  edestruct (proj1 (C3_status_update Scenario.db_planned 1
                      (Scenario.status_only "completed") 2600))
    as (resp & db' & H & Hr & _).
  - vm_compute. reflexivity.
  - repeat split.
  - simpl. in_list.
  - exists resp, db'. split; [exact H | exact Hr].
Defined.

(** ** Cancellation *)

(** C7, as amended.  A status update, to cancelled or to any other status,
    changes the row of the delivery only: the assignment table is left as
    it was, so every assignment of the delivery, terminal or not, keeps its
    status.  The assignment status has no cancelled value. *)
Theorem C7_cancel_leaves_assignments (db : Db) (delivery_id : Z)
    (status_update : DeliveryStatusUpdate.t) (now : datetime)
    (resp : UpdateResponse.t) (db' : Db) :
  put_delivery_status db delivery_id status_update now = Ok (resp, db') →
  assignments db' = assignments db
  ∧ compartment_assignments db' delivery_id = compartment_assignments db delivery_id
  ∧ (∀ id, CompartmentDeliveryAssignments.assignment_status <$> assignments db' !! id
           = CompartmentDeliveryAssignments.assignment_status <$> assignments db !! id)
  ∧ "cancelled"%string ∉ assignment_status_values.
Proof.
  unfold put_delivery_status. intros H. apply validated_Ok in H.
  destruct H as [_ H]. unfold update_delivery_status in H.
  destruct (deliveries db !! delivery_id); [|discriminate].
  injection H as _ <-. unfold compartment_assignments. simpl.
  repeat split. intros Hin. unfold assignment_status_values in Hin.
  repeat (apply elem_of_cons in Hin; destruct Hin as [Hin|Hin]; [discriminate|]).
  inversion Hin.
Qed.

(** The claim as stated fails: delivery 1 has assignment 1 in status
    assigned; after the delivery is set to cancelled the assignment is
    still assigned. *)
Lemma C7_counterexample :
  CompartmentDeliveryAssignments.delivery_id <$> assignments Scenario.db_planned !! 1
  = Some 1
  ∧ CompartmentDeliveryAssignments.assignment_status
      <$> assignments Scenario.db_planned !! 1
    = Some "assigned"%string
  ∧ ∃ resp db',
      put_delivery_status Scenario.db_planned 1
        (Scenario.status_only "cancelled") 2600
      = Ok (resp, db')
      ∧ BulkTankerDeliveries.delivery_status <$> deliveries db' !! 1
        = Some "cancelled"%string
      ∧ CompartmentDeliveryAssignments.assignment_status <$> assignments db' !! 1
        = Some "assigned"%string.
Proof.
  split; [reflexivity|]. split; [reflexivity|].
  eexists _, _. split; [vm_compute; reflexivity|]. split; reflexivity.
Qed.

Lemma C7_cancel_leaves_assignments_witness :
  ∃ resp db',
    put_delivery_status Scenario.db_planned 1 (Scenario.status_only "cancelled") 2600
    = Ok (resp, db')
    ∧ assignments db' = assignments Scenario.db_planned.
Proof.
  destruct (put_delivery_status Scenario.db_planned 1
              (Scenario.status_only "cancelled") 2600) as [[resp db']|e] eqn:H.
  - exists resp, db'. split; [reflexivity|].
    exact (proj1 (C7_cancel_leaves_assignments Scenario.db_planned 1
                    (Scenario.status_only "cancelled") 2600 resp db' H)).
  - vm_compute in H. discriminate H.
Defined.


(** ** Decimal arithmetic without rounding *)

Lemma fix_small (d : Decimal.t) :
  Z.abs (Decimal.dcoef d) < 10 ^ Decimal.prec → Decimal.fix_ d = d.
Proof.
  intros H. unfold Decimal.fix_.
  destruct (Z.ltb_spec (Z.abs (Decimal.dcoef d)) (10 ^ Decimal.prec)); [reflexivity|lia].
Qed.

(** Volume times density, for an accepted volume and a density as declared. *)
Lemma mul_volume_density (v : Z) (density : Decimal.t) :
  0 < v ≤ 50000 → numeric_6_4 density →
  Decimal.mul (Decimal.of_int v) density
  = Decimal.mk (v * Decimal.dcoef density) (-4).
Proof.
  intros Hv [He Hc]. unfold Decimal.mul. simpl. rewrite He.
  apply fix_small. simpl. unfold Decimal.prec.
  change (10 ^ 6) with 1000000 in Hc.
  change (10 ^ 28) with 10000000000000000000000000000. nia.
Qed.

Lemma ndigits_fuel_pos (fuel : nat) (n : Z) : 1 ≤ Decimal.ndigits_fuel fuel n.
Proof.
  revert n. induction fuel as [|fuel IH]; intros n; simpl; [lia|].
  destruct (n <? 10); [lia|]. specialize (IH (n / 10)). lia.
Qed.

Lemma ndigits_pos (n : Z) : 1 ≤ Decimal.ndigits n.
Proof. apply ndigits_fuel_pos. Qed.

Lemma add_to_zero (c : Z) :
  Z.abs c < 10 ^ Decimal.prec →
  Decimal.add Decimal.zero (Decimal.mk c (-4)) = Decimal.mk c (-4).
Proof.
  intros H. unfold Decimal.add, Decimal.zero.
  cbn [Decimal.dcoef Decimal.dexp].
  change (Z.min 0 (-4)) with (-4). change (0 =? 0) with true. cbn [andb].
  destruct (Z.eqb_spec c 0) as [->|_]; [reflexivity|].
  change (Z.max (-4) (-4 - Decimal.prec - 1)) with (-4). change (-4 - -4) with 0.
  rewrite Z.pow_0_r, Z.mul_1_r. apply fix_small. exact H.
Qed.

Lemma add_same_exponent (w c : Z) :
  Z.abs (w + c) < 10 ^ Decimal.prec →
  Z.abs w < 10 ^ Decimal.prec → Z.abs c < 10 ^ Decimal.prec →
  Decimal.add (Decimal.mk w (-4)) (Decimal.mk c (-4)) = Decimal.mk (w + c) (-4).
Proof.
  intros H Hw Hc. unfold Decimal.add. cbn [Decimal.dcoef Decimal.dexp].
  change (Z.min (-4) (-4)) with (-4).
  change (Z.max (-4) (-4 - Decimal.prec - 1)) with (-4). change (-4 - -4) with 0.
  rewrite Z.pow_0_r, !Z.mul_1_r.
  destruct (Z.eqb_spec w 0) as [->|Hw0]; destruct (Z.eqb_spec c 0) as [->|Hc0];
    cbn [andb].
  - reflexivity.
  - apply fix_small. exact Hc.
  - rewrite Z.add_0_r. apply fix_small. exact Hw.
  - change (-4 <? -4) with false. unfold Decimal.normalize.
    cbn [Decimal.dcoef Decimal.dexp].
    pose proof (ndigits_pos (Z.abs c)) as Hd.
    destruct (Z.ltb_spec (Decimal.ndigits (Z.abs c) + -4 - 1)
                (-4 + Z.min (-1) (Decimal.ndigits (Z.abs w) - Decimal.prec - 2)));
      [lia|].
    cbn [Decimal.dcoef Decimal.dexp]. change (-4 - -4) with 0.
    rewrite Z.pow_0_r, Z.mul_1_r. apply fix_small. exact H.
Qed.

(** The coefficient of one term of the weight is below 5 * 10^10. *)
Lemma weight_term_bound (v : Z) (density : Decimal.t) :
  0 < v ≤ 50000 → numeric_6_4 density →
  Z.abs (v * Decimal.dcoef density) < 50000000000.
Proof. intros Hv [_ Hc]. change (10 ^ 6) with 1000000 in Hc. nia. Qed.

(** The accumulator of the loop "Calculate totals", once it has four
    decimal places, keeps them and stays exact. *)
Lemma totals_weight_step (db : Db) (l : list CompartmentAssignmentRequest.t) :
  densities_as_declared db →
  Forall (fun a => 0 < CompartmentAssignmentRequest.assigned_volume_liters a ≤ 50000) l →
  ∀ tv0 w0 tv tw,
    Z.abs w0 + Z.of_nat (length l) * 50000000000 < 10 ^ Decimal.prec →
    for_fold (add_to_totals db) (tv0, Decimal.mk w0 (-4)) l = Ok (tv, tw) →
    tw = Decimal.mk (w0 + weight_coefficient db l) (-4).
Proof.
  intros Hd H. induction H as [|a l Ha _ IH]; intros tv0 w0 tv tw Hb; simpl.
  - intros [= _ <-]. f_equal. lia.
  - destruct (products db !! _) as [p|] eqn:Hp; simpl; [|discriminate].
    pose proof (weight_term_bound _ _ Ha (Hd _ _ Hp)) as Hterm.
    rewrite (mul_volume_density _ _ Ha (Hd _ _ Hp)).
    rewrite add_same_exponent
      by (simpl length in Hb; unfold Decimal.prec in *;
          change (10 ^ 28) with 10000000000000000000000000000 in *; lia).
    intros H. apply IH in H; [|simpl length in Hb; lia].
    rewrite H. f_equal. lia.
Qed.

(** The total weight of an accepted, non-empty batch. *)
Lemma totals_weight (db : Db) (l : list CompartmentAssignmentRequest.t)
    (tv : Z) (tw : Decimal.t) :
  densities_as_declared db →
  Forall (fun a => 0 < CompartmentAssignmentRequest.assigned_volume_liters a ≤ 50000) l →
  (1 ≤ length l ≤ 12)%nat →
  for_fold (add_to_totals db) (0, Decimal.zero) l = Ok (tv, tw) →
  tw = Decimal.mk (weight_coefficient db l) (-4).
Proof.
  intros Hd H Hlen. destruct H as [|a l Ha Hl]; [simpl in Hlen; lia|]. simpl.
  destruct (products db !! _) as [p|] eqn:Hp; simpl; [|discriminate].
  pose proof (weight_term_bound _ _ Ha (Hd _ _ Hp)) as Hterm.
  rewrite (mul_volume_density _ _ Ha (Hd _ _ Hp)).
  rewrite add_to_zero
    by (unfold Decimal.prec; change (10 ^ 28) with 10000000000000000000000000000; lia).
  intros H. apply (totals_weight_step db l Hd Hl) in H; [exact H|].
  simpl in Hlen. unfold Decimal.prec.
  change (10 ^ 28) with 10000000000000000000000000000. lia.
Qed.

(** The weight in units of 0.0001 kg, read as a rational, is the exact sum
    of volume times density. *)
Lemma weight_coefficient_value (db : Db) (l : list CompartmentAssignmentRequest.t) :
  densities_as_declared db →
  Forall (fits db) l →
  (Decimal.value (Decimal.mk (weight_coefficient db l) (-4)) == sum_weights db l)%Q.
Proof.
  intros Hd H. unfold Decimal.value. cbn [Decimal.dcoef Decimal.dexp].
  remember (Qpower (inject_Z 10) (-4)) as k eqn:Hk.
  induction H as [|a l (c & p & _ & Hp & _) _ IH];
    cbn [weight_coefficient sum_weights foldr].
  - ring.
  - fold (weight_coefficient db l). fold (sum_weights db l).
    unfold density_of. rewrite Hp. destruct (Hd _ _ Hp) as [He _].
    unfold Decimal.value. rewrite He, <- Hk.
    rewrite inject_Z_plus, inject_Z_mult. rewrite <- IH. ring.
Qed.

(** ** Decimal quotients that are exact *)

Lemma ndigits_fuel_upper (fuel : nat) (n k : Z) :
  0 ≤ n < 10 ^ k → 1 ≤ k → Decimal.ndigits_fuel fuel n ≤ k.
Proof.
  revert n k. induction fuel as [|fuel IH]; intros n k Hn Hk; simpl; [lia|].
  destruct (Z.ltb_spec n 10); [lia|].
  assert (2 ≤ k) as Hk2.
  { destruct (Z.eq_dec k 1) as [->|]; [|lia]. change (10 ^ 1) with 10 in Hn. lia. }
  specialize (IH (n / 10) (k - 1)).
  assert (10 ^ k = 10 * 10 ^ (k - 1)) as Hpow.
  { replace k with (Z.succ (k - 1)) at 1 by lia. apply Z.pow_succ_r. lia. }
  assert (0 ≤ n / 10 < 10 ^ (k - 1)).
  { split; [apply Z.div_pos; lia|]. apply Z.div_lt_upper_bound; lia. }
  lia.
Qed.

Lemma ndigits_upper (n k : Z) :
  0 ≤ n < 10 ^ k → 1 ≤ k → Decimal.ndigits n ≤ k.
Proof. apply ndigits_fuel_upper. Qed.

Lemma ndigits_fuel_lower (k fuel : nat) (n : Z) :
  10 ^ Z.of_nat k ≤ n → (k ≤ fuel)%nat →
  Z.of_nat k + 1 ≤ Decimal.ndigits_fuel fuel n.
Proof.
  revert fuel n. induction k as [|k IH]; intros fuel n Hn Hf.
  - pose proof (ndigits_fuel_pos fuel n). lia.
  - destruct fuel as [|fuel]; [lia|]. simpl Decimal.ndigits_fuel.
    rewrite Nat2Z.inj_succ, Z.pow_succ_r in Hn by lia.
    assert (1 ≤ 10 ^ Z.of_nat k) by (apply Z.pow_le_mono_r with (b := 0); lia).
    destruct (Z.ltb_spec n 10); [lia|].
    specialize (IH fuel (n / 10)).
    assert (10 ^ Z.of_nat k ≤ n / 10) by (apply Z.div_le_lower_bound; lia).
    lia.
Qed.

Lemma ndigits_lower (n k : Z) :
  0 ≤ k → 10 ^ k ≤ n → k + 1 ≤ Decimal.ndigits n.
Proof.
  intros Hk Hn. unfold Decimal.ndigits.
  assert (0 < n) as Hpos.
  { assert (0 < 10 ^ k) by (apply Z.pow_pos_nonneg; lia). lia. }
  rewrite <- (Z2Nat.id k) by lia. apply ndigits_fuel_lower.
  - rewrite Z2Nat.id by lia. exact Hn.
  - apply Z2Nat.inj_le; [lia | apply Z.log2_nonneg |].
    apply Z.log2_le_pow2; [exact Hpos|].
    assert (2 ^ k ≤ 10 ^ k) by (apply Z.pow_le_mono_l; lia). lia.
Qed.

(** What the stripping loop keeps: the value, and the bound [ideal]. *)
Lemma strip_zeros_spec (fuel : nat) (c e ideal c' e' : Z) :
  Decimal.strip_zeros fuel c e ideal = (c', e') → 0 ≤ c →
  e ≤ e' ∧ c = c' * 10 ^ (e' - e) ∧ 0 ≤ c' ∧ (e ≤ ideal → e' ≤ ideal).
Proof.
  revert c e. induction fuel as [|fuel IH]; intros c e; simpl.
  - intros [= <- <-] Hc. rewrite Z.sub_diag, Z.pow_0_r. lia.
  - destruct (Z.ltb_spec e ideal) as [Hlt|Hge]; simpl.
    + destruct (Z.eqb_spec (c mod 10) 0) as [Hm|Hm].
      * intros H Hc. apply IH in H; [|apply Z.div_pos; lia].
        destruct H as (He & Hv & Hc' & Hi).
        split; [lia|]. split; [|split; [exact Hc'|lia]].
        replace (e' - e) with (Z.succ (e' - (e + 1))) by lia.
        rewrite Z.pow_succ_r by lia.
        pose proof (Z.div_mod c 10 ltac:(lia)) as Hdm. rewrite Hm in Hdm.
        rewrite Hdm at 1. rewrite Hv at 1. ring.
      * intros [= <- <-] Hc. rewrite Z.sub_diag, Z.pow_0_r. lia.
    + intros [= <- <-] Hc. rewrite Z.sub_diag, Z.pow_0_r. lia.
Qed.






(** The total volume of an accepted batch. *)
Lemma sum_volumes_bound (l : list CompartmentAssignmentRequest.t) :
  Forall (fun a => 0 < CompartmentAssignmentRequest.assigned_volume_liters a ≤ 50000) l →
  (1 ≤ length l ≤ 12)%nat →
  0 < sum_volumes l ≤ 600000.
Proof.
  intros H Hlen.
  assert (0 ≤ sum_volumes l ≤ Z.of_nat (length l) * 50000) as Hb.
  { clear Hlen. induction H as [|a l Ha _ IH]; simpl; lia. }
  destruct H as [|a l Ha Hl]; [simpl in Hlen; lia|].
  assert (0 ≤ sum_volumes l).
  { clear Hb Hlen. induction Hl as [|b l Hb _ IH]; simpl; lia. }
  simpl in *. lia.
Qed.

(** ** Totals of a created delivery *)




(* ===================================================================== *)
(** * Further properties of the handlers                                  *)
(* ===================================================================== *)

Import Constraints Rows Allocation.

(** ** What request validation accepts *)

Lemma regex_match_spec (alternatives : list string) (s : string) :
  regex_match_alternatives alternatives s = true
  ↔ matches_alternatives alternatives s.
Proof.
  unfold regex_match_alternatives, matches_alternatives.
  rewrite existsb_exists. split.
  - intros (a & Hin & H). exists a. split; [apply list_elem_of_In, Hin|].
    apply orb_true_iff in H. destruct H as [H|H];
      apply bool_decide_eq_true in H; auto.
  - intros (a & Hin & H). exists a. split; [apply list_elem_of_In, Hin|].
    apply orb_true_iff. destruct H as [H|H]; [left|right];
      apply bool_decide_eq_true; exact H.
Qed.

Lemma remove_dups_length_le (l : list Z) :
  (length (remove_dups l) ≤ length l)%nat.
Proof.
  induction l as [|x l IH]; simpl; [lia|].
  destruct (decide_rel elem_of x l); simpl; lia.
Qed.

(** [len(ids) == len(set(ids))] says that no id occurs twice. *)
Lemma remove_dups_length_NoDup (l : list Z) :
  length (remove_dups l) = length l ↔ NoDup l.
Proof.
  induction l as [|x l IH]; simpl.
  - split; [constructor | reflexivity].
  - pose proof (remove_dups_length_le l) as Hle.
    destruct (decide_rel elem_of x l) as [Hin|Hnin]; simpl.
    + split; [lia|]. intros H. apply NoDup_cons in H. tauto.
    + rewrite NoDup_cons. split.
      * intros H. split; [exact Hnin|]. apply IH. lia.
      * intros [_ H]. f_equal. apply IH, H.
Qed.

Lemma assignment_errors_nil (a : CompartmentAssignmentRequest.t) :
  assignment_errors a = [] ↔ assignment_in_range a.
Proof.
  unfold assignment_errors, assignment_in_range. split.
  - intros H. apply app_eq_nil in H. destruct H as [Hv Hs].
    split; [apply assigned_volume_accepted, Hv|].
    unfold loading_sequence_errors in Hs.
    destruct (CompartmentAssignmentRequest.loading_sequence a) as [n|]; [|exact I].
    destruct (Z.ltb_spec 0 n); [assumption | discriminate].
  - intros [Hv Hs]. apply assigned_volume_accepted in Hv. rewrite Hv. simpl.
    unfold loading_sequence_errors.
    destruct (CompartmentAssignmentRequest.loading_sequence a) as [n|]; [|reflexivity].
    destruct (Z.ltb_spec 0 n); [reflexivity | lia].
Qed.

Lemma assignments_errors_nil (l : list CompartmentAssignmentRequest.t) :
  concat (map assignment_errors l) = [] ↔ Forall assignment_in_range l.
Proof.
  induction l as [|a l IH]; simpl.
  - split; [constructor | reflexivity].
  - split.
    + intros H. apply app_eq_nil in H. destruct H as [Ha Hl].
      constructor; [apply assignment_errors_nil, Ha | apply IH, Hl].
    + intros H. inversion H as [|? ? Ha Hl]; subst.
      apply assignment_errors_nil in Ha. apply IH in Hl. rewrite Ha, Hl. reflexivity.
Qed.

Lemma delivery_request_errors_nil (req : BulkTankerDeliveryRequest.t) :
  delivery_request_errors req = []
  ↔ BulkTankerDeliveryRequest.planned_departure req
    < BulkTankerDeliveryRequest.planned_completion req
    ∧ matches_alternatives ["standard"; "emergency"; "scheduled"]%string
        (BulkTankerDeliveryRequest.delivery_type req)
    ∧ Forall assignment_in_range
        (BulkTankerDeliveryRequest.compartment_assignments req)
    ∧ (1 ≤ length (BulkTankerDeliveryRequest.compartment_assignments req) ≤ 12)%nat
    ∧ NoDup (map CompartmentAssignmentRequest.compartment_id
               (BulkTankerDeliveryRequest.compartment_assignments req)).
Proof.
  unfold delivery_request_errors, validate_completion_time,
    compartment_assignments_errors, validate_assignments.
  set (l := BulkTankerDeliveryRequest.compartment_assignments req).
  rewrite <- regex_match_spec.
  rewrite <- (assignments_errors_nil l).
  rewrite <- (remove_dups_length_NoDup (map _ l)).
  destruct (Z.leb_spec (BulkTankerDeliveryRequest.planned_completion req)
              (BulkTankerDeliveryRequest.planned_departure req)) as [Ht|Ht];
    [split; [discriminate | lia]|].
  destruct (regex_match_alternatives _ _);
    [|split; [discriminate | intros (_ & [=] & _)]].
  simpl app.
  destruct (concat (map assignment_errors l)) as [|e es] eqn:Hitems;
    [|split; [discriminate | intros (_ & _ & [=] & _)]].
  destruct (Z.ltb_spec (Z.of_nat (length l)) 1); [split; [discriminate | lia]|].
  destruct (Z.eqb_spec (Z.of_nat (length l)) 0); [lia|].
  destruct (Z.ltb_spec 12 (Z.of_nat (length l))); [split; [discriminate | lia]|].
  destruct (Nat.eqb_spec (length (map CompartmentAssignmentRequest.compartment_id l))
              (length (remove_dups (map CompartmentAssignmentRequest.compartment_id l))))
    as [Heq|Hne]; simpl.
  + split; [|reflexivity]. intros _. repeat split; auto; lia.
  + split; [discriminate|]. intros (_ & _ & _ & _ & Heq). congruence.
Qed.

(** X1.  A delivery-creation request passes request validation exactly when
    its completion is after its departure, its delivery type is standard,
    emergency or scheduled (a newline may follow), every volume is between 1
    and 50000, every loading sequence that is given is positive, and there
    are between 1 and 12 assignments, no two for the same compartment.  A
    request that fails one of these is answered with the validation report,
    whatever the database holds. *)
Theorem X1_request_validation (req : BulkTankerDeliveryRequest.t) :
  (delivery_request_errors req = []
   ↔ BulkTankerDeliveryRequest.planned_departure req
     < BulkTankerDeliveryRequest.planned_completion req
     ∧ matches_alternatives ["standard"; "emergency"; "scheduled"]%string
         (BulkTankerDeliveryRequest.delivery_type req)
     ∧ Forall assignment_in_range
         (BulkTankerDeliveryRequest.compartment_assignments req)
     ∧ (1 ≤ length (BulkTankerDeliveryRequest.compartment_assignments req) ≤ 12)%nat
     ∧ NoDup (map CompartmentAssignmentRequest.compartment_id
                (BulkTankerDeliveryRequest.compartment_assignments req)))
  ∧ (delivery_request_errors req ≠ [] →
     ∀ strftime_yymmdd db project_id now,
       post_delivery strftime_yymmdd db project_id (Some req) now
       = Raise (RequestValidationError (delivery_request_errors req))).
Proof.
  split; [apply delivery_request_errors_nil|].
  intros Hne strftime_yymmdd db project_id now.
  rewrite post_delivery_Some. apply validated_reject, Hne.
Qed.

Lemma X1_request_validation_witness :
  post_delivery Scenario.calendar Scenario.db_clean 1
    (Some (Scenario.request 1
             [Scenario.assign 1 1 9000; Scenario.assign 1 1 5000])) 2500
  = Raise (RequestValidationError
             [value_error "compartment_assignments"
                "Duplicate compartment assignments not allowed"]).
Proof.
  apply (proj2 (X1_request_validation
                  (Scenario.request 1
                     [Scenario.assign 1 1 9000; Scenario.assign 1 1 5000]))).
  vm_compute. discriminate.
Defined.

(** ** What the contamination validation answers *)

(** X2.  The contamination validation answers with checks exactly when
    every volume and loading sequence is in range and every assignment names
    an existing compartment and product with a volume within the capacity.
    It then returns one check per assignment, in the order of the request,
    each with the compartment id and the product code of its assignment; a
    contamination risk is reported in the check and does not make the
    validation fail. *)
Theorem X2_validation_answer (db : Db)
    (body : list CompartmentAssignmentRequest.t) :
  ((∃ checks, post_validate_contamination db body = Ok checks)
   ↔ Forall assignment_in_range body ∧ Forall (fits db) body)
  ∧ (∀ checks,
       post_validate_contamination db body = Ok checks →
       length checks = length body
       ∧ Forall2
           (fun a check =>
              CrossContaminationCheck.compartment_id check
              = CompartmentAssignmentRequest.compartment_id a
              ∧ (FuelProducts.product_code
                   <$> products db !! CompartmentAssignmentRequest.fuel_product_id a)
                = Some (CrossContaminationCheck.requested_product check)
              ∧ (CrossContaminationCheck.contamination_risk check = true
                 ↔ carries_risk db a))
           body checks).
Proof.
  unfold post_validate_contamination. split.
  - split.
    + intros (checks & H). apply validated_Ok in H. destruct H as [Hv H].
      split; [apply assignments_errors_nil, Hv | apply validate_Ok_fits; eauto].
    + intros [Hr Hf]. apply assignments_errors_nil in Hr. rewrite Hr, validated_pass.
      apply validate_Ok_fits, Hf.
  - intros checks H. apply validated_Ok in H. destruct H as [_ H].
    unfold validate_cross_contamination in H. apply for_each_Ok in H.
    split; [symmetry; eapply Forall2_length; exact H|].
    eapply Forall2_impl; [exact H|]. intros a check Ha. simpl in Ha.
    pose proof (check_assignment_risk db a check Ha) as Hrisk.
    apply check_assignment_Ok in Ha.
    destruct Ha as (c & r & _ & Hp & _ & ->). simpl.
    split; [reflexivity|]. split; [rewrite Hp; reflexivity | exact Hrisk].
Qed.

Lemma X2_validation_answer_witness :
  ∃ checks,
    post_validate_contamination Scenario.db_used
      [Scenario.assign 1 1 9000; Scenario.assign 2 1 5000] = Ok checks
    ∧ length checks = 2%nat.
Proof.
  destruct (proj2 (proj1 (X2_validation_answer Scenario.db_used
                            [Scenario.assign 1 1 9000; Scenario.assign 2 1 5000])))
    as (checks & H).
  - split.
    + repeat constructor; simpl; lia.
    + repeat constructor; by_lookup.
  - exists checks. split; [exact H|].
    exact (proj1 (proj2 (X2_validation_answer Scenario.db_used
                           [Scenario.assign 1 1 9000; Scenario.assign 2 1 5000])
                    checks H)).
Defined.

(** X3.  The validation looks the compartment up before the product and
    before it compares volumes.  At the first assignment that does not
    pass, a compartment id of 32 bits without a row is answered with
    "Compartment N not found", whatever the product and the volume are, and
    a product id of 32 bits without a row, for an existing compartment,
    with "Fuel product N not found", whatever the volume is.  An id
    without a row that does not fit into 32 bits makes the query fail
    instead.  The creation passes these errors on. *)
Theorem X3_lookup_order (db : Db)
    (pre post : list CompartmentAssignmentRequest.t)
    (a : CompartmentAssignmentRequest.t) :
  Forall (fits db) pre →
  (compartments db !! CompartmentAssignmentRequest.compartment_id a = None →
   validate_cross_contamination db (pre ++ a :: post)
   = Raise (if in_int32 (CompartmentAssignmentRequest.compartment_id a)
            then NotFound ("Compartment "
                           +:+ pretty (CompartmentAssignmentRequest.compartment_id a)
                           +:+ " not found")
            else Unhandled "sqlalchemy.exc.DBAPIError"))
  ∧ (is_Some (compartments db !! CompartmentAssignmentRequest.compartment_id a) →
     products db !! CompartmentAssignmentRequest.fuel_product_id a = None →
     validate_cross_contamination db (pre ++ a :: post)
     = Raise (if in_int32 (CompartmentAssignmentRequest.fuel_product_id a)
              then NotFound ("Fuel product "
                             +:+ pretty (CompartmentAssignmentRequest.fuel_product_id a)
                             +:+ " not found")
              else Unhandled "sqlalchemy.exc.DBAPIError"))
  ∧ (∀ strftime_yymmdd project_id req now tanker e,
       BulkTankerDeliveryRequest.compartment_assignments req = pre ++ a :: post →
       delivery_request_errors req = [] →
       select_tanker db (BulkTankerDeliveryRequest.tanker_vehicle_id req) project_id
       = Some tanker →
       dot_compliant tanker →
       validate_cross_contamination db (pre ++ a :: post) = Raise e →
       post_delivery strftime_yymmdd db project_id (Some req) now = Raise e).
Proof.
  intros Hpre.
  assert (∀ e, check_assignment db a = Raise e →
               validate_cross_contamination db (pre ++ a :: post) = Raise e) as Hfirst.
  { intros e He. apply for_each_Raise. exists pre, a, post.
    split; [reflexivity|]. split; [|exact He].
    eapply Forall_impl; [exact Hpre|]. intros x. apply check_assignment_fits. }
  split; [|split].
  - intros Hc. apply Hfirst. unfold check_assignment. rewrite Hc. reflexivity.
  - intros [c Hc] Hp. apply Hfirst. unfold check_assignment. rewrite Hc, Hp.
    reflexivity.
  - intros strftime_yymmdd project_id req now tanker e Hreq Hvalid Ht Hg He.
    rewrite post_delivery_Some, Hvalid, validated_pass.
    apply (create_validation_raises _ _ _ _ _ tanker); [assumption..|].
    rewrite Hreq. exact He.
Qed.

Lemma X3_lookup_order_witness :
  validate_cross_contamination Scenario.db_clean
    ([Scenario.assign 1 1 9000] ++ Scenario.assign 99 98 9000 :: [])
  = Raise (NotFound "Compartment 99 not found").
Proof.
  refine (proj1 (X3_lookup_order Scenario.db_clean [Scenario.assign 1 1 9000] []
                   (Scenario.assign 99 98 9000) _) _).
  - constructor; [by_lookup | constructor].
  - reflexivity.
Defined.

(** ** Vehicle lookup of the creation *)

(** X4.  A well-formed creation request whose vehicle id and project id
    fit into 32 bits is answered with "Tanker vehicle not found" when no
    vehicle has the requested id in the requested project: a vehicle of
    another project is not found, and the answer comes before the
    compliance gate and before any assignment is looked at.  With an id
    that does not fit into 32 bits the query fails instead. *)
Theorem X4_vehicle_of_the_project (strftime_yymmdd : datetime -> string)
    (db : Db) (project_id : Z) (req : BulkTankerDeliveryRequest.t)
    (now : datetime) :
  delivery_request_errors req = [] →
  (∀ tanker,
     vehicles db !! BulkTankerDeliveryRequest.tanker_vehicle_id req = Some tanker →
     BulkTankerVehicles.project_id tanker ≠ project_id) →
  post_delivery strftime_yymmdd db project_id (Some req) now
  = Raise (if in_int32 (BulkTankerDeliveryRequest.tanker_vehicle_id req)
              && in_int32 project_id
           then NotFound "Tanker vehicle not found"
           else Unhandled "sqlalchemy.exc.DBAPIError").
Proof.
  intros Hvalid Hother. rewrite post_delivery_Some, Hvalid, validated_pass.
  unfold create_from_request, select_tanker.
  destruct (vehicles db !! _) as [tanker|] eqn:Hv; [|reflexivity].
  rewrite bool_decide_eq_false_2 by (apply Hother; reflexivity). reflexivity.
Qed.

Lemma X4_vehicle_of_the_project_witness :
  post_delivery Scenario.calendar Scenario.db_clean 2
    (Some (Scenario.request 1 [Scenario.assign 99 1 9000])) 2500
  = Raise (NotFound "Tanker vehicle not found").
Proof.
  apply (X4_vehicle_of_the_project Scenario.calendar Scenario.db_clean 2
           (Scenario.request 1 [Scenario.assign 99 1 9000]) 2500).
  - reflexivity.
  - intros tanker H. vm_compute in H. injection H as <-. simpl. lia.
Defined.

(** ** The id sequences *)

Lemma max_key_spec {A : Type} (m : gmap Z A) :
  0 ≤ max_key m ∧ ∀ k v, m !! k = Some v → k ≤ max_key m.
Proof.
  unfold max_key.
  apply (map_fold_weak_ind
           (fun r (m : gmap Z A) => 0 ≤ r ∧ ∀ k v, m !! k = Some v → k ≤ r)).
  - split; [lia|]. intros k v H. rewrite lookup_empty in H. discriminate.
  - intros i x m' r _ [H0 Hle]. split; [lia|].
    intros k v Hk. destruct (decide (i = k)) as [->|Hne]; [lia|].
    rewrite lookup_insert_ne in Hk by exact Hne. apply Hle in Hk. lia.
Qed.

(** An id from the next one on has no row. *)
Lemma next_id_fresh {A : Type} (m : gmap Z A) (k : Z) :
  next_id m ≤ k → m !! k = None.
Proof.
  intros Hk. destruct (m !! k) as [v|] eqn:H; [|reflexivity].
  apply (proj2 (max_key_spec m)) in H. unfold next_id in Hk. fold (max_key m) in Hk.
  lia.
Qed.

Lemma next_id_positive {A : Type} (m : gmap Z A) : 0 < next_id m.
Proof.
  pose proof (proj1 (max_key_spec m)). unfold next_id. fold (max_key m). lia.
Qed.

Lemma next_id_insert {A : Type} (m : gmap Z A) (v : A) :
  next_id (<[next_id m := v]> m) = next_id m + 1.
Proof.
  unfold next_id at 1. rewrite map_fold_insert_L.
  - fold (max_key m). pose proof (proj1 (max_key_spec m)).
    unfold next_id. fold (max_key m). lia.
  - intros. lia.
  - apply next_id_fresh. lia.
Qed.

(** ** The rows a creation writes *)

Lemma validate_ext (db1 db2 : Db) (body : list CompartmentAssignmentRequest.t) :
  compartments db1 = compartments db2 →
  products db1 = products db2 →
  validate_cross_contamination db1 body = validate_cross_contamination db2 body.
Proof.
  intros Hc Hp. unfold validate_cross_contamination.
  assert (∀ a, check_assignment db1 a = check_assignment db2 a) as Hbody.
  { intros a. unfold check_assignment, last_product. rewrite Hc, Hp. reflexivity. }
  induction body as [|a body IH]; simpl; [reflexivity|].
  rewrite Hbody, IH. reflexivity.
Qed.

Lemma cleaning_estimate_ext (db1 db2 : Db) (compartment_id target_product_id : Z) :
  compartments db1 = compartments db2 →
  products db1 = products db2 →
  get_cleaning_estimate db1 compartment_id target_product_id
  = get_cleaning_estimate db2 compartment_id target_product_id.
Proof.
  intros Hc Hp. unfold get_cleaning_estimate, last_product. rewrite Hc, Hp.
  reflexivity.
Qed.

(** The second loop of the creation: one row for each requested assignment,
    under ids that grow with the position in the request and had no row
    before; the rows that were there stay. *)
Lemma assignments_loop_rows (db0 : Db) (delivery_id : Z)
    (l : list CompartmentAssignmentRequest.t) (session session' : Db) :
  for_fold (create_assignment db0 delivery_id) session l = Ok session' →
  ∃ rows,
    Forall2 (written_for db0 delivery_id) l rows
    ∧ map_to_list (assignments session')
      ≡ₚ imap (fun i row => (next_id (assignments session) + Z.of_nat i, row)) rows
         ++ map_to_list (assignments session)
    ∧ (∀ i row, rows !! i = Some row →
         assignments session' !! (next_id (assignments session) + Z.of_nat i)
         = Some row)
    ∧ (∀ k, k < next_id (assignments session) →
         assignments session' !! k = assignments session !! k).
Proof.
  revert session. induction l as [|a l IH]; intros session; simpl.
  - intros [= <-]. exists []. split; [constructor|]. split; [reflexivity|].
    split; [intros i row H; destruct i; discriminate | reflexivity].
  - destruct (create_assignment db0 delivery_id session a) as [s1|] eqn:Hs1;
      simpl; [|discriminate].
    intros H. apply IH in H. destruct H as (rows & Hrows & Hperm & Hnew & Hold).
    unfold create_assignment in Hs1.
    destruct (products db0 !! _) as [p|] eqn:Hp; simpl in Hs1; [|discriminate].
    injection Hs1 as <-. simpl in Hperm, Hnew, Hold.
    rewrite next_id_insert in Hperm, Hnew, Hold.
    fold (assignment_row delivery_id a p) in Hperm, Hnew, Hold.
    set (n := next_id (assignments session)) in *.
    exists (assignment_row delivery_id a p :: rows).
    split; [constructor; [exists p; auto | exact Hrows]|]. split; [|split].
    + rewrite Hperm. simpl. rewrite Z.add_0_r.
      rewrite map_to_list_insert by (apply next_id_fresh; subst n; lia).
      rewrite <- Permutation_middle. constructor.
      apply Permutation_app; [|reflexivity].
      erewrite imap_ext; [reflexivity|]. intros i x _. simpl.
      f_equal. lia.
    + intros [|i] row Hi; simpl in Hi.
      * injection Hi as <-. rewrite Z.add_0_r, Hold by lia.
        apply lookup_insert_eq.
      * apply Hnew in Hi. rewrite <- Hi. f_equal. lia.
    + intros k Hk. rewrite Hold by lia. apply lookup_insert_ne. lia.
Qed.

(** The delivery row of a creation and the loop that follows it. *)
Lemma create_Ok_store (strftime_yymmdd : datetime -> string) (db : Db)
    (project_id : Z) (req : BulkTankerDeliveryRequest.t) (now : datetime)
    (resp : CreateResponse.t) (db' : Db) :
  create_from_request strftime_yymmdd db project_id req now = Ok (resp, db') →
  ∃ delivery,
    CreateResponse.delivery_id resp = next_id (deliveries db)
    ∧ for_fold (create_assignment db (next_id (deliveries db)))
               (add_delivery db (next_id (deliveries db)) delivery)
               (BulkTankerDeliveryRequest.compartment_assignments req)
      = Ok db'
    ∧ (BulkTankerDeliveries.delivery_reference delivery
       = "BT-DLV-" +:+ strftime_yymmdd now +:+ "-"
         +:+ format_03d (BulkTankerDeliveryRequest.tanker_vehicle_id req)
       ∧ BulkTankerDeliveries.delivery_type delivery
         = BulkTankerDeliveryRequest.delivery_type req
       ∧ BulkTankerDeliveries.project_id delivery = project_id
       ∧ BulkTankerDeliveries.tanker_vehicle_id delivery
         = BulkTankerDeliveryRequest.tanker_vehicle_id req
       ∧ BulkTankerDeliveries.driver_id delivery
         = BulkTankerDeliveryRequest.driver_id req
       ∧ BulkTankerDeliveries.planned_departure delivery
         = BulkTankerDeliveryRequest.planned_departure req
       ∧ BulkTankerDeliveries.planned_completion delivery
         = BulkTankerDeliveryRequest.planned_completion req
       ∧ BulkTankerDeliveries.total_volume_liters delivery
         = sum_volumes (BulkTankerDeliveryRequest.compartment_assignments req)
       ∧ BulkTankerDeliveries.compartments_used delivery
         = Z.of_nat (length (BulkTankerDeliveryRequest.compartment_assignments req))
       ∧ BulkTankerDeliveries.delivery_status delivery = "planned"%string
       ∧ BulkTankerDeliveries.actual_departure delivery = None
       ∧ BulkTankerDeliveries.actual_completion delivery = None
       ∧ BulkTankerDeliveries.distance_traveled_km delivery = None
       ∧ BulkTankerDeliveries.fuel_consumed_liters delivery = None
       ∧ BulkTankerDeliveries.co2_emissions_kg delivery = None
       ∧ BulkTankerDeliveries.safety_incidents delivery = []
       ∧ BulkTankerDeliveries.created_at delivery = now)
    ∧ (CreateResponse.delivery_reference resp
       = BulkTankerDeliveries.delivery_reference delivery
       ∧ CreateResponse.tanker_vehicle_id resp
         = BulkTankerDeliveries.tanker_vehicle_id delivery
       ∧ CreateResponse.total_volume_liters resp
         = BulkTankerDeliveries.total_volume_liters delivery
       ∧ CreateResponse.compartments_used resp
         = BulkTankerDeliveries.compartments_used delivery
       ∧ CreateResponse.delivery_status resp
         = BulkTankerDeliveries.delivery_status delivery
       ∧ CreateResponse.created_at resp
         = BulkTankerDeliveries.created_at delivery).
Proof.
  unfold create_from_request.
  destruct (select_tanker _ _ _) as [tanker|] eqn:Ht; [|discriminate].
  destruct (_ || _) eqn:Hg; [discriminate|].
  destruct (validate_cross_contamination _ _) as [checks|] eqn:Hv;
    simpl; [|discriminate].
  destruct (filter _ checks) as [|issue issues]; [|discriminate].
  destruct (for_fold (add_to_totals db) _ _) as [[tv tw]|] eqn:Htot;
    simpl; [|discriminate].
  pose proof (totals_Ok _ _ _ _ _ _ Htot) as Htv. simpl in Htv. subst tv.
  destruct (utilization_percent _ _) as [u|] eqn:Hu; simpl; [|discriminate].
  destruct (for_fold (create_assignment db _) _ _) as [session|] eqn:Hs;
    simpl; [|discriminate].
  intros [= <- <-]. eexists. split; [reflexivity|]. split; [exact Hs|].
  simpl. repeat split; reflexivity.
Qed.

Lemma zip_imap_ids {A : Type} (f : nat -> Z) (l : list A) :
  zip (imap (fun i _ => f i) l) l = imap (fun i x => (f i, x)) l.
Proof.
  revert f. induction l as [|x l IH]; intros f; simpl; [reflexivity|].
  f_equal. apply (IH (f ∘ S)).
Qed.

Lemma imap_ids_lookup {A : Type} (f : nat -> Z) (l : list A) (i : nat) (k : Z) :
  imap (fun i _ => f i) l !! i = Some k → k = f i ∧ (i < length l)%nat.
Proof.
  rewrite list_lookup_imap. destruct (l !! i) as [x|] eqn:Hx; simpl; [|discriminate].
  intros [= <-]. split; [reflexivity|]. eapply lookup_lt_Some, Hx.
Qed.

(** X5.  A successful creation stores the delivery under an id that had no
    row, with the vehicle, driver, times and type of the request, the
    status planned and no actual times, and answers with that id and the
    stored reference.  It adds one assignment row for each requested
    assignment and nothing else to the assignment table: the rows carry the
    compartment, product, location, volume, sequence and handling text of
    their assignment, refer to the new delivery, have the status assigned,
    and get ids that had no row and grow in the order of the request. *)
Theorem X5_creation_rows (strftime_yymmdd : datetime -> string) (db : Db)
    (project_id : Z) (req : BulkTankerDeliveryRequest.t) (now : datetime)
    (resp : CreateResponse.t) (db' : Db) :
  post_delivery strftime_yymmdd db project_id (Some req) now = Ok (resp, db') →
  deliveries db !! CreateResponse.delivery_id resp = None
  ∧ (∃ delivery,
       deliveries db' !! CreateResponse.delivery_id resp = Some delivery
       ∧ BulkTankerDeliveries.project_id delivery = project_id
       ∧ BulkTankerDeliveries.tanker_vehicle_id delivery
         = BulkTankerDeliveryRequest.tanker_vehicle_id req
       ∧ BulkTankerDeliveries.driver_id delivery
         = BulkTankerDeliveryRequest.driver_id req
       ∧ BulkTankerDeliveries.planned_departure delivery
         = BulkTankerDeliveryRequest.planned_departure req
       ∧ BulkTankerDeliveries.planned_completion delivery
         = BulkTankerDeliveryRequest.planned_completion req
       ∧ BulkTankerDeliveries.delivery_type delivery
         = BulkTankerDeliveryRequest.delivery_type req
       ∧ BulkTankerDeliveries.delivery_status delivery = "planned"%string
       ∧ BulkTankerDeliveries.actual_departure delivery = None
       ∧ BulkTankerDeliveries.actual_completion delivery = None
       ∧ BulkTankerDeliveries.created_at delivery = now
       ∧ BulkTankerDeliveries.delivery_reference delivery
         = CreateResponse.delivery_reference resp)
  ∧ (∃ ids rows,
       Forall2 (written_for db (CreateResponse.delivery_id resp))
               (BulkTankerDeliveryRequest.compartment_assignments req) rows
       ∧ length ids = length rows
       ∧ (∀ i j k1 k2, ids !! i = Some k1 → ids !! j = Some k2 →
                       (i < j)%nat → k1 < k2)
       ∧ Forall (fun k => assignments db !! k = None) ids
       ∧ (∀ i k row, ids !! i = Some k → rows !! i = Some row →
                     assignments db' !! k = Some row)
       ∧ map_to_list (assignments db')
         ≡ₚ zip ids rows ++ map_to_list (assignments db)).
Proof.
  intros H. rewrite post_delivery_Some in H. apply validated_Ok in H.
  destruct H as [_ H]. apply create_Ok_store in H.
  destruct H as (delivery & Hid & Hloop & Hrow & Hresp). rewrite Hid.
  split; [apply next_id_fresh; lia|]. split.
  - exists delivery. apply assignments_loop_tables in Hloop.
    destruct Hloop as (_ & _ & _ & ->). simpl.
    split; [apply lookup_insert_eq|].
    destruct Hrow as (? & ? & ? & ? & ? & ? & ? & _ & _ & ? & ? & ? & _ & _ & _ & _ & ?).
    destruct Hresp as (-> & _). auto 12.
  - apply assignments_loop_rows in Hloop.
    destruct Hloop as (rows & Hrows & Hperm & Hnew & _). simpl in Hperm, Hnew.
    exists (imap (fun i _ => next_id (assignments db) + Z.of_nat i) rows), rows.
    split; [exact Hrows|]. split; [apply length_imap|]. split; [|split; [|split]].
    + intros i j k1 k2 Hi Hj Hlt.
      apply imap_ids_lookup in Hi. apply imap_ids_lookup in Hj. lia.
    + apply Forall_forall. intros k Hk. apply list_elem_of_lookup in Hk.
      destruct Hk as (i & Hi). apply imap_ids_lookup in Hi.
      apply next_id_fresh. lia.
    + intros i k row Hi Hr. apply imap_ids_lookup in Hi. destruct Hi as [-> _].
      apply Hnew, Hr.
    + rewrite zip_imap_ids. exact Hperm.
Qed.

Lemma X5_creation_rows_witness :
  ∃ resp db',
    post_delivery Scenario.calendar Scenario.db_planned 1
      (Some (Scenario.request 3 [Scenario.assign 6 1 4000])) 2700
    = Ok (resp, db')
    ∧ deliveries Scenario.db_planned !! CreateResponse.delivery_id resp = None.
Proof.
  destruct (post_delivery Scenario.calendar Scenario.db_planned 1
              (Some (Scenario.request 3 [Scenario.assign 6 1 4000])) 2700)
    as [[resp db']|e] eqn:H.
  - exists resp, db'. split; [reflexivity|].
    exact (proj1 (X5_creation_rows Scenario.calendar Scenario.db_planned 1
                    (Scenario.request 3 [Scenario.assign 6 1 4000]) 2700
                    resp db' H)).
  - vm_compute in H. discriminate H.
Defined.

(** X6.  A successful creation changes no row that was there: the vehicle,
    compartment and product tables are the same afterwards, and every
    delivery and assignment row is kept.  In particular the compartments'
    last and current products are not updated, so the contamination
    validation and the cleaning estimate answer after the creation as they
    did before. *)
Theorem X6_creation_keeps_rows (strftime_yymmdd : datetime -> string) (db : Db)
    (project_id : Z) (req : BulkTankerDeliveryRequest.t) (now : datetime)
    (resp : CreateResponse.t) (db' : Db) :
  post_delivery strftime_yymmdd db project_id (Some req) now = Ok (resp, db') →
  vehicles db' = vehicles db
  ∧ compartments db' = compartments db
  ∧ products db' = products db
  ∧ (∀ k delivery, deliveries db !! k = Some delivery →
                   deliveries db' !! k = Some delivery)
  ∧ (∀ k row, assignments db !! k = Some row → assignments db' !! k = Some row)
  ∧ (∀ body, post_validate_contamination db' body
             = post_validate_contamination db body)
  ∧ (∀ compartment_id target_product_id,
       get_cleaning_estimate db' compartment_id target_product_id
       = get_cleaning_estimate db compartment_id target_product_id).
Proof.
  intros H. rewrite post_delivery_Some in H. apply validated_Ok in H.
  destruct H as [_ H]. apply create_Ok_store in H.
  destruct H as (delivery & _ & Hloop & _ & _).
  pose proof (assignments_loop_tables _ _ _ _ _ Hloop) as (Hv & Hc & Hp & Hd).
  apply assignments_loop_rows in Hloop. destruct Hloop as (_ & _ & _ & _ & Hold).
  simpl in Hv, Hc, Hp, Hd, Hold.
  split; [exact Hv|]. split; [exact Hc|]. split; [exact Hp|].
  split; [|split; [|split]].
  - intros k d Hk. rewrite Hd. rewrite lookup_insert_ne; [exact Hk|].
    intros <-. rewrite next_id_fresh in Hk by lia. discriminate.
  - intros k row Hk. rewrite Hold; [exact Hk|].
    destruct (Z.lt_ge_cases k (next_id (assignments db))) as [Hlt|Hge];
      [exact Hlt|].
    rewrite next_id_fresh in Hk by lia. discriminate.
  - intros body. unfold post_validate_contamination.
    rewrite (validate_ext db' db body Hc Hp). reflexivity.
  - intros c p. apply cleaning_estimate_ext; assumption.
Qed.

Lemma X6_creation_keeps_rows_witness :
  ∃ resp db',
    post_delivery Scenario.calendar Scenario.db_planned 1
      (Some (Scenario.request 3 [Scenario.assign 6 1 4000])) 2700
    = Ok (resp, db')
    ∧ compartments db' = compartments Scenario.db_planned.
Proof.
  destruct (post_delivery Scenario.calendar Scenario.db_planned 1
              (Some (Scenario.request 3 [Scenario.assign 6 1 4000])) 2700)
    as [[resp db']|e] eqn:H.
  - exists resp, db'. split; [reflexivity|].
    exact (proj1 (proj2 (X6_creation_keeps_rows Scenario.calendar
                           Scenario.db_planned 1
                           (Scenario.request 3 [Scenario.assign 6 1 4000]) 2700
                           resp db' H))).
  - vm_compute in H. discriminate H.
Defined.

(** ** The relationship between a delivery and its assignments *)

Lemma written_rows_delivery_id (db : Db) (delivery_id : Z)
    (l : list CompartmentAssignmentRequest.t)
    (rows : list CompartmentDeliveryAssignments.t) :
  Forall2 (written_for db delivery_id) l rows →
  Forall (fun row => CompartmentDeliveryAssignments.delivery_id row = delivery_id)
         rows.
Proof.
  intros H. induction H as [|a row l rows (p & _ & ->) _ IH]; constructor; auto.
Qed.

Lemma written_rows_volumes (db : Db) (delivery_id : Z)
    (l : list CompartmentAssignmentRequest.t)
    (rows : list CompartmentDeliveryAssignments.t) :
  Forall2 (written_for db delivery_id) l rows →
  sum_row_volumes rows = sum_volumes l.
Proof.
  intros H. induction H as [|a row l rows (p & _ & ->) _ IH]; simpl; [reflexivity|].
  rewrite IH. reflexivity.
Qed.

Lemma sum_row_volumes_Permutation (l1 l2 : list CompartmentDeliveryAssignments.t) :
  l1 ≡ₚ l2 → sum_row_volumes l1 = sum_row_volumes l2.
Proof.
  intros H. induction H; simpl; lia.
Qed.

Lemma snd_imap_ids {A : Type} (f : nat -> Z) (l : list A) :
  map snd (imap (fun i x => (f i, x)) l) = l.
Proof.
  revert f. induction l as [|x l IH]; intros f; simpl; [reflexivity|].
  f_equal. apply (IH (f ∘ S)).
Qed.

Lemma filter_none {A : Type} (P : A -> Prop) `{∀ x, Decision (P x)} (l : list A) :
  Forall (fun x => ¬ P x) l → filter P l = [].
Proof.
  intros Hl. induction Hl as [|x l Hx _ IH]; [reflexivity|].
  rewrite filter_cons_False by exact Hx. exact IH.
Qed.

Lemma filter_all {A : Type} (P : A -> Prop) `{∀ x, Decision (P x)} (l : list A) :
  Forall P l → filter P l = l.
Proof.
  intros Hl. induction Hl as [|x l Hx _ IH]; [reflexivity|].
  rewrite filter_cons_True by exact Hx. rewrite IH. reflexivity.
Qed.

(** The rows of the assignment table that refer to the delivery of a
    creation are the rows the creation wrote. *)
Lemma creation_relationship (db0 : Db) (delivery : BulkTankerDeliveries.t)
    (l : list CompartmentAssignmentRequest.t) (db' : Db) :
  assignments_refer_to_deliveries db0 →
  for_fold (create_assignment db0 (next_id (deliveries db0)))
           (add_delivery db0 (next_id (deliveries db0)) delivery) l = Ok db' →
  ∃ rows,
    Forall2 (written_for db0 (next_id (deliveries db0))) l rows
    ∧ map snd (compartment_assignments db' (next_id (deliveries db0))) ≡ₚ rows.
Proof.
  intros Hfk Hloop. apply assignments_loop_rows in Hloop.
  destruct Hloop as (rows & Hrows & Hperm & _ & _). simpl in Hperm.
  exists rows. split; [exact Hrows|].
  unfold compartment_assignments. rewrite Hperm, filter_app.
  match goal with
  | |- map snd (?new ++ ?old) ≡ₚ _ =>
      assert (old = []) as ->; [|assert (new = imap (fun i row =>
        (next_id (assignments db0) + Z.of_nat i, row)) rows) as ->]
  end.
  - apply filter_none. apply Forall_forall. intros [k row] Hin Hid.
    simpl in Hid. apply elem_of_map_to_list in Hin.
    destruct (Hfk k row Hin) as [d Hd]. rewrite Hid in Hd.
    rewrite next_id_fresh in Hd by lia. discriminate.
  - apply filter_all. apply Forall_forall. intros [k row] Hin. simpl.
    apply written_rows_delivery_id in Hrows. rewrite Forall_forall in Hrows.
    apply Hrows. apply list_elem_of_lookup in Hin. destruct Hin as (i & Hi).
    rewrite list_lookup_imap in Hi.
    destruct (rows !! i) as [row'|] eqn:Hr; simpl in Hi; [|discriminate].
    injection Hi as _ <-. eapply list_elem_of_lookup_2, Hr.
  - rewrite app_nil_r, snd_imap_ids. reflexivity.
Qed.

(** X7.  In a database whose assignment rows all refer to delivery rows,
    the assignments that belong to a newly created delivery are exactly the
    rows written for the assignments of the request: their number is the
    stored [compartments_used], the sum of their volumes is the stored
    [total_volume_liters], and afterwards every assignment row still refers
    to a delivery row. *)
Theorem X7_delivery_owns_its_assignments
    (strftime_yymmdd : datetime -> string) (db : Db)
    (project_id : Z) (req : BulkTankerDeliveryRequest.t) (now : datetime)
    (resp : CreateResponse.t) (db' : Db) :
  assignments_refer_to_deliveries db →
  post_delivery strftime_yymmdd db project_id (Some req) now = Ok (resp, db') →
  (∃ rows,
     Forall2 (written_for db (CreateResponse.delivery_id resp))
             (BulkTankerDeliveryRequest.compartment_assignments req) rows
     ∧ map snd (compartment_assignments db' (CreateResponse.delivery_id resp))
       ≡ₚ rows)
  ∧ (∃ delivery,
       deliveries db' !! CreateResponse.delivery_id resp = Some delivery
       ∧ BulkTankerDeliveries.compartments_used delivery
         = Z.of_nat (length (compartment_assignments db'
                               (CreateResponse.delivery_id resp)))
       ∧ BulkTankerDeliveries.total_volume_liters delivery
         = sum_row_volumes
             (map snd (compartment_assignments db'
                         (CreateResponse.delivery_id resp))))
  ∧ assignments_refer_to_deliveries db'.
Proof.
  intros Hfk H. rewrite post_delivery_Some in H. apply validated_Ok in H.
  destruct H as [_ H]. apply create_Ok_store in H.
  destruct H as (delivery & Hid & Hloop & Hrow & _). rewrite Hid.
  destruct (creation_relationship _ _ _ _ Hfk Hloop) as (rows & Hrows & Hrel).
  pose proof (assignments_loop_tables _ _ _ _ _ Hloop) as (_ & _ & _ & Hd).
  simpl in Hd.
  split; [exists rows; split; assumption|]. split.
  - exists delivery. split; [rewrite Hd; apply lookup_insert_eq|].
    destruct Hrow as (_ & _ & _ & _ & _ & _ & _ & -> & -> & _).
    split.
    + rewrite <- (length_map snd), Hrel.
      rewrite (Forall2_length _ _ _ Hrows). reflexivity.
    + rewrite (sum_row_volumes_Permutation _ _ Hrel).
      symmetry. eapply written_rows_volumes, Hrows.
  - intros k row Hk. rewrite Hd.
    apply assignments_loop_rows in Hloop.
    destruct Hloop as (rows' & Hrows' & Hperm & _ & _). simpl in Hperm.
    apply elem_of_map_to_list in Hk. rewrite Hperm in Hk.
    apply elem_of_app in Hk. destruct Hk as [Hk|Hk].
    + apply list_elem_of_lookup in Hk. destruct Hk as (i & Hi).
      rewrite list_lookup_imap in Hi.
      destruct (rows' !! i) as [row'|] eqn:Hr; simpl in Hi; [|discriminate].
      injection Hi as _ <-.
      apply written_rows_delivery_id in Hrows'. rewrite Forall_forall in Hrows'.
      rewrite (Hrows' row') by (eapply list_elem_of_lookup_2, Hr).
      rewrite lookup_insert_eq. eauto.
    + apply elem_of_map_to_list in Hk. destruct (Hfk k row Hk) as [d Hdl].
      exists d. rewrite lookup_insert_ne; [exact Hdl|].
      intros Heq. rewrite <- Heq in Hdl.
      rewrite next_id_fresh in Hdl by lia. discriminate.
Qed.

Lemma X7_delivery_owns_its_assignments_witness :
  ∃ resp db',
    post_delivery Scenario.calendar Scenario.db_clean 1
      (Some (Scenario.request 1 [Scenario.assign 1 1 9000; Scenario.assign 2 1 5000]))
      2500
    = Ok (resp, db')
    ∧ assignments_refer_to_deliveries db'.
Proof.
  destruct (post_delivery Scenario.calendar Scenario.db_clean 1
              (Some (Scenario.request 1
                       [Scenario.assign 1 1 9000; Scenario.assign 2 1 5000]))
              2500) as [[resp db']|e] eqn:H.
  - exists resp, db'. split; [reflexivity|].
    refine (proj2 (proj2 (X7_delivery_owns_its_assignments Scenario.calendar
                            Scenario.db_clean 1
                            (Scenario.request 1
                               [Scenario.assign 1 1 9000; Scenario.assign 2 1 5000])
                            2500 resp db' _ H))).
    intros id row Hrow. simpl in Hrow. rewrite lookup_empty in Hrow.
    discriminate Hrow.
  - vm_compute in H. discriminate H.
Defined.

(** ** The constraints of the tables *)

Lemma round_half_even_nonneg (n k : Z) : 0 ≤ n → 0 ≤ Decimal.round_half_even n k.
Proof.
  intros Hn. unfold Decimal.round_half_even.
  assert (0 ≤ n / 10 ^ k) by (apply Z_div_nonneg_nonneg; lia).
  destruct (_ || _); lia.
Qed.

Lemma fix_nonneg (d : Decimal.t) :
  0 ≤ Decimal.dcoef d → 0 ≤ Decimal.dcoef (Decimal.fix_ d).
Proof.
  intros Hd. unfold Decimal.fix_.
  destruct (_ <? _); [exact Hd|].
  pose proof (round_half_even_nonneg (Z.abs (Decimal.dcoef d))
                (Decimal.ndigits (Z.abs (Decimal.dcoef d)) - Decimal.prec)
                (Z.abs_nonneg _)) as Hq.
  destruct (_ =? _); simpl.
  - apply Z.mul_nonneg_nonneg; [lia|]. apply Z_div_nonneg_nonneg; lia.
  - apply Z.mul_nonneg_nonneg; lia.
Qed.

Lemma mul_nonneg (a b : Decimal.t) :
  0 ≤ Decimal.dcoef a → 0 ≤ Decimal.dcoef b →
  0 ≤ Decimal.dcoef (Decimal.mul a b).
Proof.
  intros Ha Hb. unfold Decimal.mul. apply fix_nonneg. simpl.
  apply Z.mul_nonneg_nonneg; assumption.
Qed.

Lemma normalize_nonneg (tmp other : Decimal.t) :
  0 ≤ Decimal.dcoef tmp → 0 ≤ Decimal.dcoef other →
  0 ≤ Decimal.dcoef (Decimal.normalize tmp other).1
  ∧ 0 ≤ Decimal.dcoef (Decimal.normalize tmp other).2.
Proof.
  intros Ht Ho. unfold Decimal.normalize. simpl. split.
  - apply Z.mul_nonneg_nonneg; [exact Ht|]. apply Z.pow_nonneg. lia.
  - destruct (_ <? _); simpl; lia.
Qed.

Lemma add_nonneg (a b : Decimal.t) :
  0 ≤ Decimal.dcoef a → 0 ≤ Decimal.dcoef b →
  0 ≤ Decimal.dcoef (Decimal.add a b).
Proof.
  intros Ha Hb. unfold Decimal.add.
  destruct (_ && _); [apply fix_nonneg; simpl; lia|].
  destruct (Decimal.dcoef a =? 0).
  { apply fix_nonneg. simpl. apply Z.mul_nonneg_nonneg; [exact Hb|].
    apply Z.pow_nonneg. lia. }
  destruct (Decimal.dcoef b =? 0).
  { apply fix_nonneg. simpl. apply Z.mul_nonneg_nonneg; [exact Ha|].
    apply Z.pow_nonneg. lia. }
  destruct (Decimal.dexp a <? Decimal.dexp b).
  - pose proof (normalize_nonneg b a Hb Ha) as [H1 H2].
    destruct (Decimal.normalize b a) as [op1 op2]. apply fix_nonneg. simpl in *. lia.
  - pose proof (normalize_nonneg a b Ha Hb) as [H1 H2].
    destruct (Decimal.normalize a b) as [op1 op2]. apply fix_nonneg. simpl in *. lia.
Qed.

(** The weight the first loop of the creation adds up is not negative. *)
Lemma totals_weight_nonneg (db : Db) (l : list CompartmentAssignmentRequest.t)
    (tv tv' : Z) (tw tw' : Decimal.t) :
  density_positive db →
  Forall assignment_in_range l →
  0 ≤ Decimal.dcoef tw →
  for_fold (add_to_totals db) (tv, tw) l = Ok (tv', tw') →
  0 ≤ Decimal.dcoef tw'.
Proof.
  intros Hd Hl. revert tv tw.
  induction Hl as [|a l [Ha _] _ IH]; intros tv tw Htw; simpl.
  - intros [= _ <-]. exact Htw.
  - destruct (products db !! _) as [p|] eqn:Hp; simpl; [|discriminate].
    apply IH. apply add_nonneg; [exact Htw|].
    apply mul_nonneg; [simpl; lia|]. apply Hd in Hp. lia.
Qed.

Lemma written_rows_constraints (db : Db) (delivery_id : Z)
    (l : list CompartmentAssignmentRequest.t)
    (rows : list CompartmentDeliveryAssignments.t) :
  Forall assignment_in_range l →
  Forall2 (written_for db delivery_id) l rows →
  Forall (fun row =>
            assignment_volume_positive row
            ∧ loading_sequence_positive row
            ∧ assignment_status_valid row
            ∧ (density_positive db → assignment_weight_positive row))
         rows.
Proof.
  intros Hl H. induction H as [|a row l rows (p & Hp & ->) _ IH]; [constructor|].
  inversion Hl as [|? ? [Hv Hs] Hl']; subst. constructor; [|apply IH, Hl'].
  unfold assignment_volume_positive, loading_sequence_positive,
    assignment_status_valid, assignment_weight_positive. simpl.
  split; [lia|]. split; [exact Hs|]. split; [unfold assignment_status_values; in_list|].
  intros Hd. apply mul_nonneg; [simpl; lia|]. apply Hd in Hp. lia.
Qed.

Lemma written_rows_pairs (db : Db) (delivery_id : Z)
    (l : list CompartmentAssignmentRequest.t)
    (rows : list CompartmentDeliveryAssignments.t) :
  Forall2 (written_for db delivery_id) l rows →
  map (fun a => (CompartmentDeliveryAssignments.delivery_id a,
                 CompartmentDeliveryAssignments.compartment_id a)) rows
  = map (fun a => (delivery_id, CompartmentAssignmentRequest.compartment_id a)) l.
Proof.
  intros H. induction H as [|a row l rows (p & _ & ->) _ IH]; simpl; [reflexivity|].
  rewrite IH. reflexivity.
Qed.

(** X8.  The rows of a successful creation meet the check constraints of
    their tables that do not involve the utilization: the delivery has a
    positive volume, a departure before its completion, a count of
    compartments that is not negative and an admitted status; every new
    assignment has a positive volume, a positive loading sequence if it has
    one, and an admitted status; with positive densities in the product
    table no weight is negative.  If no two assignment rows shared a
    delivery and compartment before, and every assignment row referred to a
    delivery row, no two do afterwards. *)
Theorem X8_creation_meets_constraints
    (strftime_yymmdd : datetime -> string) (db : Db)
    (project_id : Z) (req : BulkTankerDeliveryRequest.t) (now : datetime)
    (resp : CreateResponse.t) (db' : Db) :
  post_delivery strftime_yymmdd db project_id (Some req) now = Ok (resp, db') →
  (∃ delivery,
     deliveries db' !! CreateResponse.delivery_id resp = Some delivery
     ∧ 0 < BulkTankerDeliveries.total_volume_liters delivery
     ∧ delivery_volume_positive delivery
     ∧ compartments_used_positive delivery
     ∧ delivery_timing_valid delivery
     ∧ delivery_status_valid delivery
     ∧ (density_positive db → delivery_weight_positive delivery))
  ∧ (∀ k row,
       assignments db !! k = None → assignments db' !! k = Some row →
       assignment_volume_positive row
       ∧ loading_sequence_positive row
       ∧ assignment_status_valid row
       ∧ (density_positive db → assignment_weight_positive row))
  ∧ (assignments_refer_to_deliveries db →
     delivery_compartment_unique (map snd (map_to_list (assignments db))) →
     delivery_compartment_unique (map snd (map_to_list (assignments db')))).
Proof.
  intros H. rewrite post_delivery_Some in H. apply validated_Ok in H.
  destruct H as [Hvalid H].
  apply delivery_request_errors_nil in Hvalid.
  destruct Hvalid as (Htime & _ & Hrange & Hlen & Hnodup).
  pose proof (create_Ok_inv _ _ _ _ _ _ _ H)
    as (_ & tw & _ & delivery0 & _ & _ & _ & _ & Htot & _ & Hl0 & _ & _ & Htw0 & _).
  apply create_Ok_store in H.
  destruct H as (delivery & Hid & Hloop & Hrow & _). rewrite Hid in *.
  pose proof (assignments_loop_tables _ _ _ _ _ Hloop) as (_ & _ & _ & Hd).
  simpl in Hd.
  assert (deliveries db' !! next_id (deliveries db) = Some delivery) as Hl
    by (rewrite Hd; apply lookup_insert_eq).
  rewrite Hl in Hl0. injection Hl0 as <-.
  apply assignments_loop_rows in Hloop.
  destruct Hloop as (rows & Hrows & Hperm & _ & Hold). simpl in Hperm, Hold.
  split; [|split].
  - exists delivery. split; [exact Hl|].
    destruct Hrow as (_ & _ & _ & _ & _ & Hdep & Hcomp & Hvol & Hused & Hst & _).
    unfold delivery_volume_positive, compartments_used_positive,
      delivery_timing_valid, delivery_status_valid, delivery_weight_positive.
    rewrite Hvol, Hused, Hdep, Hcomp, Hst, Htw0.
    assert (0 < sum_volumes (BulkTankerDeliveryRequest.compartment_assignments req))
      as Hpos.
    { apply sum_volumes_bound; [|exact Hlen].
      eapply Forall_impl; [exact Hrange|]. intros a [Ha _]. exact Ha. }
    split; [exact Hpos|]. split; [lia|]. split; [lia|]. split; [exact Htime|].
    split; [unfold delivery_status_values; in_list|].
    intros Hdens. eapply totals_weight_nonneg; [exact Hdens | exact Hrange | | exact Htot].
    simpl. lia.
  - intros k row Hnone Hsome.
    apply elem_of_map_to_list in Hsome. rewrite Hperm in Hsome.
    apply elem_of_app in Hsome. destruct Hsome as [Hnew|Hin].
    + apply list_elem_of_lookup in Hnew. destruct Hnew as (i & Hi).
      rewrite list_lookup_imap in Hi.
      destruct (rows !! i) as [row'|] eqn:Hr; simpl in Hi; [|discriminate].
      injection Hi as _ <-.
      pose proof (written_rows_constraints _ _ _ _ Hrange Hrows) as Hall.
      rewrite Forall_forall in Hall. apply Hall.
      eapply list_elem_of_lookup_2, Hr.
    + apply elem_of_map_to_list in Hin. congruence.
  - intros Hfk Huniq. unfold delivery_compartment_unique in *.
    rewrite Hperm, map_app, map_app, snd_imap_ids.
    rewrite (written_rows_pairs _ _ _ _ Hrows).
    apply NoDup_app. split; [|split; [|exact Huniq]].
    + rewrite <- (map_map CompartmentAssignmentRequest.compartment_id
                          (fun c => (next_id (deliveries db), c))).
      apply NoDup_fmap_2; [|exact Hnodup]. intros c1 c2 [= ->]. reflexivity.
    + intros [did cid] Hnew Hin.
      apply list_elem_of_fmap in Hnew. destruct Hnew as (a & [= -> ->] & _).
      apply list_elem_of_fmap in Hin. destruct Hin as (row & Heq & Hin).
      apply list_elem_of_fmap in Hin. destruct Hin as ([k row'] & -> & Hin).
      apply elem_of_map_to_list in Hin. simpl in Heq.
      destruct (Hfk k row' Hin) as [d Hdl]. injection Heq as Heq _.
      rewrite <- Heq in Hdl. rewrite next_id_fresh in Hdl by lia. discriminate.
Qed.

Lemma X8_creation_meets_constraints_witness :
  ∃ resp db' delivery,
    post_delivery Scenario.calendar Scenario.db_clean 1
      (Some (Scenario.request 1 [Scenario.assign 1 1 9000; Scenario.assign 2 1 5000]))
      2500
    = Ok (resp, db')
    ∧ deliveries db' !! CreateResponse.delivery_id resp = Some delivery
    ∧ delivery_timing_valid delivery.
Proof.
  destruct (post_delivery Scenario.calendar Scenario.db_clean 1
              (Some (Scenario.request 1
                       [Scenario.assign 1 1 9000; Scenario.assign 2 1 5000]))
              2500) as [[resp db']|e] eqn:H.
  - destruct (proj1 (X8_creation_meets_constraints Scenario.calendar
                       Scenario.db_clean 1
                       (Scenario.request 1
                          [Scenario.assign 1 1 9000; Scenario.assign 2 1 5000])
                       2500 resp db' H))
      as (delivery & Hl & _ & _ & _ & Ht & _).
    exists resp, db', delivery. split; [reflexivity|]. split; assumption.
  - vm_compute in H. discriminate H.
Defined.

(** ** The delivery reference *)

(** X9.  The reference of a created delivery is "BT-DLV-", the creation
    day as [%y%m%d], "-" and the vehicle id padded to three digits, in the
    response and in the row handed to the session.  It depends on nothing
    else: two creations for the same vehicle on the same day compute the
    same reference, whatever the databases, projects, assignments and times
    of day are. *)
Theorem X9_delivery_reference (strftime_yymmdd : datetime -> string) :
  (∀ db project_id req now resp db',
     post_delivery strftime_yymmdd db project_id (Some req) now = Ok (resp, db') →
     CreateResponse.delivery_reference resp
     = "BT-DLV-" +:+ strftime_yymmdd now +:+ "-"
       +:+ format_03d (BulkTankerDeliveryRequest.tanker_vehicle_id req)
     ∧ BulkTankerDeliveries.delivery_reference
         <$> deliveries db' !! CreateResponse.delivery_id resp
       = Some (CreateResponse.delivery_reference resp))
  ∧ (∀ db1 db2 project1 project2 req1 req2 now1 now2 resp1 resp2 db1' db2',
       post_delivery strftime_yymmdd db1 project1 (Some req1) now1
       = Ok (resp1, db1') →
       post_delivery strftime_yymmdd db2 project2 (Some req2) now2
       = Ok (resp2, db2') →
       BulkTankerDeliveryRequest.tanker_vehicle_id req1
       = BulkTankerDeliveryRequest.tanker_vehicle_id req2 →
       strftime_yymmdd now1 = strftime_yymmdd now2 →
       CreateResponse.delivery_reference resp1
       = CreateResponse.delivery_reference resp2).
Proof.
  assert (∀ db project_id req now resp db',
            post_delivery strftime_yymmdd db project_id (Some req) now
            = Ok (resp, db') →
            CreateResponse.delivery_reference resp
            = "BT-DLV-" +:+ strftime_yymmdd now +:+ "-"
              +:+ format_03d (BulkTankerDeliveryRequest.tanker_vehicle_id req)
            ∧ BulkTankerDeliveries.delivery_reference
                <$> deliveries db' !! CreateResponse.delivery_id resp
              = Some (CreateResponse.delivery_reference resp))
    as Hone.
  { intros db project_id req now resp db' H.
    rewrite post_delivery_Some in H. apply validated_Ok in H.
    destruct H as [_ H]. apply create_Ok_store in H.
    destruct H as (delivery & Hid & Hloop & (Href & _) & (Hresp & _)).
    apply assignments_loop_tables in Hloop. destruct Hloop as (_ & _ & _ & Hd).
    simpl in Hd. rewrite Hresp, Href, Hid, Hd.
    split; [reflexivity|]. rewrite lookup_insert_eq, <- Href. reflexivity. }
  split; [exact Hone|].
  intros db1 db2 project1 project2 req1 req2 now1 now2 resp1 resp2 db1' db2'
    H1 H2 Hv Hday.
  destruct (Hone _ _ _ _ _ _ H1) as (Hr1 & _).
  destruct (Hone _ _ _ _ _ _ H2) as (Hr2 & _).
  rewrite Hr1, Hr2, Hv, Hday. reflexivity.
Qed.

Lemma X9_delivery_reference_witness :
  ∃ resp1 db1 resp2 db2,
    post_delivery Scenario.calendar Scenario.db_clean 1
      (Some (Scenario.request 1 [Scenario.assign 1 1 9000])) 2500
    = Ok (resp1, db1)
    ∧ post_delivery Scenario.calendar Scenario.db_clean 1
        (Some (Scenario.request 1 [Scenario.assign 2 1 5000])) 2700
      = Ok (resp2, db2)
    ∧ CreateResponse.delivery_reference resp1 = "BT-DLV-250621-001"%string
    ∧ CreateResponse.delivery_reference resp2 = "BT-DLV-250621-001"%string.
Proof.
  destruct (post_delivery Scenario.calendar Scenario.db_clean 1
              (Some (Scenario.request 1 [Scenario.assign 1 1 9000])) 2500)
    as [[resp1 db1]|e] eqn:H1; [|vm_compute in H1; discriminate H1].
  destruct (post_delivery Scenario.calendar Scenario.db_clean 1
              (Some (Scenario.request 1 [Scenario.assign 2 1 5000])) 2700)
    as [[resp2 db2]|e] eqn:H2; [|vm_compute in H2; discriminate H2].
  exists resp1, db1, resp2, db2. split; [reflexivity|]. split; [reflexivity|].
  pose proof (proj1 (X9_delivery_reference Scenario.calendar)
                _ _ _ _ _ _ H1) as [Hr1 _].
  pose proof (proj2 (X9_delivery_reference Scenario.calendar)
                _ _ _ _ _ _ _ _ _ _ _ _ H1 H2 eq_refl eq_refl) as Heq.
  split; [rewrite Hr1; reflexivity | rewrite <- Heq, Hr1; reflexivity].
Defined.

(** ** Status updates *)

Lemma put_Ok_inv (db : Db) (delivery_id : Z) (status_update : DeliveryStatusUpdate.t)
    (now : datetime) (resp : UpdateResponse.t) (db' : Db) :
  put_delivery_status db delivery_id status_update now = Ok (resp, db') →
  ∃ delivery,
    deliveries db !! delivery_id = Some delivery
    ∧ db' = add_delivery db delivery_id
              (apply_status_update delivery status_update now)
    ∧ resp = {| UpdateResponse.delivery_id := delivery_id;
                UpdateResponse.delivery_status :=
                  DeliveryStatusUpdate.delivery_status status_update;
                UpdateResponse.updated_at := now |}.
Proof.
  unfold put_delivery_status. intros H. apply validated_Ok in H.
  destruct H as [_ H]. unfold update_delivery_status in H.
  destruct (deliveries db !! delivery_id) as [d|]; [|discriminate].
  injection H as <- <-. exists d. split; [reflexivity|]. split; [reflexivity|].
  rewrite apply_status_update_status. f_equal.
  unfold apply_status_update.
  destruct (DeliveryStatusUpdate.actual_completion status_update);
    [destruct (DeliveryStatusUpdate.distance_traveled_km status_update);
     [destruct (DeliveryStatusUpdate.fuel_consumed_liters status_update);
      [destruct (_ && _)|]|]|]; reflexivity.
Qed.

(** The attributes an update does not assign, and the ones it assigns
    from the request alone. *)
Lemma apply_status_update_fields (d : BulkTankerDeliveries.t)
    (u : DeliveryStatusUpdate.t) (now : datetime) :
  let d' := apply_status_update d u now in
  (BulkTankerDeliveries.delivery_reference d'
   = BulkTankerDeliveries.delivery_reference d
   ∧ BulkTankerDeliveries.delivery_type d' = BulkTankerDeliveries.delivery_type d
   ∧ BulkTankerDeliveries.project_id d' = BulkTankerDeliveries.project_id d
   ∧ BulkTankerDeliveries.tanker_vehicle_id d'
     = BulkTankerDeliveries.tanker_vehicle_id d
   ∧ BulkTankerDeliveries.driver_id d' = BulkTankerDeliveries.driver_id d
   ∧ BulkTankerDeliveries.planned_departure d'
     = BulkTankerDeliveries.planned_departure d
   ∧ BulkTankerDeliveries.planned_completion d'
     = BulkTankerDeliveries.planned_completion d
   ∧ BulkTankerDeliveries.total_volume_liters d'
     = BulkTankerDeliveries.total_volume_liters d
   ∧ BulkTankerDeliveries.total_weight_kg d'
     = BulkTankerDeliveries.total_weight_kg d
   ∧ BulkTankerDeliveries.capacity_utilization_percent d'
     = BulkTankerDeliveries.capacity_utilization_percent d
   ∧ BulkTankerDeliveries.compartments_used d'
     = BulkTankerDeliveries.compartments_used d
   ∧ BulkTankerDeliveries.created_at d' = BulkTankerDeliveries.created_at d)
  ∧ BulkTankerDeliveries.updated_at d' = now
  ∧ BulkTankerDeliveries.actual_departure d'
    = match DeliveryStatusUpdate.actual_departure u with
      | Some t => Some t
      | None => BulkTankerDeliveries.actual_departure d
      end
  ∧ BulkTankerDeliveries.actual_completion d'
    = match DeliveryStatusUpdate.actual_completion u with
      | Some t => Some t
      | None => BulkTankerDeliveries.actual_completion d
      end
  ∧ BulkTankerDeliveries.safety_incidents d'
    = match DeliveryStatusUpdate.safety_incidents u with
      | Some (incident :: incidents) => incident :: incidents
      | _ => BulkTankerDeliveries.safety_incidents d
      end.
Proof.
  unfold apply_status_update.
  destruct (DeliveryStatusUpdate.actual_completion u);
    [destruct (DeliveryStatusUpdate.distance_traveled_km u);
     [destruct (DeliveryStatusUpdate.fuel_consumed_liters u);
      [destruct (_ && _)|]|]|]; simpl; repeat split; reflexivity.
Qed.

(** When an update writes the environmental metrics, and what it writes. *)
Lemma apply_status_update_telemetry (d : BulkTankerDeliveries.t)
    (u : DeliveryStatusUpdate.t) (now : datetime) :
  let d' := apply_status_update d u now in
  (∀ distance fuel,
     reports_telemetry u distance fuel →
     BulkTankerDeliveries.distance_traveled_km d' = Some distance
     ∧ BulkTankerDeliveries.fuel_consumed_liters d' = Some fuel
     ∧ BulkTankerDeliveries.co2_emissions_kg d'
       = Some (Decimal.mul fuel (Decimal.mk 264 (-2))))
  ∧ ((¬ ∃ distance fuel, reports_telemetry u distance fuel) →
     BulkTankerDeliveries.distance_traveled_km d'
     = BulkTankerDeliveries.distance_traveled_km d
     ∧ BulkTankerDeliveries.fuel_consumed_liters d'
       = BulkTankerDeliveries.fuel_consumed_liters d
     ∧ BulkTankerDeliveries.co2_emissions_kg d'
       = BulkTankerDeliveries.co2_emissions_kg d).
Proof.
  unfold apply_status_update, reports_telemetry, Decimal.truthy.
  destruct (DeliveryStatusUpdate.actual_completion u) as [t|].
  2:{ simpl. split; [intros ? ? ([? [=]] & _) | auto]. }
  destruct (DeliveryStatusUpdate.distance_traveled_km u) as [distance|].
  2:{ simpl. split; [intros ? ? (_ & [=] & _) | auto]. }
  destruct (DeliveryStatusUpdate.fuel_consumed_liters u) as [fuel|].
  2:{ simpl. split; [intros ? ? (_ & _ & [=] & _) | auto]. }
  destruct (Z.eqb_spec (Decimal.dcoef distance) 0) as [Hd|Hd]; simpl.
  { split; [intros ? ? (_ & [= <-] & _ & ? & _); contradiction | auto]. }
  destruct (Z.eqb_spec (Decimal.dcoef fuel) 0) as [Hf|Hf]; simpl.
  { split; [intros ? ? (_ & _ & [= <-] & _ & ?); contradiction | auto]. }
  split; [intros ? ? (_ & [= <-] & [= <-] & _); auto|].
  intros Hno. exfalso. apply Hno. exists distance, fuel. eauto 10.
Qed.

(** X10.  A successful status update writes one row: the delivery of the
    given id.  Every other delivery and the vehicle, compartment, product
    and assignment tables are as before.  In the row, the reference, type,
    project, vehicle, driver, planned times, totals, utilization, number of
    compartments and creation time are kept; the status is the requested
    one and [updated_at] is the time of the update, and the response
    repeats the id, that status and that time. *)
Theorem X10_update_writes_one_row (db : Db) (delivery_id : Z)
    (status_update : DeliveryStatusUpdate.t) (now : datetime)
    (resp : UpdateResponse.t) (db' : Db) :
  put_delivery_status db delivery_id status_update now = Ok (resp, db') →
  (vehicles db' = vehicles db
   ∧ compartments db' = compartments db
   ∧ products db' = products db
   ∧ assignments db' = assignments db
   ∧ ∀ k, k ≠ delivery_id → deliveries db' !! k = deliveries db !! k)
  ∧ (∃ old new,
       deliveries db !! delivery_id = Some old
       ∧ deliveries db' !! delivery_id = Some new
       ∧ BulkTankerDeliveries.delivery_reference new
         = BulkTankerDeliveries.delivery_reference old
       ∧ BulkTankerDeliveries.delivery_type new
         = BulkTankerDeliveries.delivery_type old
       ∧ BulkTankerDeliveries.project_id new = BulkTankerDeliveries.project_id old
       ∧ BulkTankerDeliveries.tanker_vehicle_id new
         = BulkTankerDeliveries.tanker_vehicle_id old
       ∧ BulkTankerDeliveries.driver_id new = BulkTankerDeliveries.driver_id old
       ∧ BulkTankerDeliveries.planned_departure new
         = BulkTankerDeliveries.planned_departure old
       ∧ BulkTankerDeliveries.planned_completion new
         = BulkTankerDeliveries.planned_completion old
       ∧ BulkTankerDeliveries.total_volume_liters new
         = BulkTankerDeliveries.total_volume_liters old
       ∧ BulkTankerDeliveries.total_weight_kg new
         = BulkTankerDeliveries.total_weight_kg old
       ∧ BulkTankerDeliveries.capacity_utilization_percent new
         = BulkTankerDeliveries.capacity_utilization_percent old
       ∧ BulkTankerDeliveries.compartments_used new
         = BulkTankerDeliveries.compartments_used old
       ∧ BulkTankerDeliveries.created_at new = BulkTankerDeliveries.created_at old
       ∧ BulkTankerDeliveries.delivery_status new
         = DeliveryStatusUpdate.delivery_status status_update
       ∧ BulkTankerDeliveries.updated_at new = now)
  ∧ UpdateResponse.delivery_id resp = delivery_id
  ∧ UpdateResponse.delivery_status resp
    = DeliveryStatusUpdate.delivery_status status_update
  ∧ UpdateResponse.updated_at resp = now.
Proof.
  intros H. apply put_Ok_inv in H. destruct H as (old & Hold & -> & ->). simpl.
  split; [|split].
  - repeat split; try reflexivity. intros k Hk. apply lookup_insert_ne. congruence.
  - exists old, (apply_status_update old status_update now).
    split; [exact Hold|]. split; [apply lookup_insert_eq|].
    pose proof (apply_status_update_fields old status_update now)
      as ((? & ? & ? & ? & ? & ? & ? & ? & ? & ? & ? & ?) & ? & _).
    pose proof (apply_status_update_status old status_update now).
    auto 20.
  - auto.
Qed.

Lemma X10_update_writes_one_row_witness :
  ∃ resp db',
    put_delivery_status Scenario.db_planned 1 Examples.completed_with_telemetry 2950
    = Ok (resp, db')
    ∧ assignments db' = assignments Scenario.db_planned
    ∧ UpdateResponse.updated_at resp = 2950.
Proof.
  destruct (put_delivery_status Scenario.db_planned 1
              Examples.completed_with_telemetry 2950) as [[resp db']|e] eqn:H.
  - pose proof (X10_update_writes_one_row Scenario.db_planned 1
                  Examples.completed_with_telemetry 2950 resp db' H)
      as ((_ & _ & _ & Ha & _) & _ & _ & _ & Hr).
    exists resp, db'. split; [reflexivity|]. split; assumption.
  - vm_compute in H. discriminate H.
Defined.

(** X11.  A status update assigns the distance, the fuel consumption and
    the CO2 emissions together or not at all.  It assigns them when it
    carries a completion time and a distance and a fuel consumption that
    are both not zero; the emissions are then the decimal product of the
    fuel and 2.64, which is exact for a fuel figure of at most 25 digits.
    In every other case the three attributes keep their values, also when
    the update carries a distance or a fuel consumption. *)
Theorem X11_update_telemetry (db : Db) (delivery_id : Z)
    (status_update : DeliveryStatusUpdate.t) (now : datetime)
    (resp : UpdateResponse.t) (db' : Db) :
  put_delivery_status db delivery_id status_update now = Ok (resp, db') →
  ∃ old new,
    deliveries db !! delivery_id = Some old
    ∧ deliveries db' !! delivery_id = Some new
    ∧ (∀ distance fuel,
         reports_telemetry status_update distance fuel →
         BulkTankerDeliveries.distance_traveled_km new = Some distance
         ∧ BulkTankerDeliveries.fuel_consumed_liters new = Some fuel
         ∧ BulkTankerDeliveries.co2_emissions_kg new
           = Some (Decimal.mul fuel (Decimal.mk 264 (-2)))
         ∧ (Z.abs (Decimal.dcoef fuel) < 10 ^ 25 →
            Decimal.mul fuel (Decimal.mk 264 (-2))
            = Decimal.mk (Decimal.dcoef fuel * 264) (Decimal.dexp fuel - 2)))
    ∧ ((¬ ∃ distance fuel, reports_telemetry status_update distance fuel) →
       BulkTankerDeliveries.distance_traveled_km new
       = BulkTankerDeliveries.distance_traveled_km old
       ∧ BulkTankerDeliveries.fuel_consumed_liters new
         = BulkTankerDeliveries.fuel_consumed_liters old
       ∧ BulkTankerDeliveries.co2_emissions_kg new
         = BulkTankerDeliveries.co2_emissions_kg old).
Proof.
  intros H. apply put_Ok_inv in H. destruct H as (old & Hold & -> & ->). simpl.
  exists old, (apply_status_update old status_update now).
  split; [exact Hold|]. split; [apply lookup_insert_eq|].
  pose proof (apply_status_update_telemetry old status_update now) as [Hw Hk].
  split; [|exact Hk].
  intros distance fuel Hrep. destruct (Hw distance fuel Hrep) as (? & ? & ?).
  repeat (split; [assumption|]).
  intros Hsmall. unfold Decimal.mul. simpl.
  rewrite fix_small; [f_equal; lia|]. simpl.
  unfold Decimal.prec. rewrite Z.abs_mul.
  change (10 ^ 28) with (10 ^ 25 * 1000). change (10 ^ 25) with (10 ^ 25) in Hsmall.
  assert (0 ≤ Z.abs (Decimal.dcoef fuel)) by apply Z.abs_nonneg.
  simpl (Z.abs 264). nia.
Qed.

Lemma X11_update_telemetry_witness :
  ∃ resp db' new,
    put_delivery_status Scenario.db_planned 1 Examples.completed_with_telemetry 2950
    = Ok (resp, db')
    ∧ deliveries db' !! 1 = Some new
    ∧ BulkTankerDeliveries.co2_emissions_kg new = Some (Decimal.mk 1062600 (-4)).
Proof.
  destruct (put_delivery_status Scenario.db_planned 1
              Examples.completed_with_telemetry 2950) as [[resp db']|e] eqn:H.
  - destruct (X11_update_telemetry Scenario.db_planned 1
                Examples.completed_with_telemetry 2950 resp db' H)
      as (old & new & _ & Hnew & Hw & _).
    destruct (Hw (Decimal.mk 1205 (-1)) (Decimal.mk 4025 (-2)))
      as (_ & _ & Hco2 & _).
    + unfold reports_telemetry. simpl. repeat split; eauto; lia.
    + exists resp, db', new. split; [reflexivity|]. split; [exact Hnew|].
      rewrite Hco2. reflexivity.
  - vm_compute in H. discriminate H.
Defined.

(** An update leaves no environmental metric empty that had a value. *)
Lemma apply_status_update_keeps (d : BulkTankerDeliveries.t)
    (u : DeliveryStatusUpdate.t) (now : datetime) :
  let d' := apply_status_update d u now in
  (is_Some (BulkTankerDeliveries.distance_traveled_km d) →
   is_Some (BulkTankerDeliveries.distance_traveled_km d'))
  ∧ (is_Some (BulkTankerDeliveries.fuel_consumed_liters d) →
     is_Some (BulkTankerDeliveries.fuel_consumed_liters d'))
  ∧ (is_Some (BulkTankerDeliveries.co2_emissions_kg d) →
     is_Some (BulkTankerDeliveries.co2_emissions_kg d')).
Proof.
  unfold apply_status_update.
  destruct (DeliveryStatusUpdate.actual_completion u);
    [destruct (DeliveryStatusUpdate.distance_traveled_km u);
     [destruct (DeliveryStatusUpdate.fuel_consumed_liters u);
      [destruct (_ && _)|]|]|]; simpl; repeat split; eauto.
Qed.

(** X12.  A status update never clears an attribute: an actual departure,
    an actual completion or a list of safety incidents that is missing from
    the update, and an empty list of incidents, leave the stored value; a
    given one replaces it, and a given list of incidents replaces the
    stored list instead of being added to it.  The two actual times are not
    compared: the stored row has a departure after its completion exactly
    when the times that result do. *)
Theorem X12_update_times_and_incidents (db : Db) (delivery_id : Z)
    (status_update : DeliveryStatusUpdate.t) (now : datetime)
    (resp : UpdateResponse.t) (db' : Db) :
  put_delivery_status db delivery_id status_update now = Ok (resp, db') →
  ∃ old new,
    deliveries db !! delivery_id = Some old
    ∧ deliveries db' !! delivery_id = Some new
    ∧ BulkTankerDeliveries.actual_departure new
      = match DeliveryStatusUpdate.actual_departure status_update with
        | Some t => Some t
        | None => BulkTankerDeliveries.actual_departure old
        end
    ∧ BulkTankerDeliveries.actual_completion new
      = match DeliveryStatusUpdate.actual_completion status_update with
        | Some t => Some t
        | None => BulkTankerDeliveries.actual_completion old
        end
    ∧ BulkTankerDeliveries.safety_incidents new
      = match DeliveryStatusUpdate.safety_incidents status_update with
        | Some (incident :: incidents) => incident :: incidents
        | _ => BulkTankerDeliveries.safety_incidents old
        end
    ∧ (is_Some (BulkTankerDeliveries.actual_departure old) →
       is_Some (BulkTankerDeliveries.actual_departure new))
    ∧ (is_Some (BulkTankerDeliveries.actual_completion old) →
       is_Some (BulkTankerDeliveries.actual_completion new))
    ∧ (is_Some (BulkTankerDeliveries.distance_traveled_km old) →
       is_Some (BulkTankerDeliveries.distance_traveled_km new))
    ∧ (is_Some (BulkTankerDeliveries.fuel_consumed_liters old) →
       is_Some (BulkTankerDeliveries.fuel_consumed_liters new))
    ∧ (is_Some (BulkTankerDeliveries.co2_emissions_kg old) →
       is_Some (BulkTankerDeliveries.co2_emissions_kg new))
    ∧ (BulkTankerDeliveries.safety_incidents old ≠ [] →
       BulkTankerDeliveries.safety_incidents new ≠ [])
    ∧ (∀ departure completion,
         DeliveryStatusUpdate.actual_departure status_update = Some departure →
         DeliveryStatusUpdate.actual_completion status_update = Some completion →
         (actual_timing_valid new ↔ departure ≤ completion)).
Proof.
  intros H. apply put_Ok_inv in H. destruct H as (old & Hold & -> & ->). simpl.
  exists old, (apply_status_update old status_update now).
  split; [exact Hold|]. split; [apply lookup_insert_eq|].
  pose proof (apply_status_update_fields old status_update now)
    as (_ & _ & Hdep & Hcomp & Hinc).
  pose proof (apply_status_update_keeps old status_update now) as Hkeep.
  simpl in Hdep, Hcomp, Hinc, Hkeep.
  split; [exact Hdep|]. split; [exact Hcomp|]. split; [exact Hinc|].
  split; [|split; [|split; [|split; [|split; [|split]]]]].
  - rewrite Hdep. destruct (DeliveryStatusUpdate.actual_departure status_update);
      eauto.
  - rewrite Hcomp. destruct (DeliveryStatusUpdate.actual_completion status_update);
      eauto.
  - apply Hkeep.
  - apply Hkeep.
  - apply Hkeep.
  - rewrite Hinc.
    destruct (DeliveryStatusUpdate.safety_incidents status_update) as [[|? ?]|];
      [auto | intros _; discriminate | auto].
  - intros departure completion Hd Hc. unfold actual_timing_valid.
    rewrite Hdep, Hcomp, Hd, Hc. reflexivity.
Qed.

Lemma X12_update_times_and_incidents_witness :
  ∃ resp db' new,
    put_delivery_status Scenario.db_planned 1 Examples.telemetry_without_completion
      2950
    = Ok (resp, db')
    ∧ deliveries db' !! 1 = Some new
    ∧ BulkTankerDeliveries.actual_completion new = None
    ∧ BulkTankerDeliveries.safety_incidents new = [].
Proof.
  destruct (put_delivery_status Scenario.db_planned 1
              Examples.telemetry_without_completion 2950)
    as [[resp db']|e] eqn:H.
  - destruct (X12_update_times_and_incidents Scenario.db_planned 1
                Examples.telemetry_without_completion 2950 resp db' H)
      as (old & new & Hold & Hnew & _ & Hc & Hi & _).
    exists resp, db', new. split; [reflexivity|]. split; [exact Hnew|].
    vm_compute in Hold. injection Hold as <-. split; [exact Hc | exact Hi].
  - vm_compute in H. discriminate H.
Defined.

(** X13.  Of two status updates of a delivery with the same body the
    second decides alone: after the first, the second leaves the database
    it would have left without the first.  Sent again at the same reading
    of the clock, an update changes nothing and is answered as before. *)
Theorem X13_update_repeated (db : Db) (delivery_id : Z)
    (status_update : DeliveryStatusUpdate.t) (now : datetime)
    (resp : UpdateResponse.t) (db' : Db) :
  put_delivery_status db delivery_id status_update now = Ok (resp, db') →
  (∀ later,
     put_delivery_status db' delivery_id status_update later
     = put_delivery_status db delivery_id status_update later)
  ∧ put_delivery_status db' delivery_id status_update now = Ok (resp, db').
Proof.
  intros H.
  assert (∀ later,
            put_delivery_status db' delivery_id status_update later
            = put_delivery_status db delivery_id status_update later) as Hlater.
  { intros later. pose proof H as H0. apply put_Ok_inv in H0.
    destruct H0 as (old & Hold & -> & _).
    unfold put_delivery_status. destruct (status_update_errors status_update);
      [|reflexivity].
    rewrite !validated_pass. unfold update_delivery_status. simpl.
    rewrite lookup_insert_eq, Hold.
    assert (apply_status_update (apply_status_update old status_update now)
              status_update later
            = apply_status_update old status_update later) as ->.
    { unfold apply_status_update.
      destruct (DeliveryStatusUpdate.actual_departure status_update);
        destruct (DeliveryStatusUpdate.safety_incidents status_update) as [[|? ?]|];
        (destruct (DeliveryStatusUpdate.actual_completion status_update);
         [destruct (DeliveryStatusUpdate.distance_traveled_km status_update);
          [destruct (DeliveryStatusUpdate.fuel_consumed_liters status_update);
           [destruct (_ && _)|]|]|]); reflexivity. }
    unfold add_delivery. simpl. rewrite insert_insert_eq. reflexivity. }
  split; [exact Hlater|]. rewrite Hlater. exact H.
Qed.

Lemma X13_update_repeated_witness :
  ∃ resp db',
    put_delivery_status Scenario.db_planned 1 Examples.completed_with_telemetry 2950
    = Ok (resp, db')
    ∧ put_delivery_status db' 1 Examples.completed_with_telemetry 2950
      = Ok (resp, db').
Proof.
  destruct (put_delivery_status Scenario.db_planned 1
              Examples.completed_with_telemetry 2950) as [[resp db']|e] eqn:H.
  - exists resp, db'. split; [reflexivity|].
    exact (proj2 (X13_update_repeated Scenario.db_planned 1
                    Examples.completed_with_telemetry 2950 resp db' H)).
  - vm_compute in H. discriminate H.
Defined.

(** ** The cleaning estimate *)

(** X14.  The cleaning estimate looks the compartment up first and the
    target product second, and answers "Compartment not found" or "Target
    product not found" for an id of 32 bits without a row; with an id
    without a row that does not fit into 32 bits the query fails instead.
    When both rows exist it always answers with a cleaning:
    180 minutes, 675 and comprehensive decontamination when the
    compartment's last product is in the target's [cleaning_required_after]
    and of another fuel type, and otherwise, also for a compartment that
    never held a product, 120 minutes, 450 and steam cleaning.  The
    certification is always required and the downtime cost is always
    200. *)
Theorem X14_cleaning_estimate_answer (db : Db)
    (compartment_id target_product_id : Z) :
  (compartments db !! compartment_id = None →
   get_cleaning_estimate db compartment_id target_product_id
   = Raise (if in_int32 compartment_id
            then NotFound "Compartment not found"
            else Unhandled "sqlalchemy.exc.DBAPIError"))
  ∧ (is_Some (compartments db !! compartment_id) →
     products db !! target_product_id = None →
     get_cleaning_estimate db compartment_id target_product_id
     = Raise (if in_int32 target_product_id
              then NotFound "Target product not found"
              else Unhandled "sqlalchemy.exc.DBAPIError"))
  ∧ (∀ compartment target,
       compartments db !! compartment_id = Some compartment →
       products db !! target_product_id = Some target →
       ∃ estimate,
         get_cleaning_estimate db compartment_id target_product_id = Ok estimate
         ∧ CleaningEstimate.compartment_id estimate = compartment_id
         ∧ CleaningEstimate.current_product estimate
           = (FuelProducts.product_code <$> last_product db compartment)
         ∧ CleaningEstimate.target_product estimate
           = FuelProducts.product_code target
         ∧ CleaningEstimate.certification_required estimate = true
         ∧ CleaningEstimate.downtime_cost estimate = 200
         ∧ ((∃ last,
               last_product db compartment = Some last
               ∧ FuelProducts.product_code last
                 ∈ FuelProducts.cleaning_required_after target
               ∧ FuelProducts.fuel_type last ≠ FuelProducts.fuel_type target)
            ∧ CleaningEstimate.time_required estimate = 180
            ∧ CleaningEstimate.cost_estimate estimate = 675
            ∧ CleaningEstimate.procedure estimate
              = "comprehensive_decontamination"%string
            ∨ (¬ ∃ last,
                 last_product db compartment = Some last
                 ∧ FuelProducts.product_code last
                   ∈ FuelProducts.cleaning_required_after target
                 ∧ FuelProducts.fuel_type last ≠ FuelProducts.fuel_type target)
              ∧ CleaningEstimate.time_required estimate = 120
              ∧ CleaningEstimate.cost_estimate estimate = 450
              ∧ CleaningEstimate.procedure estimate
                = "steam_cleaning_with_neutralization"%string)).
Proof.
  unfold get_cleaning_estimate. split; [|split].
  - intros ->. reflexivity.
  - intros [c ->] ->. reflexivity.
  - intros compartment target -> ->.
    destruct (last_product db compartment) as [last|] eqn:Hlast.
    2:{ eexists. split; [reflexivity|]. simpl. repeat (split; [reflexivity|]).
        right. split; [intros (? & [=] & _) | auto]. }
    case_bool_decide as Hin.
    2:{ eexists. split; [reflexivity|]. simpl. repeat (split; [reflexivity|]).
        right. split; [intros (? & [= <-] & ? & _); contradiction | auto]. }
    case_bool_decide as Hty; simpl.
    + eexists. split; [reflexivity|]. simpl. repeat (split; [reflexivity|]).
      right. split; [intros (? & [= <-] & _ & ?); contradiction | auto].
    + eexists. split; [reflexivity|]. simpl. repeat (split; [reflexivity|]).
      left. split; [exists last; auto | auto].
Qed.

Lemma X14_cleaning_estimate_answer_witness :
  ∃ estimate,
    get_cleaning_estimate Scenario.db_used 1 1 = Ok estimate
    ∧ CleaningEstimate.current_product estimate = None
    ∧ CleaningEstimate.certification_required estimate = true.
Proof.
  destruct (proj2 (proj2 (X14_cleaning_estimate_answer Scenario.db_used 1 1))
              (Scenario.compartment 1 1 10000 OPERATIONAL None)
              (Scenario.product "ULSD" DIESEL (Decimal.mk 8400 (-4))
                 ["JET-A1"; "ULSD-50"]%string ["JET-A1"; "ULSD-50"]%string))
    as (estimate & H & _ & Hc & _ & Hr & _).
  - reflexivity.
  - reflexivity.
  - exists estimate. split; [exact H|]. split; [exact Hc | exact Hr].
Defined.

(** ** The allocation proposal *)

Lemma sum_capacity_from (acc : Z) (l : list TankerCompartments.t) :
  foldl (fun acc comp => acc + TankerCompartments.capacity_liters comp) acc l
  = acc + sum_capacity l.
Proof.
  unfold sum_capacity. revert acc. induction l as [|c l IH]; intros acc; simpl; [lia|].
  rewrite IH. rewrite (IH (0 + _)). lia.
Qed.

Lemma sum_capacity_cons (c : TankerCompartments.t) (l : list TankerCompartments.t) :
  sum_capacity (c :: l) = TankerCompartments.capacity_liters c + sum_capacity l.
Proof.
  unfold sum_capacity at 1. simpl. rewrite sum_capacity_from. lia.
Qed.

Lemma sum_capacity_Permutation (l1 l2 : list TankerCompartments.t) :
  l1 ≡ₚ l2 → sum_capacity l1 = sum_capacity l2.
Proof.
  intros H. induction H; rewrite ?sum_capacity_cons; lia.
Qed.

Lemma sum_capacity_nonneg (l : list TankerCompartments.t) :
  Forall (fun c => 0 ≤ TankerCompartments.capacity_liters c) l → 0 ≤ sum_capacity l.
Proof.
  intros H. induction H as [|c l Hc _ IH]; [reflexivity|].
  rewrite sum_capacity_cons. lia.
Qed.

Lemma sum_capacity_take (n : nat) (l : list TankerCompartments.t) :
  Forall (fun c => 0 ≤ TankerCompartments.capacity_liters c) l →
  sum_capacity (take n l) ≤ sum_capacity l.
Proof.
  intros H. revert n. induction H as [|c l Hc Hl IH]; intros [|n]; simpl;
    rewrite ?sum_capacity_cons; try reflexivity.
  - pose proof (sum_capacity_nonneg l Hl). change (sum_capacity []) with 0. lia.
  - specialize (IH n). lia.
Qed.

Lemma sum_capacity_filter (P : TankerCompartments.t -> Prop)
    `{∀ c, Decision (P c)} (l : list TankerCompartments.t) :
  Forall (fun c => 0 ≤ TankerCompartments.capacity_liters c) l →
  sum_capacity (filter P l) ≤ sum_capacity l.
Proof.
  intros Hl. induction Hl as [|c l Hc Hl IH]; [reflexivity|].
  rewrite sum_capacity_cons. destruct (decide (P c)) as [Hp|Hp].
  - rewrite filter_cons_True by exact Hp. rewrite sum_capacity_cons. lia.
  - rewrite filter_cons_False by exact Hp. lia.
Qed.

(** X15.  The allocation proposal answers 422 with the parser's message
    when a query string is refused with a decoding or value error, before
    it reads the database; another exception of the parsing is not caught.
    It answers 404 when no vehicle has the given id in the given project
    and both ids fit into 32 bits; with an id that does not, the query
    fails.  A proposal uses the first three operational compartments of the
    vehicle, or all of them when there are fewer: it reports their number
    and the sum of their capacities, which is at most the sum over all the
    vehicle's compartments, and repeats the locations in the order given.
    The delivery time, the compatibility score, the distance, the travel
    time and the savings are the same in every proposal. *)
Theorem X15_allocation_answer (db : Db) (project_id tanker_vehicle_id : Z)
    (parsed : Parsing) (tanker_compartments : list TankerCompartments.t) :
  (∀ e, parsed = Refused e →
        optimize_tanker_allocation db project_id tanker_vehicle_id parsed
          tanker_compartments
        = Http 422 ("Invalid fuel requirements format: " +:+ e))
  ∧ (∀ exception,
       parsed = Failed exception →
       optimize_tanker_allocation db project_id tanker_vehicle_id parsed
         tanker_compartments
       = Uncaught exception)
  ∧ (∀ location_ids,
       parsed = Parsed location_ids →
       (∀ tanker, vehicles db !! tanker_vehicle_id = Some tanker →
                  BulkTankerVehicles.project_id tanker ≠ project_id) →
       optimize_tanker_allocation db project_id tanker_vehicle_id parsed
         tanker_compartments
       = if in_int32 tanker_vehicle_id && in_int32 project_id
         then Http 404 "Tanker vehicle not found"
         else Uncaught "sqlalchemy.exc.DBAPIError")
  ∧ (∀ response,
       optimize_tanker_allocation db project_id tanker_vehicle_id parsed
         tanker_compartments
       = Returned response →
       let operational :=
         filter (fun comp => TankerCompartments.operational_status comp = OPERATIONAL)
                tanker_compartments in
       parsed = Parsed (CapacityOptimizationResponse.optimal_sequence response)
       ∧ CapacityOptimizationResponse.compartments_used response
         = Z.min 3 (Z.of_nat (length operational))
       ∧ CapacityOptimizationResponse.total_volume_utilized response
         = sum_capacity (take 3 operational)
       ∧ (Forall (fun c => 0 ≤ TankerCompartments.capacity_liters c)
                 tanker_compartments →
          0 ≤ CapacityOptimizationResponse.total_volume_utilized response
            ≤ sum_capacity tanker_compartments)
       ∧ CapacityOptimizationResponse.estimated_delivery_time_minutes response = 95
       ∧ CapacityOptimizationResponse.fuel_compatibility_score response
         = Decimal.mk 95 (-2)
       ∧ CapacityOptimizationResponse.total_distance_km response
         = Decimal.mk 452 (-1)
       ∧ CapacityOptimizationResponse.estimated_travel_time_minutes response = 75
       ∧ CapacityOptimizationResponse.fuel_cost_savings response
         = Decimal.mk 12550 (-2)
       ∧ CapacityOptimizationResponse.time_savings_minutes response
         = Decimal.mk 25 0
       ∧ CapacityOptimizationResponse.efficiency_improvement response
         = Decimal.mk 185 (-1)).
Proof.
  unfold optimize_tanker_allocation. split; [|split; [|split]].
  - intros e ->. reflexivity.
  - intros exception ->. reflexivity.
  - intros location_ids -> Hother. unfold select_tanker.
    destruct (vehicles db !! tanker_vehicle_id) as [tanker|] eqn:Hv; [|reflexivity].
    rewrite bool_decide_eq_false_2 by (apply Hother; reflexivity). reflexivity.
  - intros response. destruct parsed as [e|exception|location_ids];
      [discriminate | discriminate |].
    destruct (select_tanker _ _ _) as [tanker|];
      [|destruct (_ && _); discriminate].
    destruct (utilization_percent _ _) as [u|]; [|discriminate].
    intros [= <-]. simpl.
    set (operational := filter _ tanker_compartments).
    split; [reflexivity|]. split; [rewrite length_take; lia|].
    split; [reflexivity|]. split; [|repeat split; reflexivity].
    intros Hcap.
    assert (Forall (fun c => 0 ≤ TankerCompartments.capacity_liters c) operational)
      as Hop.
    { apply Forall_forall. intros c Hc. subst operational.
      apply list_elem_of_filter in Hc. destruct Hc as [_ Hc].
      rewrite Forall_forall in Hcap. apply Hcap, Hc. }
    split.
    + apply sum_capacity_nonneg. apply Forall_take, Hop.
    + etransitivity; [apply sum_capacity_take, Hop|].
      subst operational. apply sum_capacity_filter, Hcap.
Qed.

Lemma X15_allocation_answer_witness :
  ∃ response,
    optimize_tanker_allocation Scenario.db_clean 1 1 (Parsed [7; 9])
      Examples.compartments_of_vehicle_1
    = Returned response
    ∧ CapacityOptimizationResponse.compartments_used response = 3
    ∧ CapacityOptimizationResponse.total_volume_utilized response = 30000
    ∧ CapacityOptimizationResponse.optimal_sequence response = [7; 9].
Proof.
  destruct (optimize_tanker_allocation Scenario.db_clean 1 1 (Parsed [7; 9])
              Examples.compartments_of_vehicle_1) as [response| |] eqn:H;
    [|vm_compute in H; discriminate H..].
  destruct (proj2 (proj2 (proj2 (X15_allocation_answer Scenario.db_clean 1 1
                                   (Parsed [7; 9])
                                   Examples.compartments_of_vehicle_1)))
              response H) as (Hs & Hu & Hv & _).
  exists response. split; [reflexivity|].
  split; [rewrite Hu; reflexivity|]. split; [rewrite Hv; reflexivity|].
  injection Hs as <-. reflexivity.
Defined.

(** X16.  When the vehicle has at most three operational compartments, the
    allocation proposal does not depend on the order in which the database
    returns the compartments.  (With more, the first three in that order
    are taken.) *)
Theorem X16_allocation_order (db : Db) (project_id tanker_vehicle_id : Z)
    (parsed : Parsing)
    (tanker_compartments reordered : list TankerCompartments.t) :
  tanker_compartments ≡ₚ reordered →
  (length (filter (fun comp => TankerCompartments.operational_status comp
                               = OPERATIONAL) tanker_compartments) ≤ 3)%nat →
  optimize_tanker_allocation db project_id tanker_vehicle_id parsed
    tanker_compartments
  = optimize_tanker_allocation db project_id tanker_vehicle_id parsed reordered.
Proof.
  intros Hperm Hlen. unfold optimize_tanker_allocation.
  assert (filter (fun comp => TankerCompartments.operational_status comp
                              = OPERATIONAL) tanker_compartments
          ≡ₚ filter (fun comp => TankerCompartments.operational_status comp
                                 = OPERATIONAL) reordered) as Hf
    by (rewrite Hperm; reflexivity).
  rewrite (take_ge (filter _ tanker_compartments)) by lia.
  rewrite (take_ge (filter _ reordered))
    by (rewrite <- (Permutation_length Hf); lia).
  rewrite (sum_capacity_Permutation _ _ Hf), (Permutation_length Hf).
  reflexivity.
Qed.

Lemma X16_allocation_order_witness :
  optimize_tanker_allocation Scenario.db_clean 1 2 (Parsed [7])
    [Scenario.compartment 2 1 10000 MAINTENANCE_REQUIRED None;
     Scenario.compartment 2 2 8000 OPERATIONAL None]
  = optimize_tanker_allocation Scenario.db_clean 1 2 (Parsed [7])
      [Scenario.compartment 2 2 8000 OPERATIONAL None;
       Scenario.compartment 2 1 10000 MAINTENANCE_REQUIRED None].
Proof.
  apply X16_allocation_order.
  - apply perm_swap.
  - vm_compute. lia.
Defined.

(** ** What the handlers read of a compartment, as a property *)

(** X17.  The contamination validation, the cleaning estimate and the
    creation read two things of a compartment: its capacity and its last
    product.  With another compartment table whose rows have the same
    capacities and last products (owners, numbers, operational statuses,
    current products and cleaning flags may all differ) the validation and
    the estimate answer the same, and the creation answers the same and
    writes the same rows. *)
Theorem X17_compartment_fields_read (db : Db)
    (table : gmap Z TankerCompartments.t) :
  (∀ id, option_Forall2 same_load (compartments db !! id) (table !! id)) →
  (∀ body,
     post_validate_contamination (with_compartments db table) body
     = post_validate_contamination db body)
  ∧ (∀ compartment_id target_product_id,
       get_cleaning_estimate (with_compartments db table) compartment_id
         target_product_id
       = get_cleaning_estimate db compartment_id target_product_id)
  ∧ (∀ strftime_yymmdd project_id body now,
       post_delivery strftime_yymmdd (with_compartments db table) project_id
         body now
       = match post_delivery strftime_yymmdd db project_id body now with
         | Ok (resp, db') => Ok (resp, with_compartments db' table)
         | Raise e => Raise e
         end).
Proof.
  intros Hsame. split; [|split].
  - intros body. unfold post_validate_contamination.
    rewrite (validate_same_load db table Hsame). reflexivity.
  - intros compartment_id target_product_id. unfold get_cleaning_estimate. simpl.
    destruct (Hsame compartment_id) as [c1 c2 [_ Hlast]|]; [|reflexivity].
    unfold last_product. simpl. rewrite Hlast. reflexivity.
  - intros strftime_yymmdd project_id [req|] now; unfold post_delivery; simpl.
    + destruct (delivery_request_errors req); [|reflexivity].
      rewrite !validated_pass. apply create_same_load, Hsame.
    + reflexivity.
Qed.

Lemma X17_compartment_fields_read_witness :
  post_validate_contamination
    (with_compartments Scenario.db_used
       (Examples.relabelled <$> compartments Scenario.db_used))
    [Scenario.assign 2 1 5000]
  = post_validate_contamination Scenario.db_used [Scenario.assign 2 1 5000].
Proof.
  refine (proj1 (X17_compartment_fields_read Scenario.db_used
                   (Examples.relabelled <$> compartments Scenario.db_used) _)
            [Scenario.assign 2 1 5000]).
  intros id. rewrite lookup_fmap.
  destruct (compartments Scenario.db_used !! id) as [c|]; constructor.
  split; reflexivity.
Defined.

(** ** The utilization of a created delivery *)

Lemma ndigits_bounds (n : Z) :
  0 < n → 10 ^ (Decimal.ndigits n - 1) ≤ n < 10 ^ Decimal.ndigits n.
Proof.
  intros Hn. pose proof (ndigits_pos n) as Hd. split.
  - destruct (Z.le_gt_cases (10 ^ (Decimal.ndigits n - 1)) n) as [H|H]; [exact H|].
    destruct (Z.eq_dec (Decimal.ndigits n) 1) as [Heq|Hne].
    + rewrite Heq in H. change (10 ^ (1 - 1)) with 1 in H. lia.
    + pose proof (ndigits_upper n (Decimal.ndigits n - 1)). lia.
  - destruct (Z.lt_ge_cases n (10 ^ Decimal.ndigits n)) as [H|H]; [exact H|].
    pose proof (ndigits_lower n (Decimal.ndigits n)). lia.
Qed.

(** Rounding to [prec] digits: the coefficient is the quotient by a power of
    ten or its successor, the latter only after a remainder. *)
Lemma fix_round (c e : Z) :
  10 ^ Decimal.prec ≤ c →
  ∃ k q c' e',
    Decimal.fix_ (Decimal.mk c e) = Decimal.mk c' e'
    ∧ 1 ≤ k ∧ e + k ≤ e' ∧ 0 ≤ c' < 10 ^ Decimal.prec
    ∧ c' * 10 ^ (e' - (e + k)) = q
    ∧ 10 ^ 27 ≤ c / 10 ^ k < 10 ^ 28
    ∧ (q = c / 10 ^ k ∨ q = c / 10 ^ k + 1 ∧ 0 < c mod 10 ^ k).
Proof.
  intros Hc. unfold Decimal.prec in *.
  assert (0 < c) as Hpos by (change (10 ^ 28) with 10000000000000000000000000000 in Hc; lia).
  pose proof (ndigits_bounds c Hpos) as [Hlo Hhi].
  assert (29 ≤ Decimal.ndigits c) as Hnd.
  { pose proof (ndigits_lower c 28). lia. }
  unfold Decimal.fix_. cbn [Decimal.dcoef Decimal.dexp].
  rewrite (Z.abs_eq c), (Z.sgn_pos c) by lia.
  destruct (Z.ltb_spec c (10 ^ Decimal.prec)) as [H|_]; [unfold Decimal.prec in H; lia|].
  unfold Decimal.prec.
  set (k := Decimal.ndigits c - 28) in *.
  assert (1 ≤ k) as Hk by (unfold k; lia).
  assert (0 < 10 ^ k) as HP by (apply Z.pow_pos_nonneg; lia).
  assert (10 ^ (Decimal.ndigits c - 1) = 10 ^ 27 * 10 ^ k) as E1.
  { rewrite <- Z.pow_add_r by lia. f_equal. unfold k. lia. }
  assert (10 ^ Decimal.ndigits c = 10 ^ 28 * 10 ^ k) as E2.
  { rewrite <- Z.pow_add_r by lia. f_equal. unfold k. lia. }
  assert (10 ^ 27 ≤ c / 10 ^ k < 10 ^ 28) as Hq0.
  { split; [apply Z.div_le_lower_bound; lia | apply Z.div_lt_upper_bound; lia]. }
  pose proof (Z.mod_pos_bound c (10 ^ k) HP) as Hr.
  assert (0 < 5 * 10 ^ (k - 1)) as Hhalf.
  { assert (0 < 10 ^ (k - 1)) by (apply Z.pow_pos_nonneg; lia). lia. }
  assert (Decimal.round_half_even c k = c / 10 ^ k
          ∨ Decimal.round_half_even c k = c / 10 ^ k + 1 ∧ 0 < c mod 10 ^ k) as Hq.
  { unfold Decimal.round_half_even.
    destruct (Z.ltb_spec (5 * 10 ^ (k - 1)) (c mod 10 ^ k)); simpl; [right; lia|].
    destruct (Z.eqb_spec (c mod 10 ^ k) (5 * 10 ^ (k - 1))); simpl; [|left; reflexivity].
    destruct (Z.odd _); [right; lia | left; reflexivity]. }
  set (q := Decimal.round_half_even c k) in *.
  change (10 ^ 27) with 1000000000000000000000000000 in *.
  change (10 ^ 28) with 10000000000000000000000000000 in *.
  destruct (Z.eqb_spec q 10000000000000000000000000000) as [Hten|Hnot].
  - exists k, q, (q / 10), (e + k + 1). rewrite Z.mul_1_l.
    split; [reflexivity|]. split; [exact Hk|]. split; [lia|].
    rewrite Hten. change (10000000000000000000000000000 / 10)
      with 1000000000000000000000000000.
    split; [lia|]. split.
    + replace (e + k + 1 - (e + k)) with 1 by lia. reflexivity.
    + split; [exact Hq0|]. rewrite <- Hten. exact Hq.
  - exists k, q, q, (e + k). rewrite Z.mul_1_l.
    split; [reflexivity|]. split; [exact Hk|]. split; [lia|].
    split; [lia|]. split; [rewrite Z.sub_diag; change (10 ^ 0) with 1; lia|].
    split; [exact Hq0 | exact Hq].
Qed.

(** Rounding does not cross a number of at most [prec] digits.  The
    numbers are compared after scaling by [10 ^ S]. *)
Lemma fix_mono (c e t f S : Z) :
  0 ≤ c → 0 ≤ t < 10 ^ Decimal.prec → 0 ≤ e + S → 0 ≤ f + S →
  ∃ c' e',
    Decimal.fix_ (Decimal.mk c e) = Decimal.mk c' e'
    ∧ e ≤ e' ∧ 0 ≤ c' < 10 ^ Decimal.prec
    ∧ (c * 10 ^ (e + S) ≤ t * 10 ^ (f + S) →
       c' * 10 ^ (e' + S) ≤ t * 10 ^ (f + S))
    ∧ (t * 10 ^ (f + S) ≤ c * 10 ^ (e + S) →
       t * 10 ^ (f + S) ≤ c' * 10 ^ (e' + S)).
Proof.
  intros Hc Ht He Hf.
  destruct (Z.lt_ge_cases c (10 ^ Decimal.prec)) as [Hsmall|Hbig].
  { exists c, e. rewrite fix_small by (simpl; lia). repeat split; auto; lia. }
  destruct (fix_round c e Hbig) as (k & q & c' & e' & Hfix & Hk & He' & Hc' & Hq & Hq0 & Hcase).
  exists c', e'. split; [exact Hfix|]. split; [lia|]. split; [exact Hc'|].
  unfold Decimal.prec in *.
  set (M := 10 ^ (e + S)). set (P := 10 ^ k).
  assert (0 < M) as HM by (apply Z.pow_pos_nonneg; lia).
  assert (0 < P) as HP by (apply Z.pow_pos_nonneg; lia).
  assert (c' * 10 ^ (e' + S) = q * P * M) as HV'.
  { rewrite <- Hq. unfold P, M. rewrite <- !Z.mul_assoc, <- !Z.pow_add_r by lia.
    f_equal. f_equal. lia. }
  pose proof (Z.div_mod c P ltac:(lia)) as Hdm.
  pose proof (Z.mod_pos_bound c P HP) as Hr.
  fold P in Hq0, Hcase.
  set (q0 := c / P) in *. set (r := c mod P) in *.
  rewrite HV'. fold M.
  change (10 ^ 27) with 1000000000000000000000000000 in *.
  change (10 ^ 28) with 10000000000000000000000000000 in *.
  destruct (Z.le_gt_cases (e + k) f) as [Hfe|Hfe].
  - set (G := 10 ^ (f - (e + k))).
    assert (0 < G) as HG by (apply Z.pow_pos_nonneg; lia).
    assert (10 ^ (f + S) = G * P * M) as HF.
    { unfold G, P, M. rewrite <- !Z.pow_add_r by lia. f_equal. lia. }
    rewrite HF.
    assert (0 < P * M) as HPM by lia.
    split; intros H.
    + assert (P * q0 + r ≤ t * G * P) as H1 by nia.
      assert (q ≤ t * G) as H2 by (destruct Hcase as [->|[-> ?]]; nia).
      nia.
    + assert (t * G * P ≤ P * q0 + r) as H1 by nia.
      assert (t * G ≤ q0) as H2 by nia.
      assert (q0 ≤ q) by (destruct Hcase as [->|[-> ?]]; lia).
      nia.
  - set (H10 := 10 ^ (e + k - f)).
    assert (10 ≤ H10) as HH.
    { unfold H10. change 10 with (10 ^ 1) at 1. apply Z.pow_le_mono_r; lia. }
    set (F := 10 ^ (f + S)).
    assert (0 < F) as HF0 by (apply Z.pow_pos_nonneg; lia).
    assert (P * M = H10 * F) as HPM.
    { unfold H10, F, P, M. rewrite <- !Z.pow_add_r by lia. f_equal. lia. }
    assert (q0 ≤ q) by (destruct Hcase as [->|[-> ?]]; lia).
    assert (t * F < q0 * (P * M)) as Hlt by (rewrite HPM; nia).
    split; intros H1; nia.
Qed.

(** The quotient of a total volume by a capacity, against 1 and against
    1.000001, after scaling by [10 ^ S]. *)
Lemma div_compare (tv cap : Z) :
  0 < tv ≤ 600000 → 0 < cap →
  ∃ c e S,
    Decimal.div (Decimal.of_int tv) (Decimal.of_int cap) = Some (Decimal.mk c e)
    ∧ 0 ≤ c < 10 ^ Decimal.prec ∧ 0 ≤ e + S ∧ 6 ≤ S
    ∧ (tv ≤ cap → c * 10 ^ (e + S) ≤ 1 * 10 ^ (0 + S))
    ∧ (cap < tv → 1000001 * 10 ^ (-6 + S) ≤ c * 10 ^ (e + S)).
Proof.
  intros Htv Hcap.
  unfold Decimal.div, Decimal.of_int. cbn [Decimal.dcoef Decimal.dexp].
  destruct (Z.eqb_spec cap 0); [lia|]. destruct (Z.eqb_spec tv 0); [lia|].
  rewrite (Z.abs_eq tv), (Z.abs_eq cap) by lia.
  rewrite (Z.sgn_pos tv), (Z.sgn_pos cap) by lia.
  pose proof (ndigits_pos cap) as Hd2.
  assert (Decimal.ndigits tv ≤ 6) as Hd1.
  { apply ndigits_upper; [change (10 ^ 6) with 1000000; lia | lia]. }
  set (S := Decimal.ndigits cap - Decimal.ndigits tv + Decimal.prec + 1).
  assert (24 ≤ S) as HS by (unfold S, Decimal.prec; lia).
  destruct (Z.leb_spec 0 S); [|lia].
  replace (0 - 0 - S) with (- S) by lia. change (0 - 0) with 0.
  set (T := 10 ^ S).
  assert (0 < T) as HT by (apply Z.pow_pos_nonneg; lia).
  pose proof (Z.div_mod (tv * T) cap ltac:(lia)) as Hdm.
  pose proof (Z.mod_pos_bound (tv * T) cap Hcap) as Hr.
  set (c0 := tv * T / cap) in *. set (r := (tv * T) mod cap) in *.
  assert (0 ≤ c0) as Hc0 by (apply Z.div_pos; lia).
  set (U := 10 ^ (-6 + S)).
  assert (0 < U) as HU by (apply Z.pow_pos_nonneg; lia).
  assert (T = 1000000 * U) as HTU.
  { unfold T, U. change 1000000 with (10 ^ 6). rewrite <- Z.pow_add_r by lia.
    f_equal. lia. }
  assert (tv ≤ cap → c0 ≤ T ∧ (0 < r → c0 + 1 ≤ T)) as Hle by (intros; split; nia).
  assert (cap < tv → 1000001 * U ≤ c0) as Hgt.
  { intros Hlt. apply Z.div_le_lower_bound; [lia|]. nia. }
  assert (∃ c1 e1, (if r =? 0
                    then Decimal.strip_zeros (Z.to_nat (Decimal.ndigits c0)) c0 (- S) 0
                    else (if c0 mod 5 =? 0 then c0 + 1 else c0, - S)) = (c1, e1)
                   ∧ 0 ≤ c1 ∧ - S ≤ e1
                   ∧ (tv ≤ cap → c1 * 10 ^ (e1 + S) ≤ T)
                   ∧ (cap < tv → 1000001 * U ≤ c1 * 10 ^ (e1 + S)))
    as (c1 & e1 & -> & Hc1 & He1 & Hle1 & Hgt1).
  { destruct (Z.eqb_spec r 0) as [Hr0|Hr0].
    - destruct (Decimal.strip_zeros _ _ _ _) as [c1 e1] eqn:Hstrip.
      apply strip_zeros_spec in Hstrip; [|exact Hc0].
      destruct Hstrip as (He & Hv & Hc1 & _).
      exists c1, e1. split; [reflexivity|]. split; [exact Hc1|]. split; [exact He|].
      replace (e1 + S) with (e1 - - S) by lia. rewrite <- Hv.
      split; intros; [apply Hle; assumption | apply Hgt; assumption].
    - eexists _, _. split; [reflexivity|].
      replace (- S + S) with 0 by lia. change (10 ^ 0) with 1.
      destruct (c0 mod 5 =? 0); (split; [lia|]); (split; [lia|]);
        split; intros Hcmp;
        [specialize (Hle Hcmp) | specialize (Hgt Hcmp)
        | specialize (Hle Hcmp) | specialize (Hgt Hcmp)]; lia. }
  rewrite Z.mul_1_l.
  destruct (fix_mono c1 e1 1 0 S Hc1) as (c & e & Hfix & He & Hc & Hle2 & _);
    [unfold Decimal.prec; change (10 ^ 28) with 10000000000000000000000000000; lia
    | lia | lia |].
  destruct (fix_mono c1 e1 1000001 (-6) S Hc1) as (c' & e' & Hfix' & _ & _ & _ & Hge2);
    [unfold Decimal.prec; change (10 ^ 28) with 10000000000000000000000000000; lia
    | lia | lia |].
  rewrite Hfix in Hfix'. injection Hfix' as <- <-.
  exists c, e, S. rewrite Hfix. split; [reflexivity|]. split; [exact Hc|].
  split; [lia|]. split; [lia|].
  replace (0 + S) with S in * by lia. fold T U in Hle2, Hge2 |- *.
  split; intros Hcmp; [apply Hle2; rewrite Z.mul_1_l; apply Hle1, Hcmp
                      | apply Hge2, Hgt1, Hcmp].
Qed.

(** The stored utilization is at most 100 exactly when the total volume is
    at most the capacity. *)
Lemma utilization_compare (tv cap : Z) :
  0 < tv ≤ 600000 → 0 < cap →
  ∃ u, utilization_percent tv cap = Ok u
       ∧ (0 <= Decimal.value u)%Q
       ∧ ((Decimal.value u <= 100 # 1)%Q ↔ tv ≤ cap).
Proof.
  intros Htv Hcap.
  destruct (div_compare tv cap Htv Hcap) as (c & e & S & Hdiv & Hc & HeS & HS & Hle & Hgt).
  unfold utilization_percent. rewrite Hdiv.
  unfold Decimal.mul, Decimal.of_int. cbn [Decimal.dcoef Decimal.dexp].
  rewrite Z.add_0_r.
  assert (0 ≤ c * 100) as Hc100 by lia.
  destruct (fix_mono (c * 100) e 100 0 S Hc100) as (c3 & e3 & Hfix & He3 & Hc3 & Hle3 & _);
    [unfold Decimal.prec; change (10 ^ 28) with 10000000000000000000000000000; lia
    | lia | lia |].
  destruct (fix_mono (c * 100) e 100000100 (-6) S Hc100)
    as (c3' & e3' & Hfix' & _ & _ & _ & Hge3);
    [unfold Decimal.prec; change (10 ^ 28) with 10000000000000000000000000000; lia
    | lia | lia |].
  rewrite Hfix in Hfix'. injection Hfix' as <- <-.
  rewrite Hfix. eexists. split; [reflexivity|].
  set (T := 10 ^ S) in *.
  assert (0 < T) as HT by (apply Z.pow_pos_nonneg; lia).
  set (U := 10 ^ (-6 + S)) in *.
  assert (0 < U) as HU by (apply Z.pow_pos_nonneg; lia).
  assert (T = 1000000 * U) as HTU.
  { unfold T, U. change 1000000 with (10 ^ 6). rewrite <- Z.pow_add_r by lia.
    f_equal. lia. }
  replace (0 + S) with S in * by lia. fold T in Hle, Hle3.
  assert (Decimal.value (Decimal.mk c3 e3) * inject_Z T
          == inject_Z (c3 * 10 ^ (e3 + S)))%Q as Hval.
  { unfold Decimal.value, T. cbn [Decimal.dcoef Decimal.dexp].
    rewrite inject_Z_mult, !Zpower_Qpower by lia.
    rewrite Qpower_plus by (intros H0; discriminate H0). ring. }
  assert (0 < inject_Z T)%Q as HTq.
  { change 0%Q with (inject_Z 0). rewrite <- Zlt_Qlt. exact HT. }
  split.
  - apply (Qmult_le_r _ _ (inject_Z T) HTq). rewrite Hval, Qmult_0_l.
    change 0%Q with (inject_Z 0). rewrite <- Zle_Qle.
    apply Z.mul_nonneg_nonneg; [lia|]. apply Z.pow_nonneg. lia.
  - rewrite <- (Qmult_le_r _ _ (inject_Z T) HTq). rewrite Hval.
    change (100 # 1)%Q with (inject_Z 100). rewrite <- inject_Z_mult, <- Zle_Qle.
    split.
    + intros Hu. destruct (Z.le_gt_cases tv cap) as [Hok|Hover]; [exact Hok|].
      exfalso. specialize (Hgt Hover). fold U in Hgt, Hge3.
      assert (100000100 * U ≤ c3 * 10 ^ (e3 + S)) as H1.
      { apply Hge3. replace (c * 100 * 10 ^ (e + S)) with (100 * (c * 10 ^ (e + S))) by ring.
        lia. }
      lia.
    + intros Hok. apply Hle3.
      replace (c * 100 * 10 ^ (e + S)) with (100 * (c * 10 ^ (e + S))) by ring.
      specialize (Hle Hok). lia.
Qed.

(** X18.  The utilization of a created delivery.  For a vehicle of positive
    capacity, the utilization the creation computes for the delivery row is
    between 0 and 100, the range the check constraint [utilization_valid]
    of the table asks for, exactly when the total volume of the request is
    at most the total capacity of the vehicle; the row carries that total
    volume. *)
Theorem X18_utilization_unchecked (strftime_yymmdd : datetime -> string)
    (db : Db) (project_id : Z) (req : BulkTankerDeliveryRequest.t)
    (now : datetime) (resp : CreateResponse.t) (db' : Db) :
  post_delivery strftime_yymmdd db project_id (Some req) now = Ok (resp, db') →
  ∃ tanker delivery,
    select_tanker db (BulkTankerDeliveryRequest.tanker_vehicle_id req) project_id
    = Some tanker
    ∧ deliveries db' !! CreateResponse.delivery_id resp = Some delivery
    ∧ BulkTankerDeliveries.total_volume_liters delivery
      = sum_volumes (BulkTankerDeliveryRequest.compartment_assignments req)
    ∧ (0 < BulkTankerVehicles.total_capacity_liters tanker →
       (utilization_valid delivery
        ↔ BulkTankerDeliveries.total_volume_liters delivery
          ≤ BulkTankerVehicles.total_capacity_liters tanker)).
Proof.
  intros H. rewrite post_delivery_Some in H. apply validated_Ok in H.
  destruct H as [Hvalid H]. apply delivery_request_accepted in Hvalid.
  destruct Hvalid as [Hvol Hlen].
  apply create_Ok_inv in H.
  destruct H as (tanker & tw & u & delivery & Ht & _ & _ & _ & _ & Hu
                 & Hlook & _ & Htv & _ & Hcu & _).
  exists tanker, delivery. split; [exact Ht|]. split; [exact Hlook|].
  split; [exact Htv|]. intros Hcap.
  destruct (utilization_compare _ _ (sum_volumes_bound _ Hvol Hlen) Hcap)
    as (u' & Hu' & Hpos & Hcmp).
  rewrite Hu in Hu'. injection Hu' as <-.
  unfold utilization_valid. rewrite Hcu, Htv. tauto.
Qed.

Lemma X18_utilization_unchecked_witness :
  ∃ resp db' delivery,
    post_delivery Scenario.calendar Scenario.db_clean 1
      (Some (Scenario.request 1 [Scenario.assign 1 1 9000; Scenario.assign 2 1 8000]))
      2500
    = Ok (resp, db')
    ∧ deliveries db' !! CreateResponse.delivery_id resp = Some delivery
    ∧ BulkTankerDeliveries.total_volume_liters delivery = 17000
    ∧ utilization_valid delivery.
Proof.
  destruct (post_delivery Scenario.calendar Scenario.db_clean 1
              (Some (Scenario.request 1
                       [Scenario.assign 1 1 9000; Scenario.assign 2 1 8000]))
              2500) as [[resp db']|e] eqn:H.
  - destruct (X18_utilization_unchecked Scenario.calendar Scenario.db_clean 1
                (Scenario.request 1
                   [Scenario.assign 1 1 9000; Scenario.assign 2 1 8000])
                2500 resp db' H) as (tanker & delivery & Ht & Hl & Hv & Hiff).
    exists resp, db', delivery. split; [reflexivity|]. split; [exact Hl|].
    split; [exact Hv|].
    vm_compute in Ht. injection Ht as <-.
    apply Hiff; [simpl; lia|]. rewrite Hv. simpl. lia.
  - vm_compute in H. discriminate H.
Defined.

(** ** Every outcome of a creation *)

(** Why an iteration of the validation loop raises. *)
Lemma check_assignment_Raise (db : Db) (a : CompartmentAssignmentRequest.t)
    (e : Error) :
  check_assignment db a = Raise e →
  (compartments db !! CompartmentAssignmentRequest.compartment_id a = None
   ∧ e = not_found (in_int32 (CompartmentAssignmentRequest.compartment_id a))
           ("Compartment "
            +:+ pretty (CompartmentAssignmentRequest.compartment_id a)
            +:+ " not found"))
  ∨ (is_Some (compartments db !! CompartmentAssignmentRequest.compartment_id a)
     ∧ products db !! CompartmentAssignmentRequest.fuel_product_id a = None
     ∧ e = not_found (in_int32 (CompartmentAssignmentRequest.fuel_product_id a))
             ("Fuel product "
              +:+ pretty (CompartmentAssignmentRequest.fuel_product_id a)
              +:+ " not found"))
  ∨ (∃ compartment,
       compartments db !! CompartmentAssignmentRequest.compartment_id a
       = Some compartment
       ∧ is_Some (products db !! CompartmentAssignmentRequest.fuel_product_id a)
       ∧ TankerCompartments.capacity_liters compartment
         < CompartmentAssignmentRequest.assigned_volume_liters a
       ∧ e = CapacityError
               (CompartmentAssignmentRequest.compartment_id a)
               (TankerCompartments.capacity_liters compartment)
               (CompartmentAssignmentRequest.assigned_volume_liters a)
               (CompartmentAssignmentRequest.assigned_volume_liters a
                - TankerCompartments.capacity_liters compartment)).
Proof.
  unfold check_assignment.
  destruct (compartments db !! _) as [c|] eqn:Hc; [|intros [= <-]; auto].
  destruct (products db !! _) as [p|] eqn:Hp; [|intros [= <-]; right; left; eauto].
  destruct (contamination_assessment _ _) as [[[? ?] ?] ?].
  destruct (Z.ltb_spec (TankerCompartments.capacity_liters c)
              (CompartmentAssignmentRequest.assigned_volume_liters a));
    [|discriminate].
  intros [= <-]. right. right. exists c. eauto.
Qed.

(** X19.  What each answer to a creation request tells about the request,
    in the order in which the gates are passed.  A validation report is the
    report of the body, which is not empty.  "Tanker vehicle not found"
    means that no vehicle has the id in the project.  The compliance error
    means that the vehicle was found and is not DOT-compliant.  A missing
    compartment or product, or a capacity error, is that of the first
    assignment, in request order, that does not fit, also when an earlier
    assignment carries a contamination risk, and is raised for a vehicle
    that passed the compliance gate.  The contamination error means that
    every assignment fits and one carries a risk.  A created delivery
    passed all of these, for a vehicle of capacity other than zero.  An
    exception that no handler catches is not described. *)
Theorem X19_creation_outcome (strftime_yymmdd : datetime -> string) (db : Db)
    (project_id : Z) (body : option BulkTankerDeliveryRequest.t)
    (now : datetime) :
  let passes_validation req tanker :=
    body = Some req
    ∧ delivery_request_errors req = []
    ∧ select_tanker db (BulkTankerDeliveryRequest.tanker_vehicle_id req) project_id
      = Some tanker
    ∧ dot_compliant tanker in
  let first_unfit req pre a post :=
    BulkTankerDeliveryRequest.compartment_assignments req = pre ++ a :: post
    ∧ Forall (fits db) pre in
  match post_delivery strftime_yymmdd db project_id body now with
  | Ok (resp, db') =>
      ∃ req tanker,
        passes_validation req tanker
        ∧ Forall (fits db) (BulkTankerDeliveryRequest.compartment_assignments req)
        ∧ Forall (fun a => ¬ carries_risk db a)
                 (BulkTankerDeliveryRequest.compartment_assignments req)
        ∧ BulkTankerVehicles.total_capacity_liters tanker ≠ 0
  | Raise (RequestValidationError errors) =>
      ∃ req, body = Some req ∧ errors = delivery_request_errors req ∧ errors ≠ []
  | Raise (NotFound detail) =>
      ∃ req,
        body = Some req
        ∧ delivery_request_errors req = []
        ∧ (select_tanker db (BulkTankerDeliveryRequest.tanker_vehicle_id req)
             project_id = None
           ∧ detail = "Tanker vehicle not found"%string
           ∨ ∃ tanker pre a post,
               passes_validation req tanker
               ∧ first_unfit req pre a post
               ∧ (compartments db !! CompartmentAssignmentRequest.compartment_id a
                  = None
                  ∧ detail
                    = "Compartment "
                      +:+ pretty (CompartmentAssignmentRequest.compartment_id a)
                      +:+ " not found"
                  ∨ is_Some (compartments db
                             !! CompartmentAssignmentRequest.compartment_id a)
                    ∧ products db !! CompartmentAssignmentRequest.fuel_product_id a
                      = None
                    ∧ detail
                      = "Fuel product "
                        +:+ pretty (CompartmentAssignmentRequest.fuel_product_id a)
                        +:+ " not found"))
  | Raise (ComplianceError vehicle_id last_inspection certification_status actions) =>
      ∃ req tanker,
        body = Some req
        ∧ delivery_request_errors req = []
        ∧ select_tanker db (BulkTankerDeliveryRequest.tanker_vehicle_id req)
            project_id = Some tanker
        ∧ ¬ dot_compliant tanker
        ∧ vehicle_id = BulkTankerDeliveryRequest.tanker_vehicle_id req
  | Raise (CapacityError compartment_id capacity requested overflow) =>
      ∃ req tanker pre a post compartment,
        passes_validation req tanker
        ∧ first_unfit req pre a post
        ∧ compartments db !! CompartmentAssignmentRequest.compartment_id a
          = Some compartment
        ∧ is_Some (products db !! CompartmentAssignmentRequest.fuel_product_id a)
        ∧ compartment_id = CompartmentAssignmentRequest.compartment_id a
        ∧ capacity = TankerCompartments.capacity_liters compartment
        ∧ requested = CompartmentAssignmentRequest.assigned_volume_liters a
        ∧ capacity < requested
        ∧ overflow = requested - capacity
  | Raise (ContaminationError _ _ _ _ _) =>
      ∃ req tanker,
        passes_validation req tanker
        ∧ Forall (fits db) (BulkTankerDeliveryRequest.compartment_assignments req)
        ∧ Exists (carries_risk db)
                 (BulkTankerDeliveryRequest.compartment_assignments req)
  | Raise (Unhandled _) => True
  end.
Proof.
  intros passes_validation first_unfit. subst passes_validation first_unfit.
  destruct body as [req|]; [|exact I].
  rewrite post_delivery_Some.
  destruct (delivery_request_errors req) as [|v vs] eqn:Herr.
  2:{ exists req. rewrite Herr. repeat split; auto; try discriminate. }
  rewrite validated_pass. unfold create_from_request.
  destruct (select_tanker _ _ _) as [tanker|] eqn:Ht.
  2:{ unfold not_found. destruct (_ && _); [|exact I]. exists req. auto. }
  destruct (_ || _) eqn:Hg.
  { exists req, tanker. repeat split; auto.
    intros Hc. apply compliance_gate in Hc. congruence. }
  apply compliance_gate in Hg. pose proof Hg as [Hdot Hcert].
  destruct (validate_cross_contamination _ _) as [checks|e] eqn:Hv; simpl.
  2:{ unfold validate_cross_contamination in Hv. apply for_each_Raise in Hv.
      destruct Hv as (pre & a & post & Heq & Hpre & Ha).
      assert (Forall (fits db) pre) as Hfits.
      { eapply Forall_impl; [exact Hpre|]. intros x. apply check_assignment_fits. }
      apply check_assignment_Raise in Ha.
      destruct Ha as [[Hc ->] | [(Hc & Hp & ->) | (c & Hc & Hp & Hlt & ->)]].
      - unfold not_found. destruct (in_int32 _); [|exact I].
        exists req. split; [reflexivity|]. split; [exact Herr|]. right.
        exists tanker, pre, a, post. auto 10.
      - unfold not_found. destruct (in_int32 _); [|exact I].
        exists req. split; [reflexivity|]. split; [exact Herr|]. right.
        exists tanker, pre, a, post. auto 10.
      - exists req, tanker, pre, a, post, c. auto 15. }
  assert (Forall (fits db) (BulkTankerDeliveryRequest.compartment_assignments req))
    as Hfits by (apply validate_Ok_fits; eauto).
  destruct (validate_first_issue _ _ _ Hv)
    as [[Hno Hnil] | (pre & a & post & issue & issues & Heq & _ & Hrisk & _ & Hf)].
  2:{ rewrite Hf. exists req, tanker. repeat split; auto.
      rewrite Heq. apply Exists_app. right. constructor. exact Hrisk. }
  rewrite Hnil.
  destruct (totals_total db _ (0, Decimal.zero) Hfits) as ([tv tw] & ->). simpl.
  destruct (utilization_percent _ _) as [u|e] eqn:Hu; simpl.
  2:{ unfold utilization_percent in Hu.
      destruct (Decimal.div _ _); [discriminate|]. injection Hu as <-.
      exact I. }
  match goal with
  | |- context [for_fold (create_assignment db ?i) ?s ?l] =>
      destruct (assignments_loop_total db i l s Hfits) as (session & ->)
  end.
  simpl. exists req, tanker. repeat split; auto.
  intros Hz. assert (∃ u', utilization_percent tv
                              (BulkTankerVehicles.total_capacity_liters tanker)
                            = Ok u') as Hex by eauto.
  apply utilization_percent_Ok in Hex. contradiction.
Qed.

Lemma X19_creation_outcome_witness :
  ∃ resp db' tanker,
    post_delivery Scenario.calendar Scenario.db_clean 1
      (Some (Scenario.request 1 [Scenario.assign 1 1 9000])) 2500
    = Ok (resp, db')
    ∧ select_tanker Scenario.db_clean 1 1 = Some tanker
    ∧ BulkTankerVehicles.total_capacity_liters tanker ≠ 0.
Proof.
  pose proof (X19_creation_outcome Scenario.calendar Scenario.db_clean 1
                (Some (Scenario.request 1 [Scenario.assign 1 1 9000])) 2500) as H.
  destruct (post_delivery Scenario.calendar Scenario.db_clean 1
              (Some (Scenario.request 1 [Scenario.assign 1 1 9000])) 2500)
    as [[resp db']|e] eqn:Hpost.
  - simpl in H. destruct H as (req & tanker & (Hreq & _ & Ht & _) & _ & _ & Hcap).
    injection Hreq as <-. exists resp, db', tanker.
    split; [reflexivity|]. split; [exact Ht | exact Hcap].
  - vm_compute in Hpost. discriminate Hpost.
Defined.

(** ** The weights of a created delivery *)

Lemma sum_row_weights_Permutation (l1 l2 : list CompartmentDeliveryAssignments.t) :
  l1 ≡ₚ l2 → (sum_row_weights l1 == sum_row_weights l2)%Q.
Proof.
  intros H. induction H as [|x l1 l2 _ IH|x y l|l1 l2 l3 _ IH1 _ IH2]; simpl.
  - reflexivity.
  - rewrite IH. reflexivity.
  - ring.
  - rewrite IH1. exact IH2.
Qed.

Lemma written_rows_weights (db : Db) (delivery_id : Z)
    (l : list CompartmentAssignmentRequest.t)
    (rows : list CompartmentDeliveryAssignments.t) :
  densities_as_declared db →
  Forall (fun a => 0 < CompartmentAssignmentRequest.assigned_volume_liters a ≤ 50000) l →
  Forall2 (written_for db delivery_id) l rows →
  (sum_row_weights rows == sum_weights db l)%Q.
Proof.
  intros Hd Hl H. induction H as [|a row l rows (p & Hp & ->) _ IH]; simpl.
  - reflexivity.
  - inversion Hl as [|? ? Ha Hl']; subst. rewrite (IH Hl').
    unfold density_of. rewrite Hp.
    rewrite (mul_volume_density _ _ Ha (Hd _ _ Hp)).
    destruct (Hd _ _ Hp) as [He _].
    unfold Decimal.value. cbn [Decimal.dcoef Decimal.dexp]. rewrite He.
    rewrite inject_Z_mult. ring.
Qed.

Lemma written_rows_weight_each (db : Db) (delivery_id : Z)
    (l : list CompartmentAssignmentRequest.t)
    (rows : list CompartmentDeliveryAssignments.t) :
  densities_as_declared db →
  Forall (fun a => 0 < CompartmentAssignmentRequest.assigned_volume_liters a ≤ 50000) l →
  Forall2 (written_for db delivery_id) l rows →
  Forall (fun row =>
            (Decimal.value (CompartmentDeliveryAssignments.calculated_weight_kg row)
             == inject_Z (CompartmentDeliveryAssignments.assigned_volume_liters row)
                * density_of db (CompartmentDeliveryAssignments.fuel_product_id row))%Q)
         rows.
Proof.
  intros Hd Hl H. induction H as [|a row l rows (p & Hp & ->) _ IH]; [constructor|].
  inversion Hl as [|? ? Ha Hl']; subst. constructor; [|apply IH, Hl'].
  simpl. unfold density_of. rewrite Hp.
  rewrite (mul_volume_density _ _ Ha (Hd _ _ Hp)).
  destruct (Hd _ _ Hp) as [He _].
  unfold Decimal.value. cbn [Decimal.dcoef Decimal.dexp]. rewrite He.
  rewrite inject_Z_mult. ring.
Qed.

(** The response carries the total weight of the first loop. *)
Lemma create_Ok_weight (strftime_yymmdd : datetime -> string) (db : Db)
    (project_id : Z) (req : BulkTankerDeliveryRequest.t) (now : datetime)
    (resp : CreateResponse.t) (db' : Db) (tv : Z) (tw : Decimal.t) :
  create_from_request strftime_yymmdd db project_id req now = Ok (resp, db') →
  for_fold (add_to_totals db) (0, Decimal.zero)
           (BulkTankerDeliveryRequest.compartment_assignments req) = Ok (tv, tw) →
  CreateResponse.total_weight_kg resp = tw.
Proof.
  intros H Htot. unfold create_from_request in H.
  destruct (select_tanker _ _ _); [|discriminate].
  destruct (_ || _); [discriminate|].
  destruct (validate_cross_contamination _ _); simpl in H; [|discriminate].
  destruct (filter _ _); [|discriminate].
  rewrite Htot in H. simpl in H.
  destruct (utilization_percent _ _); simpl in H; [|discriminate].
  destruct (for_fold (create_assignment db _) _ _); simpl in H; [|discriminate].
  injection H as <- _. reflexivity.
Qed.

(** X20.  With densities of four decimal places and at most six digits, as
    the density column is declared, and assignment rows that all refer to
    delivery rows, the weight the creation computes for each assignment row
    is its volume times the density of its product, and the total weight it
    computes for the delivery is the sum of the weights of the delivery's
    assignment rows, without rounding. *)
Theorem X20_weights_add_up (strftime_yymmdd : datetime -> string) (db : Db)
    (project_id : Z) (req : BulkTankerDeliveryRequest.t) (now : datetime)
    (resp : CreateResponse.t) (db' : Db) :
  densities_as_declared db →
  assignments_refer_to_deliveries db →
  post_delivery strftime_yymmdd db project_id (Some req) now = Ok (resp, db') →
  Forall (fun kv =>
            (Decimal.value
               (CompartmentDeliveryAssignments.calculated_weight_kg (snd kv))
             == inject_Z
                  (CompartmentDeliveryAssignments.assigned_volume_liters (snd kv))
                * density_of db
                    (CompartmentDeliveryAssignments.fuel_product_id (snd kv)))%Q)
         (compartment_assignments db' (CreateResponse.delivery_id resp))
  ∧ ∃ delivery,
      deliveries db' !! CreateResponse.delivery_id resp = Some delivery
      ∧ (Decimal.value (BulkTankerDeliveries.total_weight_kg delivery)
         == sum_row_weights
              (map snd (compartment_assignments db'
                          (CreateResponse.delivery_id resp))))%Q
      ∧ CreateResponse.total_weight_kg resp
        = BulkTankerDeliveries.total_weight_kg delivery.
Proof.
  intros Hd Hfk H. rewrite post_delivery_Some in H. apply validated_Ok in H.
  destruct H as [Hvalid H]. apply delivery_request_accepted in Hvalid.
  destruct Hvalid as [Hvol Hlen].
  pose proof (create_Ok_inv _ _ _ _ _ _ _ H)
    as (_ & tw & _ & delivery & _ & _ & Hfits & _ & Htot & _ & Hl & _ & _ & Htw & _).
  pose proof (create_Ok_weight _ _ _ _ _ _ _ _ _ H Htot) as Hresp.
  apply create_Ok_store in H. destruct H as (created & Hid & Hloop & _ & _).
  rewrite Hid in *.
  destruct (creation_relationship _ _ _ _ Hfk Hloop) as (rows & Hrows & Hrel).
  split.
  - apply Forall_forall. intros [k row] Hin.
    assert (row ∈ rows) as Hrow.
    { rewrite <- Hrel. apply list_elem_of_fmap. exists (k, row). auto. }
    pose proof (written_rows_weight_each db _ _ _ Hd Hvol Hrows) as Hall.
    rewrite Forall_forall in Hall. apply Hall, Hrow.
  - exists delivery. split; [exact Hl|]. split; [|rewrite Hresp, Htw; reflexivity].
    rewrite Htw, (totals_weight _ _ _ _ Hd Hvol Hlen Htot).
    rewrite (weight_coefficient_value _ _ Hd Hfits).
    rewrite (sum_row_weights_Permutation _ _ Hrel).
    symmetry. apply (written_rows_weights db _ _ _ Hd Hvol Hrows).
Qed.

Lemma X20_weights_add_up_witness :
  ∃ resp db' delivery,
    post_delivery Scenario.calendar Scenario.db_clean 1
      (Some (Scenario.request 1 [Scenario.assign 1 1 9000; Scenario.assign 2 1 5000]))
      2500
    = Ok (resp, db')
    ∧ deliveries db' !! CreateResponse.delivery_id resp = Some delivery
    ∧ CreateResponse.total_weight_kg resp
      = BulkTankerDeliveries.total_weight_kg delivery.
Proof.
  destruct (post_delivery Scenario.calendar Scenario.db_clean 1
              (Some (Scenario.request 1
                       [Scenario.assign 1 1 9000; Scenario.assign 2 1 5000]))
              2500) as [[resp db']|e] eqn:H.
  - destruct (X20_weights_add_up Scenario.calendar Scenario.db_clean 1
                (Scenario.request 1
                   [Scenario.assign 1 1 9000; Scenario.assign 2 1 5000])
                2500 resp db') as (_ & delivery & Hl & _ & Hr).
    + intros id product Hp. unfold Scenario.db_clean in Hp. simpl in Hp.
      apply lookup_singleton_Some in Hp. destruct Hp as [_ <-].
      split; [reflexivity | simpl; lia].
    + intros id row Hrow. simpl in Hrow. rewrite lookup_empty in Hrow.
      discriminate Hrow.
    + exact H.
    + exists resp, db', delivery. split; [reflexivity|]. split; assumption.
  - vm_compute in H. discriminate H.
Defined.

(** ** A creation followed by a status update *)

(** X21.  The id a creation answers with is unknown to the status update
    before the creation and known after it: an update of that id that
    carries only a status, one of the seven, is then accepted, leaves the
    assignments of the delivery as the creation wrote them, and keeps the
    reference, the total volume, the number of compartments and the planned
    times of the creation. *)
Theorem X21_update_after_creation (strftime_yymmdd : datetime -> string)
    (db : Db) (project_id : Z) (req : BulkTankerDeliveryRequest.t)
    (now later : datetime) (resp : CreateResponse.t) (db1 : Db)
    (status_update : DeliveryStatusUpdate.t) :
  post_delivery strftime_yymmdd db project_id (Some req) now = Ok (resp, db1) →
  only_status status_update →
  DeliveryStatusUpdate.delivery_status status_update ∈ delivery_status_values →
  put_delivery_status db (CreateResponse.delivery_id resp) status_update later
  = Raise (if in_int32 (CreateResponse.delivery_id resp)
           then NotFound "Delivery not found"
           else Unhandled "sqlalchemy.exc.DBAPIError")
  ∧ ∃ answer db2 delivery,
      put_delivery_status db1 (CreateResponse.delivery_id resp) status_update later
      = Ok (answer, db2)
      ∧ deliveries db2 !! CreateResponse.delivery_id resp = Some delivery
      ∧ compartment_assignments db2 (CreateResponse.delivery_id resp)
        = compartment_assignments db1 (CreateResponse.delivery_id resp)
      ∧ BulkTankerDeliveries.delivery_status delivery
        = DeliveryStatusUpdate.delivery_status status_update
      ∧ BulkTankerDeliveries.delivery_reference delivery
        = CreateResponse.delivery_reference resp
      ∧ BulkTankerDeliveries.total_volume_liters delivery
        = CreateResponse.total_volume_liters resp
      ∧ BulkTankerDeliveries.compartments_used delivery
        = CreateResponse.compartments_used resp
      ∧ BulkTankerDeliveries.planned_departure delivery
        = BulkTankerDeliveryRequest.planned_departure req
      ∧ BulkTankerDeliveries.planned_completion delivery
        = BulkTankerDeliveryRequest.planned_completion req
      ∧ BulkTankerDeliveries.updated_at delivery = later.
Proof.
  intros H _ Hstatus. rewrite post_delivery_Some in H. apply validated_Ok in H.
  destruct H as [_ H].
  apply create_Ok_store in H.
  destruct H as (created & Hid & Hloop & Hrow & Hresp).
  apply assignments_loop_tables in Hloop. destruct Hloop as (_ & _ & _ & Hd).
  simpl in Hd.
  assert (deliveries db1 !! CreateResponse.delivery_id resp = Some created) as Hl
    by (rewrite Hid, Hd; apply lookup_insert_eq).
  unfold put_delivery_status, status_update_errors.
  rewrite (regex_match_member _ _ Hstatus), !validated_pass.
  unfold update_delivery_status. split.
  - rewrite Hid, next_id_fresh by lia. reflexivity.
  - rewrite Hl. eexists _, _, _. split; [reflexivity|]. simpl.
    split; [apply lookup_insert_eq|]. split; [reflexivity|].
    pose proof (apply_status_update_fields created status_update later)
      as ((Href & _ & _ & _ & _ & Hdep & Hcomp & Hvol & _ & _ & Hused & _)
          & Hupd & _).
    simpl in Href, Hdep, Hcomp, Hvol, Hused, Hupd.
    rewrite apply_status_update_status, Href, Hdep, Hcomp, Hvol, Hused, Hupd.
    destruct Hrow as (_ & _ & _ & _ & _ & -> & -> & _ & _ & _ & _ & _ & _ & _
                      & _ & _ & _).
    destruct Hresp as (-> & _ & -> & -> & _).
    repeat split; reflexivity.
Qed.

Lemma X21_update_after_creation_witness :
  ∃ resp db1 answer db2,
    post_delivery Scenario.calendar Scenario.db_clean 1
      (Some (Scenario.request 1 [Scenario.assign 1 1 9000])) 2500
    = Ok (resp, db1)
    ∧ put_delivery_status db1 (CreateResponse.delivery_id resp)
        (Scenario.status_only "dispatched") 2600
      = Ok (answer, db2).
Proof.
  destruct (post_delivery Scenario.calendar Scenario.db_clean 1
              (Some (Scenario.request 1 [Scenario.assign 1 1 9000])) 2500)
    as [[resp db1]|e] eqn:H.
  - destruct (X21_update_after_creation Scenario.calendar Scenario.db_clean 1
                (Scenario.request 1 [Scenario.assign 1 1 9000]) 2500 2600
                resp db1 (Scenario.status_only "dispatched") H)
      as (_ & answer & db2 & _ & Hput & _).
    + repeat split.
    + simpl. in_list.
    + exists resp, db1, answer, db2. split; [reflexivity | exact Hput].
  - vm_compute in H. discriminate H.
Defined.

(** ** The validation and the estimate side by side *)

(** X22.  For an assignment the validation loop accepts, the cleaning
    estimate for the same compartment and product is answered too.  Both
    name the same last and requested products, and the cleaning time of the
    check, when it has one, is at most the time of the estimate; the
    estimate reports a cleaning also when the check requires none. *)
Theorem X22_estimate_covers_check (db : Db) (a : CompartmentAssignmentRequest.t)
    (check : CrossContaminationCheck.t) :
  check_assignment db a = Ok check →
  ∃ estimate,
    get_cleaning_estimate db (CompartmentAssignmentRequest.compartment_id a)
      (CompartmentAssignmentRequest.fuel_product_id a) = Ok estimate
    ∧ CleaningEstimate.compartment_id estimate
      = CrossContaminationCheck.compartment_id check
    ∧ CleaningEstimate.current_product estimate
      = CrossContaminationCheck.current_product check
    ∧ CleaningEstimate.target_product estimate
      = CrossContaminationCheck.requested_product check
    ∧ 120 ≤ CleaningEstimate.time_required estimate
    ∧ (∀ t, CrossContaminationCheck.estimated_cleaning_time_minutes check = Some t →
            t ≤ CleaningEstimate.time_required estimate)
    ∧ (CrossContaminationCheck.cleaning_required check = true →
       CleaningEstimate.time_required estimate = 120
       ∨ CleaningEstimate.time_required estimate = 180).
Proof.
  intros H. apply check_assignment_Ok in H.
  destruct H as (c & requested & Hc & Hp & _ & ->).
  unfold get_cleaning_estimate. rewrite Hc, Hp. simpl.
  unfold contamination_assessment, risk_of, cleaning_of, time_of.
  destruct (last_product db c) as [last|]; simpl.
  - destruct (bool_decide (FuelProducts.product_code last
                           ∈ FuelProducts.cleaning_required_after requested));
      destruct (bool_decide (FuelProducts.product_code last
                             ∈ FuelProducts.cross_contamination_risk requested));
      destruct (bool_decide (FuelProducts.fuel_type last
                             = FuelProducts.fuel_type requested));
      simpl; eexists; (split; [reflexivity|]); simpl;
      repeat (split; [first [reflexivity | lia]|]);
      (split; [intros t [= <-]; lia | auto]).
  - eexists. split; [reflexivity|]. simpl.
    repeat (split; [first [reflexivity | lia]|]).
    split; [intros t [=] | auto].
Qed.

Lemma X22_estimate_covers_check_witness :
  ∃ check estimate,
    check_assignment Scenario.db_used (Scenario.assign 2 1 5000) = Ok check
    ∧ get_cleaning_estimate Scenario.db_used 2 1 = Ok estimate
    ∧ CrossContaminationCheck.estimated_cleaning_time_minutes check = Some 120
    ∧ CleaningEstimate.time_required estimate = 180.
Proof.
  destruct (check_assignment Scenario.db_used (Scenario.assign 2 1 5000))
    as [check|e] eqn:H; [|vm_compute in H; discriminate H].
  destruct (X22_estimate_covers_check Scenario.db_used (Scenario.assign 2 1 5000)
              check H) as (estimate & He & _).
  exists check, estimate. split; [reflexivity|]. split; [exact He|].
  vm_compute in H. injection H as <-. vm_compute in He. injection He as <-.
  split; reflexivity.
Defined.

(** ** The validation, assignment by assignment *)

Lemma for_each_app {A B : Type} (body : A -> Result B) (l1 l2 : list A)
    (ys : list B) :
  for_each body (l1 ++ l2) = Ok ys
  ↔ ∃ ys1 ys2, for_each body l1 = Ok ys1 ∧ for_each body l2 = Ok ys2
               ∧ ys = ys1 ++ ys2.
Proof.
  rewrite for_each_Ok. split.
  - intros H. apply Forall2_app_inv_l in H.
    destruct H as (ys1 & ys2 & H1 & H2 & ->).
    exists ys1, ys2. rewrite !for_each_Ok. auto.
  - intros (ys1 & ys2 & H1 & H2 & ->). apply for_each_Ok in H1, H2.
    apply Forall2_app; assumption.
Qed.

(** X23.  The contamination validation judges each assignment on its own:
    a list of assignments is answered with checks exactly when its two
    parts are, and the checks are then those of the first part followed by
    those of the second.  In particular it answers an empty list with an
    empty list, and a list in which a compartment occurs twice with the
    checks of each occurrence, without adding up the volumes. *)
Theorem X23_validation_per_assignment (db : Db)
    (first second : list CompartmentAssignmentRequest.t) :
  (∀ checks,
     post_validate_contamination db (first ++ second) = Ok checks
     ↔ ∃ checks1 checks2,
         post_validate_contamination db first = Ok checks1
         ∧ post_validate_contamination db second = Ok checks2
         ∧ checks = checks1 ++ checks2)
  ∧ post_validate_contamination db [] = Ok []
  ∧ (∀ a check,
       post_validate_contamination db [a] = Ok [check] →
       post_validate_contamination db [a; a] = Ok [check; check]).
Proof.
  assert (∀ l1 l2 checks,
            post_validate_contamination db (l1 ++ l2) = Ok checks
            ↔ ∃ checks1 checks2,
                post_validate_contamination db l1 = Ok checks1
                ∧ post_validate_contamination db l2 = Ok checks2
                ∧ checks = checks1 ++ checks2) as Happ.
  { intros l1 l2 checks. unfold post_validate_contamination.
    rewrite validated_Ok. unfold validate_cross_contamination.
    rewrite for_each_app, map_app, concat_app. split.
    - intros (Herr & c1 & c2 & H1 & H2 & ->).
      apply app_eq_nil in Herr. destruct Herr as [-> ->].
      exists c1, c2. rewrite !validated_pass. auto.
    - intros (c1 & c2 & H1 & H2 & ->).
      apply validated_Ok in H1, H2. destruct H1 as [-> H1]. destruct H2 as [-> H2].
      split; [reflexivity|]. eauto. }
  split; [apply Happ|]. split; [reflexivity|].
  intros a check H. apply (Happ [a] [a]). eauto.
Qed.

Lemma X23_validation_per_assignment_witness :
  ∃ check,
    post_validate_contamination Scenario.db_clean [Scenario.assign 1 1 9000]
    = Ok [check]
    ∧ post_validate_contamination Scenario.db_clean
        [Scenario.assign 1 1 9000; Scenario.assign 1 1 9000]
      = Ok [check; check].
Proof.
  destruct (post_validate_contamination Scenario.db_clean [Scenario.assign 1 1 9000])
    as [[|check [|? ?]]|e] eqn:H; try (vm_compute in H; discriminate H).
  exists check. split; [reflexivity|].
  exact (proj2 (proj2 (X23_validation_per_assignment Scenario.db_clean [] []))
           (Scenario.assign 1 1 9000) check H).
Defined.
